(** * EV charging kiosk: the authorization-and-metering core

    A shallow embedding of the kiosk's TypeScript sources:

    - [services/database.ts]   the [db] object over [localStorage];
    - [services/hardware.ts]   the [HardwareService] (relay, mock battery);
    - [context/AppContext.tsx] the shared React state and the metering tick;
    - [components/CostSelectionScreen.tsx], [AuthScreen.tsx],
      [ChargingScreen.tsx], [AdminPanel.tsx]  the event handlers;
    - [components/SummaryScreen.tsx]  what the summary looks up and shows.

    Conventions of the embedding.

    - A JavaScript [number] is an exact rational ([Q]); rounding, [NaN] and
      the infinities of binary64 are not represented.  The one place where a
      literal instance is evaluated ([calculateTargetBattery]) is evaluated a
      second time on primitive binary64 floats, in [Module Binary64].
    - [Date.now()] is an integer number of milliseconds ([Z]) supplied by the
      caller of each handler; [new Date().toISOString()] is kept as that
      number.  The readings of the clock one handler makes are taken at one
      instant; nothing is stated about the time that passes between them.
    - A [localStorage] key holds [None] (key absent) or the JSON-decoded
      value.  The settings key is not part of the store: settings live in
      the context only and start from [DEFAULT_SETTINGS].  [JSON.parse] builds fresh objects; the module-level array
      [DEFAULT_USERS] is a mutable cell of the store, because [db.getUsers]
      hands out the array itself and its element objects.
    - An [async] handler runs to completion as one step; what the backend or
      the random source answers is an explicit argument of the step. *)

From Stdlib Require Import List String ZArith QArith Qminmax Qround Bool Lia Lqa.
From Stdlib Require Import DecimalString Permutation.
From Stdlib Require Floats.PrimFloat.
Import ListNotations.

Local Open Scope string_scope.
Local Open Scope Q_scope.

(** ** types.ts *)

Module User.
Record t : Type := mk {
  id          : string;
  name        : string;
  rfidCardId  : string;
  balance     : Q;
  phoneNumber : option string;
  createdAt   : string
}.

(** [user.balance = b] *)
Definition set_balance (b : Q) (u : t) : t :=
  mk (id u) (name u) (rfidCardId u) b (phoneNumber u) (createdAt u).
End User.

Inductive SessionStatus : Type := in_progress | completed | stopped.

Definition SessionStatus_eqb (a b : SessionStatus) : bool :=
  match a, b with
  | in_progress, in_progress | completed, completed | stopped, stopped => true
  | _, _ => false
  end.

Module ChargingSession.
Record t : Type := mk {
  id               : string;
  userId           : string;
  userName         : string;
  paidAmount       : Q;
  targetBattery    : Q;
  startBattery     : Q;
  endBattery       : option Q;
  energyDelivered  : Q;
  voltage          : Q;
  current          : Q;
  power            : Q;
  startTime        : Z;
  endTime          : option Z;
  status           : SessionStatus;
  remainingBalance : Q
}.
End ChargingSession.

(** [Partial<ChargingSession>]: the fields an update object carries. *)
Module SessionUpdates.
Record t : Type := mk {
  id               : option string;
  userId           : option string;
  userName         : option string;
  paidAmount       : option Q;
  targetBattery    : option Q;
  startBattery     : option Q;
  endBattery       : option (option Q);
  energyDelivered  : option Q;
  voltage          : option Q;
  current          : option Q;
  power            : option Q;
  startTime        : option Z;
  endTime          : option (option Z);
  status           : option SessionStatus;
  remainingBalance : option Q
}.

Definition none : t :=
  mk None None None None None None None None None None None None None None None.

(** A whole session used as the update object. *)
Definition all (s : ChargingSession.t) : t :=
  mk (Some (ChargingSession.id s)) (Some (ChargingSession.userId s))
     (Some (ChargingSession.userName s)) (Some (ChargingSession.paidAmount s))
     (Some (ChargingSession.targetBattery s)) (Some (ChargingSession.startBattery s))
     (Some (ChargingSession.endBattery s)) (Some (ChargingSession.energyDelivered s))
     (Some (ChargingSession.voltage s)) (Some (ChargingSession.current s))
     (Some (ChargingSession.power s)) (Some (ChargingSession.startTime s))
     (Some (ChargingSession.endTime s)) (Some (ChargingSession.status s))
     (Some (ChargingSession.remainingBalance s)).
End SessionUpdates.

Definition or_else {A : Type} (o : option A) (d : A) : A :=
  match o with Some a => a | None => d end.

(** [{ ...session, ...updates }] *)
Definition spread (s : ChargingSession.t) (u : SessionUpdates.t) : ChargingSession.t :=
  ChargingSession.mk
    (or_else (SessionUpdates.id u) (ChargingSession.id s))
    (or_else (SessionUpdates.userId u) (ChargingSession.userId s))
    (or_else (SessionUpdates.userName u) (ChargingSession.userName s))
    (or_else (SessionUpdates.paidAmount u) (ChargingSession.paidAmount s))
    (or_else (SessionUpdates.targetBattery u) (ChargingSession.targetBattery s))
    (or_else (SessionUpdates.startBattery u) (ChargingSession.startBattery s))
    (or_else (SessionUpdates.endBattery u) (ChargingSession.endBattery s))
    (or_else (SessionUpdates.energyDelivered u) (ChargingSession.energyDelivered s))
    (or_else (SessionUpdates.voltage u) (ChargingSession.voltage s))
    (or_else (SessionUpdates.current u) (ChargingSession.current s))
    (or_else (SessionUpdates.power u) (ChargingSession.power s))
    (or_else (SessionUpdates.startTime u) (ChargingSession.startTime s))
    (or_else (SessionUpdates.endTime u) (ChargingSession.endTime s))
    (or_else (SessionUpdates.status u) (ChargingSession.status s))
    (or_else (SessionUpdates.remainingBalance u) (ChargingSession.remainingBalance s)).

Record SystemSettings : Type := {
  fullChargeCost         : Q;
  costPerKWh             : Q;
  defaultBatteryCapacity : Q
}.

Inductive TransactionType : Type := charge | recharge | deduction | addition.

Module Transaction.
Record t : Type := mk {
  id          : string;
  userId      : string;
  userName    : string;
  type        : TransactionType;
  amount      : Q;
  timestamp   : Z;
  description : string;
  sessionId   : option string
}.
End Transaction.

(** ** services/database.ts *)

Definition DEFAULT_SETTINGS : SystemSettings :=
  {| fullChargeCost := 100; costPerKWh := 10; defaultBatteryCapacity := 5000 |}.

(** [loadedAt] is [new Date().toISOString()] at the time the module is loaded. *)
Definition DEFAULT_USERS (loadedAt : string) : list User.t :=
  [ User.mk "1" "Lalit Nikumbh"   "RFID001" 100 (Some "+91 9876543212") loadedAt;
    User.mk "2" "Fateen Shaikh"   "RFID002" 150 (Some "+91 9876543213") loadedAt;
    User.mk "3" "Nishad Deshmukh" "RFID003" 90  (Some "+91 9876543214") loadedAt ].

(** The persistent state behind [db]: three [localStorage] keys and the
    current contents of the module-level [DEFAULT_USERS] array. *)
Record Store : Type := {
  ls_users        : option (list User.t);
  ls_sessions     : option (list ChargingSession.t);
  ls_transactions : option (list Transaction.t);
  default_users   : list User.t
}.

Definition set_ls_users (v : option (list User.t)) (s : Store) : Store :=
  {| ls_users := v; ls_sessions := ls_sessions s;
     ls_transactions := ls_transactions s; default_users := default_users s |}.

Definition set_ls_sessions (v : option (list ChargingSession.t)) (s : Store) : Store :=
  {| ls_users := ls_users s; ls_sessions := v;
     ls_transactions := ls_transactions s; default_users := default_users s |}.

Definition set_ls_transactions (v : option (list Transaction.t)) (s : Store) : Store :=
  {| ls_users := ls_users s; ls_sessions := ls_sessions s;
     ls_transactions := v; default_users := default_users s |}.

Definition set_default_users (d : list User.t) (s : Store) : Store :=
  {| ls_users := ls_users s; ls_sessions := ls_sessions s;
     ls_transactions := ls_transactions s; default_users := d |}.

(** A browser profile that never ran the kiosk, with the module just loaded. *)
Definition fresh_store (loadedAt : string) : Store :=
  {| ls_users := None; ls_sessions := None; ls_transactions := None;
     default_users := DEFAULT_USERS loadedAt |}.

(** [names.includes(n)] *)
Definition includes (names : list string) (n : string) : bool :=
  existsb (String.eqb n) names.

(** The array [db.getUsers] returns, with the sharing it has in the heap:
    - [TheDefaults]: the [DEFAULT_USERS] array itself;
    - [Merged own existingNames]: a new array of the parsed objects [own]
      followed by the objects of [DEFAULT_USERS] whose name is not in
      [existingNames] (the very objects, not copies);
    - [Parsed own]: a new array of parsed objects only. *)
Inductive UsersArray : Type :=
| TheDefaults
| Merged (own : list User.t) (existingNames : list string)
| Parsed (own : list User.t).

Definition is_missing (existingNames : list string) (defaultUser : User.t) : bool :=
  negb (includes existingNames (User.name defaultUser)).

(** The users an array holds when read in store [s]. *)
Definition users_of (s : Store) (a : UsersArray) : list User.t :=
  match a with
  | TheDefaults => default_users s
  | Merged own existingNames => own ++ filter (is_missing existingNames) (default_users s)
  | Parsed own => own
  end.

Definition saveUsers (users : list User.t) (s : Store) : Store :=
  set_ls_users (Some users) s.

Definition not_placeholder (user : User.t) : bool :=
  negb (User.name user =? "John Doe") && negb (User.name user =? "Jane Smith").

Definition getUsers (s : Store) : UsersArray * Store :=
  match ls_users s with
  | None => (TheDefaults, saveUsers (default_users s) s)
  | Some users =>
      let filteredUsers := filter not_placeholder users in
      let existingNames := map User.name filteredUsers in
      let missingUsers := filter (is_missing existingNames) (default_users s) in
      if (0 <? List.length missingUsers)%nat then
        (Merged filteredUsers existingNames, saveUsers (filteredUsers ++ missingUsers) s)
      else if negb (List.length filteredUsers =? List.length users)%nat then
        (Parsed filteredUsers, saveUsers filteredUsers s)
      else if (List.length filteredUsers <? 3)%nat then
        (TheDefaults, saveUsers (default_users s) s)
      else (Parsed filteredUsers, s)
  end.

(** [db.getUsers()] as a caller that only reads the result sees it. *)
Definition getUsers_list (s : Store) : list User.t :=
  let '(a, s1) := getUsers s in users_of s1 a.

Definition resetUsers (s : Store) : Store := saveUsers (default_users s) s.

Definition has_rfid (r : string) (u : User.t) : bool := User.rfidCardId u =? r.
Definition has_id (i : string) (u : User.t) : bool := User.id u =? i.

Definition getUserByRfid (rfidCardId : string) (s : Store) : option User.t * Store :=
  let '(users, s1) := getUsers s in
  (find (has_rfid rfidCardId) (users_of s1 users), s1).

(** Assign [balance] in the first element that satisfies [p]. *)
Fixpoint assign_first (p : User.t -> bool) (b : Q) (l : list User.t) : list User.t :=
  match l with
  | [] => []
  | u :: l' => if p u then User.set_balance b u :: l' else u :: assign_first p b l'
  end.

(** [user.balance = newBalance] for [user = users.find(u => u.id === userId)]:
    the object written is an element of [DEFAULT_USERS] when [find] stops on
    one, and then the module-level array changes with it. *)
Definition assign_found (userId : string) (newBalance : Q)
    (a : UsersArray) (s : Store) : UsersArray * Store :=
  match a with
  | TheDefaults =>
      (TheDefaults,
       set_default_users (assign_first (has_id userId) newBalance (default_users s)) s)
  | Merged own existingNames =>
      if existsb (has_id userId) own
      then (Merged (assign_first (has_id userId) newBalance own) existingNames, s)
      else (Merged own existingNames,
            set_default_users
              (assign_first (fun d => is_missing existingNames d && has_id userId d)
                            newBalance (default_users s)) s)
  | Parsed own => (Parsed (assign_first (has_id userId) newBalance own), s)
  end.

Definition updateUserBalance (userId : string) (newBalance : Q) (s : Store) : Store :=
  let '(users, s1) := getUsers s in
  match find (has_id userId) (users_of s1 users) with
  | Some _ =>
      let '(users', s2) := assign_found userId newBalance users s1 in
      saveUsers (users_of s2 users') s2
  | None => s1
  end.

(** [users.push(user)]: appends to [DEFAULT_USERS] when [users] is that array. *)
Definition addUser (user : User.t) (s : Store) : Store :=
  let '(users, s1) := getUsers s in
  match users with
  | TheDefaults =>
      let s2 := set_default_users (default_users s1 ++ [user]) s1 in
      saveUsers (default_users s2) s2
  | _ => saveUsers (users_of s1 users ++ [user]) s1
  end.

Definition getSessions (s : Store) : list ChargingSession.t :=
  or_else (ls_sessions s) [].

Definition saveSessions (sessions : list ChargingSession.t) (s : Store) : Store :=
  set_ls_sessions (Some sessions) s.

Definition createSession (session : ChargingSession.t) (s : Store) : Store :=
  saveSessions (getSessions s ++ [session]) s.

(** [sessions[index] = { ...sessions[index], ...updates }] at
    [index = sessions.findIndex(s => s.id === sessionId)]. *)
Fixpoint update_first (sessionId : string) (updates : SessionUpdates.t)
    (l : list ChargingSession.t) : option (list ChargingSession.t) :=
  match l with
  | [] => None
  | x :: l' =>
      if ChargingSession.id x =? sessionId then Some (spread x updates :: l')
      else option_map (cons x) (update_first sessionId updates l')
  end.

Definition updateSession (sessionId : string) (updates : SessionUpdates.t)
    (s : Store) : Store :=
  match update_first sessionId updates (getSessions s) with
  | Some sessions => saveSessions sessions s
  | None => s
  end.

Definition is_in_progress (x : ChargingSession.t) : bool :=
  SessionStatus_eqb (ChargingSession.status x) in_progress.

Definition getActiveSession (s : Store) : option ChargingSession.t :=
  find is_in_progress (getSessions s).

Definition getTransactions (s : Store) : list Transaction.t :=
  or_else (ls_transactions s) [].

Definition saveTransactions (l : list Transaction.t) (s : Store) : Store :=
  set_ls_transactions (Some l) s.

Definition addTransaction (t : Transaction.t) (s : Store) : Store :=
  saveTransactions (getTransactions s ++ [t]) s.

(** ** JavaScript helpers *)

(** [n.toString()] for an integer [n]. *)
Definition toString (n : Z) : string := NilZero.string_of_int (Z.to_int n).

(** [Math.round(x)] *)
Definition Math_round (x : Q) : Q := inject_Z (Qfloor (x + (1 # 2))).

(** [x.toFixed(0)] *)
Definition toFixed0 (x : Q) : string := toString (Qfloor (x + (1 # 2))).

(** [a > b] and [a >= b] on numbers *)
Definition Qgt_bool (a b : Q) : bool := negb (Qle_bool a b).
Definition Qge_bool (a b : Q) : bool := Qle_bool b a.

(** [x || d] for an optional number [x]: [undefined] and [0] give [d]. *)
Definition num_or (x : option Q) (d : Q) : Q :=
  match x with
  | Some v => if Qeq_bool v 0 then d else v
  | None => d
  end.

(** [x || null] *)
Definition num_or_null (x : option Q) : option Q :=
  match x with
  | Some v => if Qeq_bool v 0 then None else Some v
  | None => None
  end.

(** [s || null] for an optional string: the empty string is falsy. *)
Definition str_or_null (x : option string) : option string :=
  match x with
  | Some EmptyString => None
  | other => other
  end.

(** ** services/hardware.ts *)

Module BatteryStatus.
Record t : Type := mk {
  percentage : Q;
  voltage    : Q;
  current    : Q;
  power      : Q
}.
End BatteryStatus.

(** [ChargingStatus], as far as the service reads it: [currentUser] is kept
    as the user's id. *)
Record ChargingStatus : Type := {
  isCharging     : bool;
  cs_currentUser : option string
}.

(** Calls of the relay capability, in the order they were made. *)
Inductive RelayCall : Type :=
| CallStart (target : Q) (result : bool)
| CallStop (result : bool).

Definition is_start (c : RelayCall) : bool :=
  match c with CallStart _ _ => true | CallStop _ => false end.

(** What the Python backend answers to [startCharging]: the health check
    fails ([BackendDown], mock mode), or it succeeds and then
    [getChargingStatus] yields [status] ([None] when its own health check or
    fetch fails) and [POST /charging/start] is accepted or not. *)
Inductive StartReply : Type :=
| StartBackendDown
| StartBackendUp (status : option ChargingStatus) (accepted : bool).

Inductive StopReply : Type :=
| StopBackendDown
| StopBackendUp (accepted : bool).

Inductive ScanAction : Type := started | stopped_action.

Inductive ScanReply : Type :=
| ScanBackendDown
| ScanFailed
| ScanData (action : option ScanAction) (rfidCardId : option string).

Module Hardware.
Record t : Type := mk {
  chargingActive  : bool;
  currentBattery  : Q;
  targetBattery   : Q;
  startTime       : Z;
  energyDelivered : Q;
  chargingStatus  : option ChargingStatus;
  calls           : list RelayCall   (* ghost: relay calls made so far *)
}.

Definition init : t := mk false 35 0 0 0 None [].

Definition set_chargingActive (b : bool) (h : t) : t :=
  mk b (currentBattery h) (targetBattery h) (startTime h) (energyDelivered h)
     (chargingStatus h) (calls h).

Definition set_startTime (z : Z) (h : t) : t :=
  mk (chargingActive h) (currentBattery h) (targetBattery h) z (energyDelivered h)
     (chargingStatus h) (calls h).

Definition record_call (c : RelayCall) (h : t) : t :=
  mk (chargingActive h) (currentBattery h) (targetBattery h) (startTime h)
     (energyDelivered h) (chargingStatus h) (calls h ++ [c]).

Definition scanRfid (reply : ScanReply) (now : Z) (h : t) : option string * t :=
  match reply with
  | ScanBackendDown => (Some "RFID001", h)
  | ScanFailed => (None, h)
  | ScanData action rfid =>
      let h' := match action with
                | Some started => set_startTime now (set_chargingActive true h)
                | Some stopped_action => set_chargingActive false h
                | None => h
                end in
      (str_or_null rfid, h')
  end.

Definition getChargingStatus (status : option ChargingStatus) (h : t)
    : option ChargingStatus * t :=
  match status with
  | Some st =>
      (Some st,
       mk (isCharging st) (currentBattery h) (targetBattery h) (startTime h)
          (energyDelivered h) (Some st) (calls h))
  | None => (None, h)
  end.

(** [rv], [rc] are the two values of [Math.random()]. *)
Definition getBatteryStatus (rv rc : Q) (h : t) : BatteryStatus.t :=
  let voltage := 48 + rv * 4 in
  let current := if chargingActive h then 40 + rc * 10 else 0 in
  let power := voltage * current in
  BatteryStatus.mk (currentBattery h)
    (Math_round (voltage * 10) / 10)
    (Math_round (current * 10) / 10)
    (Math_round power).

Definition startCharging (target : Q) (now : Z) (reply : StartReply) (h : t)
    : bool * t :=
  let h1 := mk (chargingActive h) (currentBattery h) target now 0
               (chargingStatus h) (calls h) in
  let '(result, h2) :=
    match reply with
    | StartBackendDown => (true, set_chargingActive true h1)
    | StartBackendUp status accepted =>
        let '(st, h2) := getChargingStatus status h1 in
        match st with
        | Some {| cs_currentUser := Some _ |} =>
            if accepted then (true, set_chargingActive true h2) else (false, h2)
        | _ => (false, h2)
        end
    end in
  (result, record_call (CallStart target result) h2).

Definition stopCharging (reply : StopReply) (h : t) : bool * t :=
  let '(result, h1) :=
    match reply with
    | StopBackendDown => (true, set_chargingActive false h)
    | StopBackendUp true => (true, set_chargingActive false h)
    | StopBackendUp false => (false, h)
    end in
  (result, record_call (CallStop result) h1).

(** [reply] answers the [this.stopCharging()] the method fires (without
    awaiting it) once the target is reached. *)
Definition simulateCharging (now : Z) (reply : StopReply) (h : t) : t :=
  if negb (chargingActive h) then h
  else
    let elapsedHours := inject_Z (now - startTime h) / inject_Z (1000 * 60 * 60) in
    let powerW := 2000 in
    let energyWh := powerW * elapsedHours in
    let batteryIncrease := (energyWh / 5000) * 100 in
    let battery := Qmin (currentBattery h + batteryIncrease * (1 # 2)) (targetBattery h) in
    let h1 := mk (chargingActive h) battery (targetBattery h) (startTime h) energyWh
                 (chargingStatus h) (calls h) in
    if Qge_bool (currentBattery h1) (targetBattery h1)
    then snd (stopCharging reply h1)
    else h1.

Definition getEnergyDelivered (h : t) : Q := energyDelivered h.

Definition reset (h : t) : t :=
  mk false 35 0 0 0 (chargingStatus h) (calls h).

Definition setBatteryLevel (level : Q) (h : t) : t :=
  mk (chargingActive h) (Qmax 0 (Qmin 100 level)) (targetBattery h) (startTime h)
     (energyDelivered h) (chargingStatus h) (calls h).
End Hardware.

Inductive RfidEventType : Type :=
| rfid_detected | charging_started | charging_stopped | insufficient_balance.

(** The [user] object an [RfidEvent] carries. *)
Record EventUser : Type := {
  ev_id          : string;
  ev_name        : string;
  ev_balance     : Q;
  ev_rfidCardId  : string;
  ev_phoneNumber : option string;
  ev_createdAt   : option string
}.

Record RfidEvent : Type := {
  ev_type    : RfidEventType;
  ev_user    : option EventUser;
  ev_success : option bool;
  ev_error   : option string
}.

(** The [onmessage] handler of the event stream, before it notifies the
    registered callbacks. *)
Definition onmessage (event : RfidEvent) (now : Z) (h : Hardware.t) : Hardware.t :=
  match ev_type event with
  | charging_started => Hardware.set_startTime now (Hardware.set_chargingActive true h)
  | charging_stopped => Hardware.set_chargingActive false h
  | _ => h
  end.

(** ** The application state *)

Inductive Route : Type := Home | SelectCost | Charging | Summary | Admin.

(** [context/AppContext.tsx]: the state the provider shares. *)
Record AppContext : Type := {
  currentUser    : option User.t;
  currentSession : option ChargingSession.t;
  settings       : SystemSettings;
  batteryStatus  : option BatteryStatus.t
}.

(** Local state of [CostSelectionScreen]. *)
Record CostScreen : Type := {
  selectedAmount : option Q;
  customAmount   : string;
  processing     : bool
}.

(** Local state of [AuthScreen]; [auth_users] is the memoized
    [db.getUsers()] of the mount. *)
Record AuthScreen : Type := {
  scanning    : bool;
  error       : option string;
  cardScanned : bool;
  auth_users  : list User.t
}.

(** Local state of [AdminPanel]. *)
Record AdminPanel : Type := {
  admin_users        : list User.t;
  admin_transactions : list Transaction.t
}.

Record Kiosk : Type := {
  db    : Store;
  hw    : Hardware.t;
  ctx   : AppContext;
  route : Route;
  cost  : CostScreen;
  auth  : AuthScreen;
  admin : AdminPanel
}.

Definition with_db (v : Store) (k : Kiosk) : Kiosk :=
  {| db := v; hw := hw k; ctx := ctx k; route := route k; cost := cost k;
     auth := auth k; admin := admin k |}.
Definition with_hw (v : Hardware.t) (k : Kiosk) : Kiosk :=
  {| db := db k; hw := v; ctx := ctx k; route := route k; cost := cost k;
     auth := auth k; admin := admin k |}.
Definition with_ctx (v : AppContext) (k : Kiosk) : Kiosk :=
  {| db := db k; hw := hw k; ctx := v; route := route k; cost := cost k;
     auth := auth k; admin := admin k |}.
Definition with_route (v : Route) (k : Kiosk) : Kiosk :=
  {| db := db k; hw := hw k; ctx := ctx k; route := v; cost := cost k;
     auth := auth k; admin := admin k |}.
Definition with_cost (v : CostScreen) (k : Kiosk) : Kiosk :=
  {| db := db k; hw := hw k; ctx := ctx k; route := route k; cost := v;
     auth := auth k; admin := admin k |}.
Definition with_auth (v : AuthScreen) (k : Kiosk) : Kiosk :=
  {| db := db k; hw := hw k; ctx := ctx k; route := route k; cost := cost k;
     auth := v; admin := admin k |}.
Definition with_admin (v : AdminPanel) (k : Kiosk) : Kiosk :=
  {| db := db k; hw := hw k; ctx := ctx k; route := route k; cost := cost k;
     auth := auth k; admin := v |}.

Definition setCurrentUser (u : option User.t) (k : Kiosk) : Kiosk :=
  with_ctx {| currentUser := u; currentSession := currentSession (ctx k);
              settings := settings (ctx k); batteryStatus := batteryStatus (ctx k) |} k.
Definition setCurrentSession (x : option ChargingSession.t) (k : Kiosk) : Kiosk :=
  with_ctx {| currentUser := currentUser (ctx k); currentSession := x;
              settings := settings (ctx k); batteryStatus := batteryStatus (ctx k) |} k.
Definition setBatteryStatus (b : option BatteryStatus.t) (k : Kiosk) : Kiosk :=
  with_ctx {| currentUser := currentUser (ctx k); currentSession := currentSession (ctx k);
              settings := settings (ctx k); batteryStatus := b |} k.
Definition setSettings (v : SystemSettings) (k : Kiosk) : Kiosk :=
  with_ctx {| currentUser := currentUser (ctx k); currentSession := currentSession (ctx k);
              settings := v; batteryStatus := batteryStatus (ctx k) |} k.

Definition setSelectedAmount (a : option Q) (k : Kiosk) : Kiosk :=
  with_cost {| selectedAmount := a; customAmount := customAmount (cost k);
               processing := processing (cost k) |} k.
Definition setCustomAmount (v : string) (k : Kiosk) : Kiosk :=
  with_cost {| selectedAmount := selectedAmount (cost k); customAmount := v;
               processing := processing (cost k) |} k.
Definition setProcessing (b : bool) (k : Kiosk) : Kiosk :=
  with_cost {| selectedAmount := selectedAmount (cost k);
               customAmount := customAmount (cost k); processing := b |} k.

Definition setScanning (b : bool) (k : Kiosk) : Kiosk :=
  with_auth {| scanning := b; error := error (auth k); cardScanned := cardScanned (auth k);
               auth_users := auth_users (auth k) |} k.
Definition setError (e : option string) (k : Kiosk) : Kiosk :=
  with_auth {| scanning := scanning (auth k); error := e; cardScanned := cardScanned (auth k);
               auth_users := auth_users (auth k) |} k.
Definition setCardScanned (b : bool) (k : Kiosk) : Kiosk :=
  with_auth {| scanning := scanning (auth k); error := error (auth k); cardScanned := b;
               auth_users := auth_users (auth k) |} k.

(** ** context/AppContext.tsx *)

Module AppCtx.

(** [refreshBatteryStatus], at the moment its promise resolves. *)
Definition refreshBatteryStatus (rv rc : Q) (k : Kiosk) : Kiosk :=
  setBatteryStatus (Some (Hardware.getBatteryStatus rv rc (hw k))) k.

Definition sampled_percentage (k : Kiosk) : option Q :=
  option_map BatteryStatus.percentage (batteryStatus (ctx k)).

(** The session object [stopCharging] builds from the one in the context. *)
Definition finalized (status : SessionStatus) (now : Z) (k : Kiosk)
    (session : ChargingSession.t) : ChargingSession.t :=
  spread session
    (SessionUpdates.mk None None None None None None
       (Some (num_or_null (sampled_percentage k)))
       (Some (Hardware.getEnergyDelivered (hw k)))
       None None None None (Some (Some now)) (Some status) None).

Definition stopCharging (status : SessionStatus) (now : Z) (reply : StopReply)
    (k : Kiosk) : Kiosk :=
  match currentSession (ctx k) with
  | None => k
  | Some session =>
      let updatedSession := finalized status now k session in
      let k1 := with_db (updateSession (ChargingSession.id session)
                           (SessionUpdates.all updatedSession) (db k)) k in
      let k2 := with_hw (snd (Hardware.stopCharging reply (hw k1))) k1 in
      setCurrentSession (Some updatedSession) k2
  end.

(** The update object the interval callback writes every second. *)
Definition metering_updates (energy : Q) (k : Kiosk) : SessionUpdates.t :=
  let b := batteryStatus (ctx k) in
  SessionUpdates.mk None None None None None None None
    (Some energy)
    (Some (num_or (option_map BatteryStatus.voltage b) 0))
    (Some (num_or (option_map BatteryStatus.current b) 0))
    (Some (num_or (option_map BatteryStatus.power b) 0))
    None None None None.

(** The body of the interval callback for an in-progress session
    [session = currentSession]: [reply_sim] answers the stop fired by
    [hardware.simulateCharging], [reply_stop] the one of [stopCharging]. *)
Definition meter (session : ChargingSession.t) (now : Z)
    (reply_sim reply_stop : StopReply) (k : Kiosk) : Kiosk :=
  let k1 := with_hw (Hardware.simulateCharging now reply_sim (hw k)) k in
  let energy := Hardware.getEnergyDelivered (hw k1) in
  let battery := num_or (sampled_percentage k1) 0 in
  let k2 := with_db (updateSession (ChargingSession.id session)
                       (metering_updates energy k1) (db k1)) k1 in
  if Qge_bool battery (ChargingSession.targetBattery session)
  then stopCharging completed now reply_stop k2
  else k2.

(** One firing of the one-second interval.  [refreshBatteryStatus()] is
    started first and resolves (100 ms later) after the rest of the
    callback has run, so the callback works on the previous sample. *)
Definition tick (now : Z) (rv rc : Q) (reply_sim reply_stop : StopReply)
    (k : Kiosk) : Kiosk :=
  let k1 :=
    match currentSession (ctx k) with
    | Some session =>
        if is_in_progress session then meter session now reply_sim reply_stop k else k
    | None => k
    end in
  refreshBatteryStatus rv rc k1.

Definition scanRfid (reply : ScanReply) (now : Z) (k : Kiosk) : option User.t * Kiosk :=
  let '(rfidCardId, h) := Hardware.scanRfid reply now (hw k) in
  let k1 := with_hw h k in
  match rfidCardId with
  | None => (None, k1)
  | Some r =>
      let '(user, s) := getUserByRfid r (db k1) in
      let k2 := with_db s k1 in
      match user with
      | Some u => (Some u, setCurrentUser (Some u) k2)
      | None => (None, k2)
      end
  end.

Definition updateSettings (v : SystemSettings) (k : Kiosk) : Kiosk :=
  setSettings v k.

(** The mount effect: reload the active session and its user. *)
Definition load (k : Kiosk) : Kiosk :=
  match getActiveSession (db k) with
  | Some activeSession =>
      let k1 := setCurrentSession (Some activeSession) k in
      let '(users, s) := getUsers (db k1) in
      let k2 := with_db s k1 in
      match find (has_id (ChargingSession.userId activeSession)) (users_of s users) with
      | Some user => setCurrentUser (Some user) k2
      | None => k2
      end
  | None => k
  end.
End AppCtx.

(** ** components/AdminPanel.tsx: the order of the transactions shown *)

Fixpoint insert_newest_first (t : Transaction.t) (l : list Transaction.t)
    : list Transaction.t :=
  match l with
  | [] => [t]
  | x :: l' =>
      if (Transaction.timestamp x <=? Transaction.timestamp t)%Z then t :: l
      else x :: insert_newest_first t l'
  end.

(** [transactions.sort((a, b) => time(b) - time(a))]: newest first, and
    transactions of one instant in their stored order (the sort is stable). *)
Definition newest_first (transactions : list Transaction.t) : list Transaction.t :=
  fold_right insert_newest_first [] transactions.

(** ** App.tsx: the routes, and what mounting a screen does *)

Module Router.

(** [AuthScreen] mounts: fresh local state, [users] memoized from
    [db.getUsers()]. *)
Definition mount_auth (k : Kiosk) : Kiosk :=
  let '(users, s) := getUsers (db k) in
  with_route Home
    (with_auth {| scanning := false; error := None; cardScanned := false;
                  auth_users := users_of s users |} (with_db s k)).

Definition mount_cost (k : Kiosk) : Kiosk :=
  with_route SelectCost
    (with_cost {| selectedAmount := None; customAmount := ""; processing := false |} k).

Definition mount_admin (k : Kiosk) : Kiosk :=
  let '(users, s) := getUsers (db k) in
  with_route Admin
    (with_admin {| admin_users := users_of s users;
                   admin_transactions := newest_first (getTransactions s) |}
      (with_db s k)).

(** [navigate(r)], with the redirects the screens perform when they render
    without what they need: [CostSelectionScreen] without a user and
    [ChargingScreen] without a session go to ['/'], [ChargingScreen] with a
    finished session goes to ['/summary']. *)
Definition navigate (r : Route) (k : Kiosk) : Kiosk :=
  match r with
  | Home => mount_auth k
  | SelectCost =>
      match currentUser (ctx k) with
      | Some _ => mount_cost k
      | None => mount_auth k
      end
  | Charging =>
      match currentSession (ctx k) with
      | Some session =>
          if is_in_progress session then with_route Charging k
          else with_route Summary k
      | None => mount_auth k
      end
  | Summary => with_route Summary k
  | Admin => mount_admin k
  end.

(** The redirects again, as the effects that re-run when the context
    changes under a mounted screen. *)
Definition rerender (k : Kiosk) : Kiosk :=
  match route k with
  | SelectCost =>
      match currentUser (ctx k) with
      | Some _ => k
      | None => mount_auth k
      end
  | Charging => navigate Charging k
  | _ => k
  end.
End Router.

(** ** components/CostSelectionScreen.tsx *)

Module CostSelection.

Definition presetAmounts : list Q := [20; 40; 60; 80; 100].

(** [batteryStatus?.percentage || 0] *)
Definition currentBattery (k : Kiosk) : Q :=
  num_or (AppCtx.sampled_percentage k) 0.

(** With a [fullChargeCost] of 0 (what the admin panel saves for an emptied
    field) [amount / fullChargeCost] is [Infinity] for a positive [amount],
    and [Math.min(currentBattery + Infinity, 100)] is 100.  For
    [amount <= 0] over a cost of 0 the code's value ([-Infinity] or [NaN]) is
    no number of this embedding; the screen never holds such an amount
    ([selection_positive_kept]). *)
Definition calculateTargetBattery (k : Kiosk) (amount : Q) : Q :=
  let fullChargeCost := fullChargeCost (settings (ctx k)) in
  if Qeq_bool fullChargeCost 0 && Qgt_bool amount 0 then 100
  else
    let batteryIncrease := (amount / fullChargeCost) * 100 in
    Qmin (currentBattery k + batteryIncrease) 100.

(** [!selectedAmount]: [null] and [0] are falsy. *)
Definition truthy_amount (a : option Q) : option Q :=
  match a with
  | Some v => if Qeq_bool v 0 then None else Some v
  | None => None
  end.

(** [selectedAmount ? calculateTargetBattery(selectedAmount) : 0] *)
Definition targetBattery (k : Kiosk) : Q :=
  match truthy_amount (selectedAmount (cost k)) with
  | Some a => calculateTargetBattery k a
  | None => 0
  end.

(** [currentUser?.balance || 0] *)
Definition user_balance (k : Kiosk) : Q :=
  num_or (option_map User.balance (currentUser (ctx k))) 0.

Definition handleAmountSelect (amount : Q) (k : Kiosk) : Kiosk :=
  if Qgt_bool amount (user_balance k) then k   (* alert('Insufficient balance!') *)
  else setCustomAmount "" (setSelectedAmount (Some amount) k).

(** [value] is the text typed, [num] what [parseFloat(value)] returns
    ([None] for [NaN]). *)
Definition handleCustomAmount (value : string) (num : option Q) (k : Kiosk) : Kiosk :=
  match num with
  | Some n =>
      if Qgt_bool n 0 then
        if Qgt_bool n (user_balance k) then k   (* alert('Insufficient balance!') *)
        else setCustomAmount value (setSelectedAmount (Some n) k)
      else setCustomAmount value (setSelectedAmount None k)
  | None => setCustomAmount value (setSelectedAmount None k)
  end.

(** The session object [handleConfirm] builds. *)
Definition new_session (now : Z) (k : Kiosk) (user : User.t) (amount : Q)
    : ChargingSession.t :=
  let b := batteryStatus (ctx k) in
  ChargingSession.mk
    (toString now) (User.id user) (User.name user) amount
    (calculateTargetBattery k amount) (currentBattery k) None 0
    (num_or (option_map BatteryStatus.voltage b) 0)
    (num_or (option_map BatteryStatus.current b) 0)
    (num_or (option_map BatteryStatus.power b) 0)
    now None in_progress (User.balance user - amount).

Definition start_transaction (now : Z) (k : Kiosk) (user : User.t) (amount : Q)
    : Transaction.t :=
  Transaction.mk (toString now) (User.id user) (User.name user) charge (- amount) now
    ("Charging session started - Target: " ++ toFixed0 (targetBattery k) ++ "%")
    (Some (toString now)).

Definition handleConfirm (now : Z) (reply : StartReply) (k : Kiosk) : Kiosk :=
  match truthy_amount (selectedAmount (cost k)), currentUser (ctx k) with
  | Some amount, Some user =>
      let target := targetBattery k in
      let k0 := setProcessing true k in
      (* Deduct balance *)
      let newBalance := User.balance user - amount in
      let k1 := with_db (updateUserBalance (User.id user) newBalance (db k0)) k0 in
      (* Create session *)
      let session := new_session now k user amount in
      let k2 := with_db (createSession session (db k1)) k1 in
      let k3 := with_db (addTransaction (start_transaction now k user amount) (db k2)) k2 in
      (* Update user in context *)
      let k4 := setCurrentUser (Some (User.set_balance newBalance user)) k3 in
      let k5 := setCurrentSession (Some session) k4 in
      (* Start charging: the boolean it resolves to is not looked at *)
      let k6 := with_hw (snd (Hardware.startCharging target now reply (hw k5))) k5 in
      setProcessing false (Router.navigate Charging k6)
  | _, _ => k
  end.
End CostSelection.

(** ** components/AuthScreen.tsx *)

(** Stand-in for [new Date().toISOString()]: an injective rendering of the
    instant. *)
Definition toISOString (now : Z) : string := toString now.

Module Auth.

Definition not_recognized : string :=
  "RFID card not recognized. Please try again or contact admin.".

Definition user_of_event (now : Z) (e : EventUser) : User.t :=
  User.mk (ev_id e) (ev_name e) (ev_rfidCardId e) (ev_balance e) (ev_phoneNumber e)
    (or_else (str_or_null (ev_createdAt e)) (toISOString now)).

Definition handleRfidEvent (event : RfidEvent) (now : Z) (k : Kiosk) : Kiosk :=
  match currentUser (ctx k) with
  | Some _ => k     (* user already authenticated: the event is ignored *)
  | None =>
      match ev_type event with
      | rfid_detected =>
          match ev_success event, ev_user event with
          | Some true, Some u =>
              setScanning false (setError None (setCardScanned true
                (setCurrentUser (Some (user_of_event now u)) k)))
          | _, _ =>
              setCardScanned false (setScanning false
                (setError (Some (or_else (str_or_null (ev_error event)) not_recognized)) k))
          end
      | insufficient_balance =>
          setCardScanned false (setScanning false
            (setError (Some "Insufficient balance. Please recharge your account.") k))
      | _ => k
      end
  end.

Definition handleScan (reply : ScanReply) (now : Z) (k : Kiosk) : Kiosk :=
  let k0 := setCardScanned false (setError None (setScanning true k)) in
  let '(user, k1) := AppCtx.scanRfid reply now k0 in
  let k2 := match user with
            | Some _ => setCardScanned true k1
            | None => setCardScanned false (setError (Some not_recognized) k1)
            end in
  setScanning false k2.

Definition handleProceed (k : Kiosk) : Kiosk :=
  match currentUser (ctx k) with
  | None => setError (Some "Please scan your RFID card first.") k
  | Some _ =>
      if cardScanned (auth k) then Router.navigate SelectCost k
      else setError (Some "Please scan your RFID card to proceed. Manual selection is not allowed for security.") k
  end.

Definition handleLogout (k : Kiosk) : Kiosk :=
  setCardScanned false (setError None (setCurrentUser None k)).

(** Manual selection of the [i]-th entry of the memoized user list. *)
Definition handleSelectRfid (i : nat) (k : Kiosk) : Kiosk :=
  match nth_error (auth_users (auth k)) i with
  | Some user => setCardScanned false (setError None (setCurrentUser (Some user) k))
  | None => k
  end.
End Auth.

(** ** components/ChargingScreen.tsx *)

Module ChargingScr.

Definition stop_updates (now : Z) (k : Kiosk) : SessionUpdates.t :=
  SessionUpdates.mk None None None None None None
    (Some (num_or_null (AppCtx.sampled_percentage k)))
    (Some (Hardware.getEnergyDelivered (hw k)))
    None None None None (Some (Some now)) (Some stopped) None.

Definition handleStop (now : Z) (reply : StopReply) (k : Kiosk) : Kiosk :=
  match currentSession (ctx k) with
  | None => k
  | Some session =>
      let k1 := with_db (updateSession (ChargingSession.id session)
                           (stop_updates now k) (db k)) k in
      let k2 := with_db (addTransaction
                 (Transaction.mk (toString now) (ChargingSession.userId session)
                    (ChargingSession.userName session) charge 0 now
                    "Charging stopped by user" (Some (ChargingSession.id session)))
                 (db k1)) k1 in
      let k3 := with_hw (snd (Hardware.stopCharging reply (hw k2))) k2 in
      Router.navigate Summary (setCurrentSession None k3)
  end.
End ChargingScr.

(** ** components/AdminPanel.tsx *)

Module AdminScr.

Definition loadData (k : Kiosk) : Kiosk :=
  let '(users, s) := getUsers (db k) in
  with_admin {| admin_users := users_of s users;
                admin_transactions := newest_first (getTransactions s) |} (with_db s k).

(** [add = true] for ['add'], [false] for ['deduct']. *)
Definition handleBalanceAdjustment (userId : string) (amount : Q) (add : bool)
    (now : Z) (k : Kiosk) : Kiosk :=
  match find (has_id userId) (admin_users (admin k)) with
  | None => k
  | Some user =>
      let adjustment := if add then amount else - amount in
      let newBalance := User.balance user + adjustment in
      if Qgt_bool 0 newBalance then k   (* alert('Balance cannot be negative!') *)
      else
        let k1 := with_db (updateUserBalance userId newBalance (db k)) k in
        let k2 := with_db (addTransaction
                   (Transaction.mk (toString now) (User.id user) (User.name user)
                      (if add then addition else deduction) adjustment now
                      (if add then "Admin added balance" else "Admin deducted balance")
                      None)
                   (db k1)) k1 in
        loadData k2
  end.
End AdminScr.

(** ** The kiosk as a transition system *)

(** What can happen to the running application: a user gesture, a timer
    firing, a message of the backend. *)
Inductive Op : Type :=
| OpNavigate (r : Route)
| OpRefreshBattery (rv rc : Q)
| OpTick (now : Z) (rv rc : Q) (reply_sim reply_stop : StopReply)
| OpScan (reply : ScanReply) (now : Z)
| OpRfidEvent (event : RfidEvent) (now : Z)
| OpSelectRfid (i : nat)
| OpProceed
| OpLogout
| OpPreset (i : nat)
| OpCustomAmount (value : string) (num : option Q)
| OpConfirm (now : Z) (reply : StartReply)
| OpStop (now : Z) (reply : StopReply)
| OpAdjust (userId : string) (amount : Q) (add : bool) (now : Z)
| OpSaveSettings (v : SystemSettings).

Definition on (r : Route) (k : Kiosk) (f : Kiosk -> Kiosk) : Kiosk :=
  match r, route k with
  | Home, Home | SelectCost, SelectCost | Charging, Charging
  | Summary, Summary | Admin, Admin => f k
  | _, _ => k
  end.

(** A handler runs only while its screen is mounted; the provider's timer
    runs on every route. *)
Definition handle (op : Op) (k : Kiosk) : Kiosk :=
  match op with
  | OpNavigate r => Router.navigate r k
  | OpRefreshBattery rv rc => AppCtx.refreshBatteryStatus rv rc k
  | OpTick now rv rc r1 r2 => AppCtx.tick now rv rc r1 r2 k
  | OpScan reply now => on Home k (Auth.handleScan reply now)
  | OpRfidEvent event now =>
      on Home k (fun k => Auth.handleRfidEvent event now (with_hw (onmessage event now (hw k)) k))
  | OpSelectRfid i => on Home k (Auth.handleSelectRfid i)
  | OpProceed => on Home k Auth.handleProceed
  | OpLogout => on Home k Auth.handleLogout
  | OpPreset i =>
      on SelectCost k (fun k =>
        match nth_error CostSelection.presetAmounts i with
        | Some amount => CostSelection.handleAmountSelect amount k
        | None => k
        end)
  | OpCustomAmount value num => on SelectCost k (CostSelection.handleCustomAmount value num)
  | OpConfirm now reply =>
      on SelectCost k (fun k =>
        if processing (cost k) then k else CostSelection.handleConfirm now reply k)
  | OpStop now reply => on Charging k (ChargingScr.handleStop now reply)
  | OpAdjust userId amount add now =>
      on Admin k (AdminScr.handleBalanceAdjustment userId amount add now)
  | OpSaveSettings v => on Admin k (AppCtx.updateSettings v)
  end.

Definition step (op : Op) (k : Kiosk) : Kiosk := Router.rerender (handle op k).

Fixpoint run (ops : list Op) (k : Kiosk) : Kiosk :=
  match ops with
  | [] => k
  | op :: ops' => run ops' (step op k)
  end.

(** The application right after the page has loaded on ['/']: the first
    render mounts [AuthScreen], then the provider's mount effect runs. *)
Definition boot (s : Store) : Kiosk :=
  AppCtx.load (Router.mount_auth
    {| db := s; hw := Hardware.init;
       ctx := {| currentUser := None; currentSession := None;
                 settings := DEFAULT_SETTINGS; batteryStatus := None |};
       route := Home;
       cost := {| selectedAmount := None; customAmount := ""; processing := false |};
       auth := {| scanning := false; error := None; cardScanned := false; auth_users := [] |};
       admin := {| admin_users := []; admin_transactions := [] |} |}).

(** Number of stored sessions whose status is ['in_progress']. *)
Definition in_progress_count (s : Store) : nat :=
  List.length (filter is_in_progress (getSessions s)).

Definition has_session_id (i : string) (x : ChargingSession.t) : bool :=
  ChargingSession.id x =? i.

(** The balance [db] shows for a user id. *)
Definition stored_balance (userId : string) (s : Store) : option Q :=
  option_map User.balance (find (has_id userId) (getUsers_list s)).

Definition requiredUserNames : list string :=
  ["Lalit Nikumbh"; "Fateen Shaikh"; "Nishad Deshmukh"].

(** The records of [DEFAULT_USERS] still carry the names they were written
    with (their balances may have been assigned to). *)
Definition defaults_intact (s : Store) : Prop :=
  map User.name (default_users s) = requiredUserNames.

(** Relay-enable calls made so far. *)
Definition start_calls (k : Kiosk) : list RelayCall :=
  filter is_start (Hardware.calls (hw k)).

(** The context holds no user with a positive balance. *)
Definition unfunded (k : Kiosk) : bool :=
  match currentUser (ctx k) with
  | Some u => Qle_bool (User.balance u) 0
  | None => true
  end.

(** No amount is selected on the cost screen. *)
Definition no_selection (k : Kiosk) : bool :=
  match CostSelection.truthy_amount (selectedAmount (cost k)) with
  | Some _ => false
  | None => true
  end.

(** Along the run, every card presented was unknown or unfunded: the
    context never comes to hold a user with a positive balance. *)
Fixpoint only_rejections (ops : list Op) (k : Kiosk) : bool :=
  match ops with
  | [] => true
  | op :: ops' => unfunded (step op k) && only_rejections ops' (step op k)
  end.

Definition is_confirm (op : Op) : bool :=
  match op with OpConfirm _ _ => true | _ => false end.

(** Every confirmation of the run happens while no stored session is
    ['in_progress']. *)
Fixpoint confirms_when_idle (ops : list Op) (k : Kiosk) : bool :=
  match ops with
  | [] => true
  | op :: ops' =>
      (negb (is_confirm op) || (in_progress_count (db k) =? 0)%nat)
      && confirms_when_idle ops' (step op k)
  end.

(** [h'] is [h] after calls that only operate the relay: the meter readings
    are the same, and the relay flag has not been switched on. *)
Definition relay_only (h h' : Hardware.t) : Prop :=
  Hardware.currentBattery h' = Hardware.currentBattery h
  /\ Hardware.targetBattery h' = Hardware.targetBattery h
  /\ Hardware.startTime h' = Hardware.startTime h
  /\ Hardware.energyDelivered h' = Hardware.energyDelivered h
  /\ (Hardware.chargingActive h' = true -> Hardware.chargingActive h = true).

(** The interval callback will meter: the context holds an in-progress
    session. *)
Definition metering (k : Kiosk) : bool :=
  match currentSession (ctx k) with
  | Some session => is_in_progress session
  | None => false
  end.

(** [handleConfirm] cannot run: the cost screen is not mounted, or it has
    no amount selected. *)
Definition cannot_confirm (k : Kiosk) : bool :=
  match route k with
  | SelectCost => no_selection k
  | _ => true
  end.

(** [k'] differs from [k] in nothing that lets a relay-enable call through:
    no such call was added, and the route and the cost screen are the same. *)
Definition same_gate (k k' : Kiosk) : Prop :=
  start_calls k' = start_calls k /\ route k' = route k /\ cost k' = cost k.

(** The user table as every read leaves it: [DEFAULT_USERS] is as the module
    declares it, and the stored list holds no placeholder account and names
    every default account. *)
Definition normalised (loadedAt : string) (s : Store) : Prop :=
  default_users s = DEFAULT_USERS loadedAt
  /\ exists users, ls_users s = Some users
                   /\ forallb not_placeholder users = true
                   /\ incl requiredUserNames (map User.name users).

(** ** The debounced identity source *)

(** Modelled from the spec: the polling loop of the identity source
    ([continuous_rfid_reader] in [backend/rfid_service.py]) is not among the
    sources; the frontend only consumes its events.  Section 4.1: "On a new
    raw read whose token differs from the last-seen token, or whose token
    matches but the debounce window has elapsed, emit an IdentityEvent with
    outcome computed by consulting the Ledger Cache".  The spec does not say
    whether a suppressed read restarts the window; [restart] covers both. *)
Module IdentitySource.

Inductive Outcome : Type :=
| accepted (user : User.t)
| rejected_unknown
| rejected_insufficient_balance.

Record IdentityEvent : Type := {
  tokenId : string;
  arrival : Z;
  outcome : Outcome
}.

Record t : Type := {
  last_seen : option string;   (* last-seen token *)
  seen_at   : Z                (* when its window started *)
}.

Definition init : t := {| last_seen := None; seen_at := 0 |}.

(** Modelled from the spec: the outcome the missing backend computes for a
    token (section 4.1): unknown token, known with balance <= 0, known with
    balance > 0. *)
Definition resolve (ledger : list User.t) (token : string) : Outcome :=
  match find (has_rfid token) ledger with
  | None => rejected_unknown
  | Some u =>
      if Qle_bool (User.balance u) 0 then rejected_insufficient_balance
      else accepted u
  end.

(** Modelled from the spec: the debounce test of the missing polling loop;
    the token differs from the last-seen token, or the window has elapsed. *)
Definition is_new (window : Z) (st : t) (token : string) (now : Z) : bool :=
  match last_seen st with
  | None => true
  | Some last => negb (last =? token) || (seen_at st + window <=? now)%Z
  end.

(** Modelled from the spec: what the missing polling loop does with one raw
    read [token] at time [now]. *)
Definition read (window : Z) (restart : bool) (ledger : list User.t)
    (token : string) (now : Z) (st : t) : list IdentityEvent * t :=
  if is_new window st token now then
    ([ {| tokenId := token; arrival := now; outcome := resolve ledger token |} ],
     {| last_seen := Some token; seen_at := now |})
  else
    ([], if restart then {| last_seen := Some token; seen_at := now |} else st).

(** Modelled from the spec: the events the missing polling loop emits for a
    sequence of raw reads [(token, time)]. *)
Fixpoint events (window : Z) (restart : bool) (ledger : list User.t)
    (reads : list (string * Z)) (st : t) : list IdentityEvent :=
  match reads with
  | [] => []
  | (token, now) :: reads' =>
      let '(emitted, st') := read window restart ledger token now st in
      (emitted ++ events window restart ledger reads' st')%list
  end.
End IdentitySource.

(** ** [calculateTargetBattery] on binary64 *)

Module Binary64.
Import PrimFloat.

(** [Math.min(a, b)] *)
Definition Math_min (a b : float) : float :=
  if is_nan a || is_nan b then nan
  else if ltb a b then a
  else if ltb b a then b
  else if get_sign a then a else b.

Definition calculateTargetBattery (currentBattery fullChargeCost amount : float)
    : float :=
  let batteryIncrease := mul (div amount fullChargeCost) 100%float in
  Math_min (add currentBattery batteryIncrease) 100%float.

(** The numbers of the spec's example, as binary64 values. *)
Definition n35 : float := 35%float.
Definition n40 : float := 40%float.
Definition n75 : float := 75%float.
Definition n100 : float := 100%float.
Definition n0 : float := 0%float.
Definition n80 : float := 80%float.
End Binary64.

(** ** Concrete kiosks used as examples *)

(** A first run on a clean browser in mock mode: the battery is sampled,
    card RFID001 is scanned, the user proceeds to the cost screen. *)
Definition at_cost_screen : Kiosk :=
  run [OpRefreshBattery 0 0; OpScan ScanBackendDown 1; OpProceed]
      (boot (fresh_store "2025-01-01T00:00:00.000Z")).

(** A store left behind by an earlier version of the kiosk: two placeholder
    accounts and one of today's users with a balance of 7. *)
Definition legacy_store : Store :=
  {| ls_users := Some [ User.mk "1" "John Doe" "RFID001" 500 None "2024";
                        User.mk "2" "Jane Smith" "RFID002" 300 None "2024";
                        User.mk "9" "Fateen Shaikh" "RFID009" 7 None "2024" ];
     ls_sessions := None; ls_transactions := None;
     default_users := DEFAULT_USERS "2025" |}.

(** A store in which the account of card RFID001 holds nothing. *)
Definition broke_store : Store :=
  {| ls_users := Some [ User.mk "1" "Lalit Nikumbh" "RFID001" 0 None "2024";
                        User.mk "2" "Fateen Shaikh" "RFID002" 150 None "2024";
                        User.mk "3" "Nishad Deshmukh" "RFID003" 90 None "2024" ];
     ls_sessions := None; ls_transactions := None;
     default_users := DEFAULT_USERS "2025" |}.

(** The user picks the second preset (40) and confirms, goes back to the
    cost screen with the browser while the session runs, picks the first
    preset (20) and confirms again. *)
Definition confirm_twice : list Op :=
  [ OpPreset 1; OpConfirm 1000 StartBackendDown;
    OpNavigate SelectCost; OpPreset 0; OpConfirm 2000 StartBackendDown ].

(** The user confirms, stops the session, and starts another one. *)
Definition confirm_stop_confirm : list Op :=
  [ OpPreset 1; OpConfirm 1000 StartBackendDown;
    OpStop 5000 StopBackendDown;
    OpNavigate SelectCost; OpPreset 0; OpConfirm 9000 StartBackendDown ].

(** With the user logged in, the admin panel credits 50 to the account;
    back on the cost screen the user picks 40. *)
Definition stale_kiosk : Kiosk :=
  run [ OpNavigate Admin; OpAdjust "1" 50 true 2; OpNavigate SelectCost; OpPreset 1 ]
      at_cost_screen.

(** The user has picked 40 and is about to confirm. *)
Definition amount_selected : Kiosk := run [ OpPreset 1 ] at_cost_screen.

(** The backend is up but its status call fails and it refuses to start. *)
Definition relay_fault : StartReply := StartBackendUp None false.

(** The user pays the whole balance of 100: the session starts with a
    remaining balance of 0 and a target of 100 percent. *)
Definition paid_everything : Kiosk :=
  run [ OpPreset 4; OpConfirm 1000 StartBackendDown ] at_cost_screen.


(** Cards that are rejected: an unknown one on the manual scan, an unfunded
    one announced by the backend; then an attempt to pay all the same. *)
Definition rejected_cards : list Op :=
  [ OpScan (ScanData None (Some "RFID999")) 1;
    OpRfidEvent {| ev_type := insufficient_balance; ev_user := None;
                   ev_success := Some false; ev_error := None |} 2;
    OpNavigate SelectCost; OpPreset 0; OpConfirm 3 StartBackendDown ].

(** The card of the emptied account is scanned, and its owner tries to pay. *)
Definition unfunded_card : list Op :=
  [ OpScan ScanBackendDown 1; OpProceed; OpPreset 0;
    OpCustomAmount "5" (Some 5); OpConfirm 3 StartBackendDown ].

(** A session for 20 (target 55 percent) started through the backend and
    metered once, half an hour after its start. *)
Definition metered_once : Kiosk :=
  run [ OpPreset 0;
        OpConfirm 1000
          (StartBackendUp (Some {| isCharging := false; cs_currentUser := Some "1" |}) true);
        OpTick 1801000 0 0 StopBackendDown StopBackendDown ] at_cost_screen.

(** The user then goes back to the authentication screen, where a message
    of the stream announces that the backend has started charging; the next
    tick fires one second after the first. *)
Definition clock_restarted : Kiosk :=
  run [ OpNavigate Home;
        OpRfidEvent {| ev_type := charging_started; ev_user := None;
                       ev_success := None; ev_error := None |} 1801500;
        OpTick 1802000 0 0 StopBackendDown StopBackendDown ] metered_once.

(** Projections of a kiosk through its setters. *)
Ltac kiosk_simpl :=
  cbn [db hw ctx route cost auth admin
       with_db with_hw with_ctx with_route with_cost with_auth with_admin
       setCurrentUser setCurrentSession setBatteryStatus setSettings
       setSelectedAmount setCustomAmount setProcessing
       setScanning setError setCardScanned
       currentUser currentSession settings batteryStatus
       selectedAmount customAmount processing
       scanning error cardScanned auth_users fst snd] in *.

(** ** services/database.ts: the transaction log of one user *)

Definition getUserTransactions (userId : string) (s : Store) : list Transaction.t :=
  filter (fun t => Transaction.userId t =? userId) (getTransactions s).

(** ** components/ChargingScreen.tsx: the elapsed-time display *)

Module ChargingView.
Import Ascii.

(** [s.padStart(2, '0')] *)
Definition padStart2 (s : string) : string :=
  match String.length s with
  | O => "00"
  | S O => "0" ++ s
  | _ => s
  end.

(** [seconds] is an integer: [/] followed by [Math.floor] is the floored
    quotient, [%] the remainder with the sign of the dividend. *)
Definition formatTime (seconds : Z) : string :=
  let hours := (seconds / 3600)%Z in
  let minutes := (Z.rem seconds 3600 / 60)%Z in
  let secs := Z.rem seconds 60 in
  padStart2 (toString hours) ++ ":" ++ padStart2 (toString minutes) ++ ":"
    ++ padStart2 (toString secs).

(** [Math.floor((Date.now() - startTime) / 1000)] *)
Definition elapsed (now startTime : Z) : Z := ((now - startTime) / 1000)%Z.

(** The value of a decimal digit character. *)
Definition digit_value (c : Ascii.ascii) : option Z :=
  let n := Ascii.nat_of_ascii c in
  if ((48 <=? n) && (n <=? 57))%nat then Some (Z.of_nat (n - 48)) else None.

(** Reading a display of the shape [dd:dd:dd] back as a number of seconds;
    not part of the source, used to state what the display determines. *)
Definition read_clock (s : string) : option Z :=
  match s with
  | String a (String b (String ":"%char (String c (String d (String ":"%char
      (String e (String f EmptyString))))))) =>
      match digit_value a, digit_value b, digit_value c, digit_value d,
            digit_value e, digit_value f with
      | Some a, Some b, Some c, Some d, Some e, Some f =>
          Some ((10 * a + b) * 3600 + (10 * c + d) * 60 + (10 * e + f))%Z
      | _, _, _, _, _, _ => None
      end
  | _ => None
  end.
End ChargingView.

(** ** components/SummaryScreen.tsx *)

Module SummaryScr.

Definition formatTime (seconds : Z) : string :=
  let hours := (seconds / 3600)%Z in
  let minutes := (Z.rem seconds 3600 / 60)%Z in
  toString hours ++ "h " ++ toString minutes ++ "m".


(** [session.endBattery ? session.endBattery - session.startBattery : 0] *)
Definition batteryIncrease (session : ChargingSession.t) : Q :=
  match num_or_null (ChargingSession.endBattery session) with
  | Some e => e - ChargingSession.startBattery session
  | None => 0
  end.

(** [now] is the [new Date()] used while the session has no end time. *)
Definition duration (now : Z) (session : ChargingSession.t) : Z :=
  ((or_else (ChargingSession.endTime session) now
    - ChargingSession.startTime session) / 1000)%Z.
End SummaryScr.

(** ** components/AuthScreen.tsx: the cached backend check *)

Module BackendCheck.

Record t : Type := mk {
  lastBackendCheck : Z;             (* lastBackendCheckRef.current *)
  backendConnected : option bool;
  requests         : list Z         (* ghost: when /api/health was fetched *)
}.

Definition init : t := mk 0 None [].

Definition BACKEND_CHECK_CACHE_MS : Z := 3000.

(** [ok] is [response.ok], or [false] when [fetch] throws. *)
Definition checkBackend (now : Z) (ok : bool) (st : t) : t :=
  if (now - lastBackendCheck st <? BACKEND_CHECK_CACHE_MS)%Z then st
  else mk now (Some ok) (requests st ++ [now]).

(** Consecutive instants of [l] are at least [gap] apart. *)
Fixpoint spaced (gap : Z) (l : list Z) : Prop :=
  match l with
  | t1 :: ((t2 :: _) as l') => (t1 + gap <= t2)%Z /\ spaced gap l'
  | _ => True
  end.

(** A sequence of calls [(now, ok)]. *)
Fixpoint checks (calls : list (Z * bool)) (st : t) : t :=
  match calls with
  | [] => st
  | (now, ok) :: calls' => checks calls' (checkBackend now ok st)
  end.
End BackendCheck.

(** ** services/hardware.ts: the subscribers of the RFID event stream *)

(** A callback is known by its identity (a number here).  The promise of
    [checkBackendAvailable] resolves in a later step, [connect]; the timer
    [onerror] sets fires in a later step, [retry]. *)
Module EventStream.

Record t : Type := mk {
  rfidEventCallbacks : list nat;
  eventSource        : bool;   (* this.eventSource is not null *)
  open_streams       : nat     (* ghost: EventSource objects created and not closed *)
}.

Definition init : t := mk [] false 0.

(** [l.splice(l.indexOf(cb), 1)] when [indexOf] finds [cb]. *)
Fixpoint remove_first (cb : nat) (l : list nat) : list nat :=
  match l with
  | [] => []
  | x :: l' => if (x =? cb)%nat then l' else x :: remove_first cb l'
  end.

(** The synchronous part of [startRfidEventStream(callback)]; the boolean
    tells whether a connection attempt was started. *)
Definition startRfidEventStream (callback : nat) (st : t) : bool * t :=
  (negb (eventSource st),
   mk (rfidEventCallbacks st ++ [callback]) (eventSource st) (open_streams st)).

(** The continuation of [checkBackendAvailable()]. *)
Definition connect (available : bool) (st : t) : t :=
  if available then mk (rfidEventCallbacks st) true (S (open_streams st)) else st.

(** The function [startRfidEventStream(callback)] returned. *)
Definition cleanup (callback : nat) (st : t) : t :=
  let l := remove_first callback (rfidEventCallbacks st) in
  if (List.length l =? 0)%nat && eventSource st
  then mk l false (pred (open_streams st))
  else mk l (eventSource st) (open_streams st).

Definition stopRfidEventStream (st : t) : t :=
  if eventSource st then mk [] false (pred (open_streams st)) else st.

(** [onerror] of the current stream, up to the timer it sets. *)
Definition onerror (st : t) : t :=
  if eventSource st then mk (rfidEventCallbacks st) false (pred (open_streams st)) else st.

(** The timer of [onerror], five seconds later; [callback] is the one the
    stream was started for. *)
Definition retry (callback : nat) (st : t) : bool * t :=
  if (0 <? List.length (rfidEventCallbacks st))%nat
  then startRfidEventStream callback st
  else (false, st).

(** The callbacks one message of the stream invokes, in order. *)
Definition notified (st : t) : list nat := rfidEventCallbacks st.

(** The cleanup functions of the callbacks [l], called in that order. *)
Fixpoint cleanups (l : list nat) (st : t) : t :=
  match l with
  | [] => st
  | callback :: l' => cleanups l' (cleanup callback st)
  end.
End EventStream.

(** ** Predicates used by the properties of the screens *)


(** Whatever amount the cost screen holds is positive. *)
Definition selection_positive (k : Kiosk) : bool :=
  match CostSelection.truthy_amount (selectedAmount (cost k)) with
  | Some a => Qgt_bool a 0
  | None => true
  end.

(** ** Event handlers of unmounted authentication screens *)

(** [handleRfidEvent] of [AuthScreen.tsx] as the closure of one instance of
    the screen: [ref] is what its [currentUserRef] holds and [mounted] tells
    whether the instance is still mounted.  The set-state calls of an
    unmounted instance do nothing; [setCurrentUser] is the provider's and
    works all the same.  For the mounted instance the ref follows the user of
    the context, and the handler is [Auth.handleRfidEvent]. *)
Definition rfidEventHandler (mounted : bool) (ref : option User.t) (event : RfidEvent)
    (now : Z) (k : Kiosk) : Kiosk :=
  let local (f : Kiosk -> Kiosk) (k : Kiosk) := if mounted then f k else k in
  match ref with
  | Some _ => k     (* user already authenticated: the event is ignored *)
  | None =>
      match ev_type event with
      | rfid_detected =>
          match ev_success event, ev_user event with
          | Some true, Some u =>
              local (setScanning false) (local (setError None) (local (setCardScanned true)
                (setCurrentUser (Some (Auth.user_of_event now u)) k)))
          | _, _ =>
              local (setCardScanned false) (local (setScanning false)
                (local (setError (Some (or_else (str_or_null (ev_error event))
                                          Auth.not_recognized))) k))
          end
      | insufficient_balance =>
          local (setCardScanned false) (local (setScanning false)
            (local (setError (Some "Insufficient balance. Please recharge your account.")) k))
      | _ => k
      end
  end.

(** What can happen once handlers of unmounted authentication screens are
    still registered with the event stream (as they are after a reconnect,
    see [EventStream.retry]): an operation of the kiosk, or a message of the
    stream reaching such a handler, on whatever route is shown; [ref] is
    what the ref of that handler held when its screen was unmounted. *)
Inductive StreamOp : Type :=
| Mounted (op : Op)
| StaleRfidEvent (ref : option User.t) (event : RfidEvent) (now : Z).

Definition handle_all (op : StreamOp) (k : Kiosk) : Kiosk :=
  match op with
  | Mounted op => handle op k
  | StaleRfidEvent ref event now =>
      rfidEventHandler false ref event now (with_hw (onmessage event now (hw k)) k)
  end.

Definition step_all (op : StreamOp) (k : Kiosk) : Kiosk := Router.rerender (handle_all op k).

Fixpoint run_all (ops : list StreamOp) (k : Kiosk) : Kiosk :=
  match ops with
  | [] => k
  | op :: ops' => run_all ops' (step_all op k)
  end.

(** The message reaches a handler that holds a user: the mounted handler
    while somebody is logged in, or a stale handler unmounted with a user. *)
Definition reaches_a_holder (op : StreamOp) : bool :=
  match op with
  | Mounted (OpRfidEvent _ _) => true
  | StaleRfidEvent (Some _) _ _ => true
  | _ => false
  end.

(** A stale handler that was unmounted without a user receives a card the
    backend accepted: it calls [setCurrentUser]. *)
Definition stale_login (op : StreamOp) : bool :=
  match op with
  | StaleRfidEvent None event _ =>
      match ev_type event, ev_success event, ev_user event with
      | rfid_detected, Some true, Some _ => true
      | _, _, _ => false
      end
  | _ => false
  end.





(** * Properties *)

(** ** The user table *)

Section UserTable.

Lemma filter_same_length {A : Type} (p : A -> bool) (l : list A) :
  List.length (filter p l) = List.length l -> filter p l = l.
Proof.
  induction l as [|a l IH]; simpl; [reflexivity|].
  destruct (p a) eqn:Hp; simpl; intros H.
  - f_equal. apply IH. lia.
  - pose proof (filter_length_le p l). lia.
Qed.

Lemma filter_all {A : Type} (p : A -> bool) (l : list A) :
  forallb p l = true -> filter p l = l.
Proof.
  induction l as [|a l IH]; simpl; [reflexivity|].
  intros H. apply andb_true_iff in H as [Ha Hl]. rewrite Ha, IH; auto.
Qed.

Lemma filter_none {A : Type} (p : A -> bool) (l : list A) :
  (forall a, In a l -> p a = false) -> filter p l = [].
Proof.
  induction l as [|a l IH]; simpl; intros H; [reflexivity|].
  rewrite (H a) by auto. apply IH. intros; apply H; auto.
Qed.

Lemma includes_In (names : list string) (n : string) :
  includes names n = true <-> In n names.
Proof.
  unfold includes. rewrite existsb_exists. split.
  - intros [x [Hx He]]. apply String.eqb_eq in He. subst. assumption.
  - intros H. exists n. split; [assumption | apply String.eqb_refl].
Qed.

Lemma set_balance_name b u : User.name (User.set_balance b u) = User.name u.
Proof. reflexivity. Qed.

Lemma set_balance_id b u : User.id (User.set_balance b u) = User.id u.
Proof. reflexivity. Qed.

Lemma assign_first_names p b l :
  map User.name (assign_first p b l) = map User.name l.
Proof.
  induction l as [|u l IH]; simpl; [reflexivity|].
  destruct (p u); simpl; [reflexivity | now rewrite IH].
Qed.

Lemma assign_first_app_l p b l1 l2 :
  existsb p l1 = true ->
  assign_first p b (l1 ++ l2) = (assign_first p b l1 ++ l2)%list.
Proof.
  induction l1 as [|u l1 IH]; simpl; [discriminate|].
  destruct (p u); simpl; [reflexivity|]. intros H. now rewrite IH.
Qed.

Lemma assign_first_app_r p b l1 l2 :
  existsb p l1 = false ->
  assign_first p b (l1 ++ l2) = (l1 ++ assign_first p b l2)%list.
Proof.
  induction l1 as [|u l1 IH]; simpl; [reflexivity|].
  destruct (p u); simpl; [discriminate|]. intros H. now rewrite IH.
Qed.

(** Assigning through the selected objects of [DEFAULT_USERS] is assigning
    in the selection: the selection looks at names only. *)
Lemma filter_assign_first (sel p : User.t -> bool) b l :
  (forall u c, sel (User.set_balance c u) = sel u) ->
  filter sel (assign_first (fun d => sel d && p d) b l)
  = assign_first p b (filter sel l).
Proof.
  intros Hsel. induction l as [|u l IH]; simpl; [reflexivity|].
  destruct (sel u) eqn:Hs; simpl.
  - destruct (p u) eqn:Hp; simpl.
    + now rewrite Hsel, Hs.
    + now rewrite Hs, IH.
  - now rewrite Hs, IH.
Qed.

Lemma find_assign_first i b l u :
  find (has_id i) l = Some u ->
  find (has_id i) (assign_first (has_id i) b l) = Some (User.set_balance b u).
Proof.
  induction l as [|x l IH]; simpl; [discriminate|].
  destruct (has_id i x) eqn:Hx; simpl.
  - intros H. injection H as ->. unfold has_id in *. simpl. now rewrite Hx.
  - intros H. rewrite Hx. auto.
Qed.

(** If looking up by card and looking up by id stop on the same record,
    they stop at the same position, and the assignment is seen by both. *)
Lemma find_rfid_assign_first i r b l u :
  find (has_id i) l = Some u ->
  find (has_rfid r) l = Some u ->
  find (has_rfid r) (assign_first (has_id i) b l) = Some (User.set_balance b u).
Proof.
  induction l as [|x l IH]; simpl; [discriminate|].
  destruct (has_id i x) eqn:Hi; destruct (has_rfid r x) eqn:Hr; simpl.
  - intros H _. injection H as ->. unfold has_rfid in *. simpl. now rewrite Hr.
  - intros H1 H2. injection H1 as ->.
    apply find_some in H2 as [_ H2]. congruence.
  - intros H1 H2. injection H2 as ->.
    apply find_some in H1 as [_ H1]. congruence.
  - intros H1 H2. rewrite Hr. auto.
Qed.

Lemma find_existsb {A : Type} (p : A -> bool) (l : list A) :
  existsb p l = match find p l with Some _ => true | None => false end.
Proof.
  induction l as [|a l IH]; simpl; [reflexivity|]. destruct (p a); auto.
Qed.

Lemma getUsers_keeps s :
  default_users (snd (getUsers s)) = default_users s
  /\ ls_sessions (snd (getUsers s)) = ls_sessions s
  /\ ls_transactions (snd (getUsers s)) = ls_transactions s.
Proof.
  unfold getUsers. destruct (ls_users s); simpl; auto.
  repeat match goal with |- context [if ?c then _ else _] => destruct c end;
    simpl; auto.
Qed.

(** A read leaves in [localStorage] exactly the list it returns. *)
Lemma getUsers_stored s :
  ls_users (snd (getUsers s)) = Some (getUsers_list s).
Proof.
  unfold getUsers_list, getUsers. destruct (ls_users s) as [users|] eqn:Hs; simpl.
  - destruct (0 <? _)%nat; simpl; [reflexivity|].
    destruct (negb _) eqn:Hlen; simpl; [reflexivity|].
    destruct (_ <? 3)%nat; simpl; [reflexivity|].
    rewrite Hs. f_equal. symmetry. apply filter_same_length.
    apply negb_false_iff, Nat.eqb_eq in Hlen. assumption.
  - reflexivity.
Qed.

Lemma not_placeholder_required u :
  In (User.name u) requiredUserNames -> not_placeholder u = true.
Proof.
  unfold not_placeholder. simpl.
  intros [H|[H|[H|[]]]]; rewrite <- H; reflexivity.
Qed.

Lemma defaults_not_placeholder s :
  defaults_intact s -> forallb not_placeholder (default_users s) = true.
Proof.
  intros H. apply forallb_forall. intros u Hu.
  apply not_placeholder_required. rewrite <- H. now apply in_map.
Qed.

(** What a read returns never holds a placeholder account and names every
    default account. *)
Lemma getUsers_normal s :
  defaults_intact s ->
  forallb not_placeholder (getUsers_list s) = true
  /\ incl requiredUserNames (map User.name (getUsers_list s)).
Proof.
  intros Hd. pose proof (defaults_not_placeholder s Hd) as Hnp.
  assert (Hf : forall l, forallb not_placeholder (filter not_placeholder l) = true).
  { intros l. apply forallb_forall. intros u Hu. now apply filter_In in Hu. }
  unfold getUsers_list, getUsers. destruct (ls_users s) as [users|] eqn:Hs; simpl.
  - set (filteredUsers := filter not_placeholder users).
    set (missing := filter _ (default_users s)).
    assert (Hcover : incl requiredUserNames (map User.name (filteredUsers ++ missing))).
    { intros n Hn. rewrite <- Hd in Hn. apply in_map_iff in Hn as [d [<- Hdin]].
      rewrite map_app, in_app_iff.
      destruct (includes (map User.name filteredUsers) (User.name d)) eqn:Hi.
      - left. now apply includes_In.
      - right. apply in_map. apply filter_In. split; [assumption|].
        unfold is_missing. now rewrite Hi. }
    destruct (0 <? List.length missing)%nat eqn:Hm; simpl.
    + split; [|exact Hcover].
      rewrite forallb_app. apply andb_true_iff. split; [apply Hf|].
      apply forallb_forall. intros u Hu.
      apply filter_In in Hu as [Hu _].
      rewrite forallb_forall in Hnp. auto.
    + assert (missing = []) as Hnil.
      { apply Nat.ltb_ge in Hm. destruct missing; [reflexivity | simpl in Hm; lia]. }
      rewrite Hnil, app_nil_r in Hcover.
      destruct (negb _); simpl; [split; [apply Hf | exact Hcover]|].
      destruct (_ <? 3)%nat; simpl.
      * split; [exact Hnp|]. rewrite Hd. apply incl_refl.
      * split; [apply Hf | exact Hcover].
  - split; [exact Hnp|]. rewrite Hd. apply incl_refl.
Qed.

(** On a list that is already in that form a read changes nothing. *)
Lemma getUsers_fixed s users :
  defaults_intact s ->
  ls_users s = Some users ->
  forallb not_placeholder users = true ->
  incl requiredUserNames (map User.name users) ->
  getUsers s = (Parsed users, s).
Proof.
  intros Hd Hs Hnp Hincl. unfold getUsers. rewrite Hs.
  rewrite (filter_all _ _ Hnp).
  rewrite (filter_none (is_missing (map User.name users)) (default_users s)).
  2:{ intros d Hin. unfold is_missing. apply negb_false_iff, includes_In.
      apply Hincl. rewrite <- Hd. now apply in_map. }
  simpl. rewrite Nat.eqb_refl. simpl.
  assert (3 <= List.length users)%nat as Hlen.
  { rewrite <- (length_map User.name).
    change 3%nat with (List.length requiredUserNames).
    apply NoDup_incl_length; [|exact Hincl].
    unfold requiredUserNames.
    repeat constructor; simpl; intuition discriminate. }
  apply Nat.ltb_ge in Hlen. now rewrite Hlen.
Qed.

Lemma getUsers_list_fixed s users :
  defaults_intact s ->
  ls_users s = Some users ->
  forallb not_placeholder users = true ->
  incl requiredUserNames (map User.name users) ->
  getUsers_list s = users.
Proof.
  intros. unfold getUsers_list. now rewrite (getUsers_fixed s users).
Qed.

End UserTable.

(** ** Writing a balance *)

Section BalanceWrite.

Variables (userId : string) (newBalance : Q).

Lemma is_missing_set_balance names c u :
  is_missing names (User.set_balance c u) = is_missing names u.
Proof. reflexivity. Qed.

(** The array after the assignment reads as the array before it with the
    first record of that id assigned. *)
Lemma assign_found_users a s :
  let '(a', s') := assign_found userId newBalance a s in
  users_of s' a' = assign_first (has_id userId) newBalance (users_of s a)
  /\ map User.name (default_users s') = map User.name (default_users s)
  /\ ls_sessions s' = ls_sessions s
  /\ ls_transactions s' = ls_transactions s.
Proof.
  destruct a as [|own names|own]; simpl.
  - rewrite assign_first_names. auto.
  - destruct (existsb (has_id userId) own) eqn:He; simpl.
    + rewrite assign_first_app_l by assumption. auto.
    + rewrite assign_first_app_r by assumption.
      rewrite (filter_assign_first (is_missing names) (has_id userId))
        by (intros; apply is_missing_set_balance).
      rewrite assign_first_names. auto.
  - auto.
Qed.

Lemma updateUserBalance_found s u :
  find (has_id userId) (getUsers_list s) = Some u ->
  ls_users (updateUserBalance userId newBalance s)
    = Some (assign_first (has_id userId) newBalance (getUsers_list s))
  /\ map User.name (default_users (updateUserBalance userId newBalance s))
     = map User.name (default_users s)
  /\ ls_sessions (updateUserBalance userId newBalance s) = ls_sessions s
  /\ ls_transactions (updateUserBalance userId newBalance s) = ls_transactions s.
Proof.
  unfold updateUserBalance, getUsers_list.
  pose proof (getUsers_keeps s) as (Kd & Ks & Kt).
  destruct (getUsers s) as [a s1]. simpl in Kd, Ks, Kt. intros Hf. rewrite Hf.
  pose proof (assign_found_users a s1) as H.
  destruct (assign_found userId newBalance a s1) as [a' s2].
  destruct H as (Hu & Hn & Hs & Ht). simpl.
  rewrite Hu, Hn, Hs, Ht, Kd, Ks, Kt. auto.
Qed.

Lemma updateUserBalance_absent s :
  find (has_id userId) (getUsers_list s) = None ->
  updateUserBalance userId newBalance s = snd (getUsers s).
Proof.
  unfold updateUserBalance, getUsers_list.
  destruct (getUsers s) as [a s1]. intros Hf. now rewrite Hf.
Qed.

Lemma updateUserBalance_keeps s :
  map User.name (default_users (updateUserBalance userId newBalance s))
    = map User.name (default_users s)
  /\ ls_sessions (updateUserBalance userId newBalance s) = ls_sessions s
  /\ ls_transactions (updateUserBalance userId newBalance s) = ls_transactions s.
Proof.
  destruct (find (has_id userId) (getUsers_list s)) as [u|] eqn:Hf.
  - now destruct (updateUserBalance_found s u Hf) as (_ & ? & ? & ?).
  - rewrite (updateUserBalance_absent s Hf).
    destruct (getUsers_keeps s) as (-> & -> & ->). auto.
Qed.

Lemma updateUserBalance_intact s :
  defaults_intact s -> defaults_intact (updateUserBalance userId newBalance s).
Proof.
  unfold defaults_intact. intros H.
  destruct (updateUserBalance_keeps s) as (-> & _). exact H.
Qed.

Lemma forallb_assign_first l :
  forallb not_placeholder (assign_first (has_id userId) newBalance l)
  = forallb not_placeholder l.
Proof.
  induction l as [|x l IH]; simpl; [reflexivity|].
  destruct (has_id userId x); simpl; [reflexivity | now rewrite IH].
Qed.

(** After the write, a read returns the list of before with the balance
    assigned. *)
Lemma updateUserBalance_read s u :
  defaults_intact s ->
  find (has_id userId) (getUsers_list s) = Some u ->
  getUsers_list (updateUserBalance userId newBalance s)
  = assign_first (has_id userId) newBalance (getUsers_list s).
Proof.
  intros Hd Hf.
  destruct (updateUserBalance_found s u Hf) as (Hls & _).
  destruct (getUsers_normal s Hd) as (Hnp & Hincl).
  apply getUsers_list_fixed.
  - now apply updateUserBalance_intact.
  - exact Hls.
  - now rewrite forallb_assign_first.
  - now rewrite assign_first_names.
Qed.

End BalanceWrite.

Lemma getUsers_intact s : defaults_intact s -> defaults_intact (snd (getUsers s)).
Proof.
  unfold defaults_intact. destruct (getUsers_keeps s) as (-> & _). auto.
Qed.

(** Reading twice shows what reading once shows. *)
Lemma getUsers_list_again s :
  defaults_intact s -> getUsers_list (snd (getUsers s)) = getUsers_list s.
Proof.
  intros Hd. destruct (getUsers_normal s Hd) as (Hnp & Hincl).
  apply getUsers_list_fixed; auto using getUsers_intact, getUsers_stored.
Qed.

Lemma getUsers_again s :
  defaults_intact s -> snd (getUsers (snd (getUsers s))) = snd (getUsers s).
Proof.
  intros Hd. destruct (getUsers_normal s Hd) as (Hnp & Hincl).
  rewrite (getUsers_fixed (snd (getUsers s)) (getUsers_list s));
    auto using getUsers_intact, getUsers_stored.
Qed.

Lemma updateUserBalance_stored_balance s userId newBalance u :
  defaults_intact s ->
  find (has_id userId) (getUsers_list s) = Some u ->
  stored_balance userId (updateUserBalance userId newBalance s) = Some newBalance.
Proof.
  intros Hd Hf. unfold stored_balance.
  rewrite (updateUserBalance_read userId newBalance s u Hd Hf).
  now rewrite (find_assign_first _ _ _ u Hf).
Qed.

Lemma find_card_of_owner i r l u :
  find (has_id i) l = Some u ->
  User.rfidCardId u = r ->
  (forall v, In v l -> User.rfidCardId v = r -> User.id v = i) ->
  find (has_rfid r) l = Some u.
Proof.
  intros Hf Hr Hown. induction l as [|a l IH]; [discriminate|].
  cbn [find] in *. destruct (has_id i a) eqn:Ei.
  - injection Hf as ->. unfold has_rfid. rewrite Hr, String.eqb_refl. reflexivity.
  - destruct (has_rfid r a) eqn:Er.
    + unfold has_rfid in Er. apply String.eqb_eq in Er.
      assert (Hid : User.id a = i) by (apply Hown; [now left | exact Er]).
      unfold has_id in Ei. rewrite Hid, String.eqb_refl in Ei. discriminate.
    + apply IH; [exact Hf|]. intros v Hv. apply Hown. now right.
Qed.

Lemma getUserByRfid_list r s :
  fst (getUserByRfid r s) = find (has_rfid r) (getUsers_list s).
Proof. unfold getUserByRfid, getUsers_list. now destruct (getUsers s). Qed.

(** C8: for every user id [db] shows and every new balance, the write
    [updateUserBalance] followed immediately by a read of that user returns
    the newly written balance: through [getUsers] and a lookup by id, and
    through [getUserByRfid] for the card of that user, whenever that card is
    carried by no account of another id (or, more generally, whenever the
    user is the first account in the list with that card).  (The records of
    [DEFAULT_USERS] are assumed to carry their original names.) *)
Theorem C8_write_then_read (s : Store) (userId : string) (newBalance : Q) (u : User.t)
    (Hdefaults : defaults_intact s)
    (Hpresent : find (has_id userId) (getUsers_list s) = Some u) :
  let s' := updateUserBalance userId newBalance s in
  find (has_id userId) (getUsers_list s') = Some (User.set_balance newBalance u)
  /\ stored_balance userId s' = Some newBalance
  /\ ((forall v, In v (getUsers_list s) ->
                 User.rfidCardId v = User.rfidCardId u -> User.id v = userId) ->
      fst (getUserByRfid (User.rfidCardId u) s') = Some (User.set_balance newBalance u))
  /\ forall rfidCardId,
       find (has_rfid rfidCardId) (getUsers_list s) = Some u ->
       fst (getUserByRfid rfidCardId s') = Some (User.set_balance newBalance u).
Proof.
  intros s'. subst s'.
  pose proof (updateUserBalance_read userId newBalance s u Hdefaults Hpresent) as Hread.
  assert (Hfind : find (has_id userId)
                    (getUsers_list (updateUserBalance userId newBalance s))
                  = Some (User.set_balance newBalance u)).
  { rewrite Hread. now apply find_assign_first. }
  assert (Hcard : forall r,
            find (has_rfid r) (getUsers_list s) = Some u ->
            fst (getUserByRfid r (updateUserBalance userId newBalance s))
            = Some (User.set_balance newBalance u)).
  { intros r Hr. rewrite getUserByRfid_list, Hread.
    now apply find_rfid_assign_first. }
  split; [exact Hfind|]. split; [|split].
  - unfold stored_balance. now rewrite Hfind.
  - intros Hown. apply Hcard.
    now apply (find_card_of_owner userId).
  - exact Hcard.
Qed.

(** C8 on a concrete store: user "2" with card RFID002 and a balance of 150,
    new balance 42, read back by id and by card. *)
Lemma C8_write_then_read_witness :
  defaults_intact (fresh_store "2025-01-01T00:00:00.000Z")
  /\ stored_balance "2" (fresh_store "2025-01-01T00:00:00.000Z") = Some 150
  /\ stored_balance "2"
       (updateUserBalance "2" 42 (fresh_store "2025-01-01T00:00:00.000Z")) = Some 42
  /\ fst (getUserByRfid "RFID002"
            (updateUserBalance "2" 42 (fresh_store "2025-01-01T00:00:00.000Z")))
     = Some (User.mk "2" "Fateen Shaikh" "RFID002" 42 (Some "+91 9876543213")
               "2025-01-01T00:00:00.000Z").
Proof.
  assert (Hd : defaults_intact (fresh_store "2025-01-01T00:00:00.000Z")) by reflexivity.
  assert (Hp : find (has_id "2") (getUsers_list (fresh_store "2025-01-01T00:00:00.000Z"))
               = Some (User.mk "2" "Fateen Shaikh" "RFID002" 150 (Some "+91 9876543213")
                         "2025-01-01T00:00:00.000Z")) by reflexivity.
  assert (Hown : forall v,
            In v (getUsers_list (fresh_store "2025-01-01T00:00:00.000Z")) ->
            User.rfidCardId v = "RFID002" -> User.id v = "2").
  { intros v Hv Hr. cbn in Hv.
    destruct Hv as [<- | [<- | [<- | []]]]; cbn in *; congruence. }
  split; [exact Hd|]. split; [reflexivity|].
  destruct (C8_write_then_read _ "2" 42 _ Hd Hp) as (_ & Hb & Hc & _).
  split; [exact Hb | exact (Hc Hown)].
Defined.

(** ** What a read does to the user table *)

Lemma covering_length (l : list User.t) :
  incl requiredUserNames (map User.name l) -> (3 <= List.length l)%nat.
Proof.
  intros Hincl. rewrite <- (length_map User.name).
  change 3%nat with (List.length requiredUserNames).
  apply NoDup_incl_length; [|exact Hincl].
  unfold requiredUserNames. repeat constructor; simpl; intuition discriminate.
Qed.

(** With a list in [localStorage], a read returns its non-placeholder
    records followed by the default records whose name they lack. *)
Lemma getUsers_list_stored s users :
  defaults_intact s ->
  ls_users s = Some users ->
  getUsers_list s
  = (filter not_placeholder users
     ++ filter (is_missing (map User.name (filter not_placeholder users)))
               (default_users s))%list.
Proof.
  intros Hd Hs. unfold getUsers_list, getUsers. rewrite Hs.
  set (filteredUsers := filter not_placeholder users).
  set (missing := filter _ (default_users s)).
  destruct (0 <? List.length missing)%nat eqn:Hm; simpl; [reflexivity|].
  assert (missing = []) as Hnil.
  { apply Nat.ltb_ge in Hm. destruct missing; [reflexivity | simpl in Hm; lia]. }
  rewrite Hnil, app_nil_r.
  destruct (negb _); simpl; [reflexivity|].
  destruct (_ <? 3)%nat eqn:Hlen; simpl; [|reflexivity].
  exfalso. apply Nat.ltb_lt in Hlen.
  assert (3 <= List.length filteredUsers)%nat; [|lia].
  apply covering_length. intros n Hn. rewrite <- Hd in Hn.
  apply in_map_iff in Hn as [d [<- Hdin]].
  destruct (includes (map User.name filteredUsers) (User.name d)) eqn:Hi.
  - now apply includes_In.
  - exfalso. assert (In d missing) as Hin.
    { apply filter_In. split; [assumption|]. unfold is_missing. now rewrite Hi. }
    rewrite Hnil in Hin. destruct Hin.
Qed.

Lemma not_placeholder_names u :
  not_placeholder u = true ->
  User.name u <> "John Doe" /\ User.name u <> "Jane Smith".
Proof.
  unfold not_placeholder. intros H. apply andb_true_iff in H as [H1 H2].
  apply negb_true_iff in H1, H2. apply String.eqb_neq in H1, H2. auto.
Qed.

(** C10: for every stored user list (and [DEFAULT_USERS] as the module
    declares it), [db.getUsers()] returns a list with no user named
    'John Doe' or 'Jane Smith' and with users named 'Lalit Nikumbh',
    'Fateen Shaikh' and 'Nishad Deshmukh'; the other stored records are kept,
    a default account whose name is not stored is added as its hardcoded
    record (balance included), and the list returned is what the read leaves
    in storage: a read removes and resurrects accounts. *)
Theorem C10_read_rewrites_accounts (loadedAt : string) (s : Store) (users : list User.t)
    (Hstored : ls_users s = Some users)
    (Hdefaults : default_users s = DEFAULT_USERS loadedAt) :
  (forall u, In u (getUsers_list s) ->
     User.name u <> "John Doe" /\ User.name u <> "Jane Smith")
  /\ (forall n, In n requiredUserNames -> In n (map User.name (getUsers_list s)))
  /\ (forall u, In u users -> not_placeholder u = true -> In u (getUsers_list s))
  /\ (forall u, In u (getUsers_list s) ->
        In u users \/ In u (DEFAULT_USERS loadedAt))
  /\ (forall d, In d (DEFAULT_USERS loadedAt) ->
        ~ In (User.name d) (map User.name users) -> In d (getUsers_list s))
  /\ ls_users (snd (getUsers s)) = Some (getUsers_list s).
Proof.
  assert (Hd : defaults_intact s) by (unfold defaults_intact; now rewrite Hdefaults).
  destruct (getUsers_normal s Hd) as (Hnp & Hincl).
  pose proof (getUsers_list_stored s users Hd Hstored) as Hlist.
  repeat split.
  - apply not_placeholder_names. rewrite forallb_forall in Hnp. auto.
  - apply not_placeholder_names. rewrite forallb_forall in Hnp. auto.
  - exact Hincl.
  - intros u Hu Hp. rewrite Hlist, in_app_iff. left. now apply filter_In.
  - intros u Hu. rewrite Hlist, in_app_iff in Hu. destruct Hu as [Hu|Hu].
    + left. now apply filter_In in Hu.
    + right. rewrite <- Hdefaults. now apply filter_In in Hu.
  - intros d Hdin Hnot. rewrite Hlist, in_app_iff. right.
    apply filter_In. split; [now rewrite Hdefaults|].
    unfold is_missing. apply negb_true_iff.
    destruct (includes _ _) eqn:Hi; [|reflexivity].
    exfalso. apply Hnot. apply includes_In in Hi.
    apply in_map_iff in Hi as [x [Hx Hxin]]. apply in_map_iff.
    exists x. split; [assumption|]. now apply filter_In in Hxin.
  - apply getUsers_stored.
Qed.

(** C10 on [legacy_store]: the placeholders are gone, the stored record of
    Fateen Shaikh stays, the two others come back with 100 and 90. *)
Lemma C10_read_rewrites_accounts_witness :
  ls_users legacy_store
    = Some [ User.mk "1" "John Doe" "RFID001" 500 None "2024";
             User.mk "2" "Jane Smith" "RFID002" 300 None "2024";
             User.mk "9" "Fateen Shaikh" "RFID009" 7 None "2024" ]
  /\ default_users legacy_store = DEFAULT_USERS "2025"
  /\ map (fun u => (User.name u, User.balance u)) (getUsers_list legacy_store)
     = [ ("Fateen Shaikh", 7); ("Lalit Nikumbh", 100); ("Nishad Deshmukh", 90) ]
  /\ (forall n, In n requiredUserNames ->
        In n (map User.name (getUsers_list legacy_store))).
Proof.
  split; [reflexivity|]. split; [reflexivity|]. split; [reflexivity|].
  exact (proj1 (proj2 (C10_read_rewrites_accounts "2025" legacy_store _
                         eq_refl eq_refl))).
Defined.

(** The default records are handed out, not copied: when the record
    [updateUserBalance] finds is one that the read has just re-provisioned,
    the assignment lands in [DEFAULT_USERS], and the next re-provisioning
    uses the assigned balance. *)
Remark DEFAULT_USERS_is_shared :
  let s0 := set_ls_users (Some []) (fresh_store "t") in
  let s1 := updateUserBalance "1" 60 s0 in
  map User.balance (default_users s1) = [60; 150; 90]
  /\ map User.balance (getUsers_list (set_ls_users (Some []) s1)) = [60; 150; 90].
Proof. split; reflexivity. Qed.

(** ** The session list *)

Lemma getUsers_sessions s a s' :
  getUsers s = (a, s') -> ls_sessions s' = ls_sessions s.
Proof.
  intros H. pose proof (getUsers_keeps s) as (_ & Hs & _).
  rewrite H in Hs. exact Hs.
Qed.

Lemma spread_status x u :
  ChargingSession.status (spread x u)
  = or_else (SessionUpdates.status u) (ChargingSession.status x).
Proof. reflexivity. Qed.

(** An update that does not set the status to ['in_progress'] cannot add an
    in-progress session. *)
Lemma update_first_count sessionId updates l l' :
  SessionUpdates.status updates <> Some in_progress ->
  update_first sessionId updates l = Some l' ->
  (List.length (filter is_in_progress l') <= List.length (filter is_in_progress l))%nat.
Proof.
  intros Hst. revert l'. induction l as [|x l IH]; simpl; intros l' H; [discriminate|].
  destruct (ChargingSession.id x =? sessionId).
  - injection H as <-. simpl.
    assert (is_in_progress (spread x updates) = true -> is_in_progress x = true) as Himp.
    { unfold is_in_progress. rewrite spread_status.
      destruct (SessionUpdates.status updates) as [[]|]; simpl;
        try discriminate; try congruence; auto. }
    destruct (is_in_progress (spread x updates)); simpl.
    + rewrite Himp by reflexivity. simpl. lia.
    + destruct (is_in_progress x); simpl; lia.
  - destruct (update_first sessionId updates l) as [l0|]; [|discriminate].
    injection H as <-. simpl. specialize (IH l0 eq_refl).
    destruct (is_in_progress x); simpl; lia.
Qed.

Lemma updateSession_count sessionId updates s :
  SessionUpdates.status updates <> Some in_progress ->
  (in_progress_count (updateSession sessionId updates s) <= in_progress_count s)%nat.
Proof.
  intros Hst. unfold updateSession, in_progress_count.
  destruct (update_first sessionId updates (getSessions s)) as [l|] eqn:Hu; [|lia].
  simpl. eapply update_first_count; eauto.
Qed.

Lemma createSession_count x s :
  in_progress_count (createSession x s)
  = (in_progress_count s + (if is_in_progress x then 1 else 0))%nat.
Proof.
  unfold createSession, in_progress_count, saveSessions.
  cbn [getSessions set_ls_sessions ls_sessions or_else].
  rewrite filter_app, length_app. simpl. now destruct (is_in_progress x).
Qed.

Lemma count_by_sessions s s' :
  ls_sessions s' = ls_sessions s -> in_progress_count s' = in_progress_count s.
Proof. unfold in_progress_count, getSessions. now intros ->. Qed.

Lemma updateUserBalance_count i b s :
  in_progress_count (updateUserBalance i b s) = in_progress_count s.
Proof. apply count_by_sessions. now destruct (updateUserBalance_keeps i b s) as (_ & ? & _). Qed.

Lemma getUsers_count s : in_progress_count (snd (getUsers s)) = in_progress_count s.
Proof. apply count_by_sessions. now destruct (getUsers_keeps s) as (_ & ? & _). Qed.

Lemma addTransaction_count t s :
  in_progress_count (addTransaction t s) = in_progress_count s.
Proof. reflexivity. Qed.

Lemma mount_auth_db k : db (Router.mount_auth k) = snd (getUsers (db k)).
Proof. unfold Router.mount_auth. now destruct (getUsers (db k)). Qed.

Lemma mount_admin_db k : db (Router.mount_admin k) = snd (getUsers (db k)).
Proof. unfold Router.mount_admin. now destruct (getUsers (db k)). Qed.

Lemma navigate_db r k :
  db (Router.navigate r k) = db k \/ db (Router.navigate r k) = snd (getUsers (db k)).
Proof.
  destruct r; simpl; auto using mount_auth_db, mount_admin_db.
  - destruct (currentUser (ctx k)); auto using mount_auth_db.
  - destruct (currentSession (ctx k)) as [x|]; auto using mount_auth_db.
    destruct (is_in_progress x); auto.
Qed.

Lemma rerender_db k :
  db (Router.rerender k) = db k \/ db (Router.rerender k) = snd (getUsers (db k)).
Proof.
  unfold Router.rerender. destruct (route k); auto using navigate_db.
  destruct (currentUser (ctx k)); auto using mount_auth_db.
Qed.

Lemma navigate_count r k :
  in_progress_count (db (Router.navigate r k)) = in_progress_count (db k).
Proof. destruct (navigate_db r k) as [-> | ->]; auto using getUsers_count. Qed.

Lemma rerender_count k :
  in_progress_count (db (Router.rerender k)) = in_progress_count (db k).
Proof. destruct (rerender_db k) as [-> | ->]; auto using getUsers_count. Qed.

Lemma stopCharging_count status now reply k :
  status <> in_progress ->
  (in_progress_count (db (AppCtx.stopCharging status now reply k))
   <= in_progress_count (db k))%nat.
Proof.
  intros Hst. unfold AppCtx.stopCharging.
  destruct (currentSession (ctx k)) as [x|]; [|lia]. kiosk_simpl.
  apply updateSession_count. simpl. congruence.
Qed.

Lemma tick_count now rv rc r1 r2 k :
  (in_progress_count (db (AppCtx.tick now rv rc r1 r2 k)) <= in_progress_count (db k))%nat.
Proof.
  unfold AppCtx.tick, AppCtx.refreshBatteryStatus. kiosk_simpl.
  destruct (currentSession (ctx k)) as [x|]; [|lia].
  destruct (is_in_progress x); [|lia].
  unfold AppCtx.meter.
  match goal with |- context [if ?c then _ else _] => destruct c end.
  - etransitivity; [apply stopCharging_count; discriminate|].
    kiosk_simpl. apply updateSession_count. discriminate.
  - kiosk_simpl. apply updateSession_count. discriminate.
Qed.

Lemma scanRfid_db reply now k :
  db (snd (AppCtx.scanRfid reply now k)) = db k
  \/ db (snd (AppCtx.scanRfid reply now k)) = snd (getUsers (db k)).
Proof.
  unfold AppCtx.scanRfid. destruct (Hardware.scanRfid reply now (hw k)) as [[r|] h]; auto.
  unfold getUserByRfid. kiosk_simpl.
  destruct (getUsers (db k)) as [a s1]. destruct (find _ _); auto.
Qed.

Lemma handleScan_db reply now k :
  db (Auth.handleScan reply now k) = db k
  \/ db (Auth.handleScan reply now k) = snd (getUsers (db k)).
Proof.
  unfold Auth.handleScan.
  pose proof (scanRfid_db reply now
                (setCardScanned false (setError None (setScanning true k)))) as H.
  destruct (AppCtx.scanRfid _ _ _) as [[u|] k1]; kiosk_simpl; exact H.
Qed.

Lemma handleRfidEvent_db event now k : db (Auth.handleRfidEvent event now k) = db k.
Proof.
  unfold Auth.handleRfidEvent. destruct (currentUser (ctx k)); [reflexivity|].
  destruct (ev_type event); try reflexivity.
  destruct (ev_success event) as [[]|], (ev_user event); reflexivity.
Qed.

Lemma handleAmountSelect_db amount k : db (CostSelection.handleAmountSelect amount k) = db k.
Proof. unfold CostSelection.handleAmountSelect. now destruct (Qgt_bool _ _). Qed.

Lemma handleCustomAmount_db value num k :
  db (CostSelection.handleCustomAmount value num k) = db k.
Proof.
  unfold CostSelection.handleCustomAmount. destruct num as [n|]; [|reflexivity].
  destruct (Qgt_bool n 0); [|reflexivity]. now destruct (Qgt_bool _ _).
Qed.

Lemma handleStop_count now reply k :
  (in_progress_count (db (ChargingScr.handleStop now reply k)) <= in_progress_count (db k))%nat.
Proof.
  unfold ChargingScr.handleStop. destruct (currentSession (ctx k)) as [x|]; [|lia].
  rewrite navigate_count. kiosk_simpl. rewrite addTransaction_count.
  apply updateSession_count. discriminate.
Qed.

Lemma handleBalanceAdjustment_count userId amount add now k :
  in_progress_count (db (AdminScr.handleBalanceAdjustment userId amount add now k))
  = in_progress_count (db k).
Proof.
  unfold AdminScr.handleBalanceAdjustment.
  destruct (find _ _); [|reflexivity]. destruct (Qgt_bool _ _); [reflexivity|].
  unfold AdminScr.loadData. kiosk_simpl.
  match goal with |- context [getUsers ?s] =>
    pose proof (getUsers_count s) as H; destruct (getUsers s) as [a s1] end.
  kiosk_simpl. rewrite H, addTransaction_count. apply updateUserBalance_count.
Qed.

(** What [handleConfirm] does when an amount is selected and a user is
    logged in, field by field. *)
Lemma handleConfirm_runs now reply k amount user :
  CostSelection.truthy_amount (selectedAmount (cost k)) = Some amount ->
  currentUser (ctx k) = Some user ->
  let k' := CostSelection.handleConfirm now reply k in
  let session := CostSelection.new_session now k user amount in
  db k' = addTransaction (CostSelection.start_transaction now k user amount)
            (createSession session
               (updateUserBalance (User.id user) (User.balance user - amount) (db k)))
  /\ currentSession (ctx k') = Some session
  /\ currentUser (ctx k') = Some (User.set_balance (User.balance user - amount) user)
  /\ route k' = Charging
  /\ hw k' = snd (Hardware.startCharging (CostSelection.targetBattery k) now reply (hw k)).
Proof.
  intros Ha Hu. unfold CostSelection.handleConfirm. rewrite Ha, Hu.
  cbv zeta. unfold Router.navigate. kiosk_simpl.
  replace (is_in_progress (CostSelection.new_session now k user amount)) with true
    by reflexivity.
  kiosk_simpl. auto.
Qed.

Lemma handleConfirm_idle now reply k :
  CostSelection.truthy_amount (selectedAmount (cost k)) = None
  \/ currentUser (ctx k) = None ->
  CostSelection.handleConfirm now reply k = k.
Proof.
  unfold CostSelection.handleConfirm. intros [-> | ->]; [reflexivity|].
  now destruct (CostSelection.truthy_amount _).
Qed.

Lemma handleConfirm_count now reply k :
  (in_progress_count (db (CostSelection.handleConfirm now reply k))
   <= in_progress_count (db k) + 1)%nat.
Proof.
  destruct (CostSelection.truthy_amount (selectedAmount (cost k))) as [a|] eqn:Ha.
  2:{ rewrite handleConfirm_idle by auto. lia. }
  destruct (currentUser (ctx k)) as [u|] eqn:Hu.
  2:{ rewrite handleConfirm_idle by auto. lia. }
  destruct (handleConfirm_runs now reply k a u Ha Hu) as (-> & _).
  rewrite addTransaction_count, createSession_count, updateUserBalance_count.
  simpl. lia.
Qed.

Lemma on_cases r k f : on r k f = f k \/ on r k f = k.
Proof. unfold on. destruct r, (route k); auto. Qed.

(** Only a confirmation can add an in-progress session. *)
Lemma step_count op k :
  (in_progress_count (db (step op k))
   <= in_progress_count (db k) + (if is_confirm op then 1 else 0))%nat.
Proof.
  unfold step. rewrite rerender_count.
  assert (forall f n,
            (in_progress_count (db (f k)) <= in_progress_count (db k) + n)%nat ->
            forall r, (in_progress_count (db (on r k f)) <= in_progress_count (db k) + n)%nat)
    as Hon.
  { intros f n Hf r. destruct (on_cases r k f) as [-> | ->]; [exact Hf | lia]. }
  destruct op; cbn [handle is_confirm]; try apply Hon; cbv beta.
  - rewrite navigate_count. lia.
  - simpl. lia.
  - pose proof (tick_count now rv rc reply_sim reply_stop k). lia.
  - destruct (handleScan_db reply now k) as [-> | ->]; rewrite ?getUsers_count; lia.
  - rewrite handleRfidEvent_db. kiosk_simpl. lia.
  - unfold Auth.handleSelectRfid. destruct (nth_error _ _); simpl; lia.
  - unfold Auth.handleProceed. destruct (currentUser (ctx k)); [|simpl; lia].
    destruct (cardScanned (auth k)); [|simpl; lia]. rewrite navigate_count. lia.
  - simpl. lia.
  - destruct (nth_error _ _); [rewrite handleAmountSelect_db|]; lia.
  - rewrite handleCustomAmount_db. lia.
  - destruct (processing (cost k)); [lia | apply handleConfirm_count].
  - pose proof (handleStop_count now reply k). lia.
  - rewrite handleBalanceAdjustment_count. lia.
  - simpl. lia.
Qed.

Lemma step_keeps_one op k :
  (in_progress_count (db k) <= 1)%nat ->
  (negb (is_confirm op) || (in_progress_count (db k) =? 0)%nat) = true ->
  (in_progress_count (db (step op k)) <= 1)%nat.
Proof.
  intros Hk Hop. pose proof (step_count op k) as H.
  destruct (is_confirm op); simpl in *.
  - apply Nat.eqb_eq in Hop. lia.
  - lia.
Qed.

(** C1 (as the code has it): along every sequence of operations in which
    each confirmation of the cost screen happens while no stored session is
    'in_progress', at most one stored session is 'in_progress' at any
    instant.  Finalizations, metering ticks and all other operations never
    add an in-progress session; a confirmation with a selected amount and a
    logged-in user always adds one, whether or not a session is active. *)
Theorem C1_one_session_when_confirms_are_idle (ops : list Op) (k : Kiosk)
    (Hstart : (in_progress_count (db k) <= 1)%nat)
    (Hidle : confirms_when_idle ops k = true) :
  (forall n, (in_progress_count (db (run (firstn n ops) k)) <= 1)%nat)
  /\ (forall op k0, is_confirm op = false ->
        (in_progress_count (db (step op k0)) <= in_progress_count (db k0))%nat)
  /\ (forall now reply k0 amount user,
        CostSelection.truthy_amount (selectedAmount (cost k0)) = Some amount ->
        currentUser (ctx k0) = Some user ->
        in_progress_count (db (CostSelection.handleConfirm now reply k0))
        = S (in_progress_count (db k0))).
Proof.
  split; [|split].
  - revert k Hstart Hidle. induction ops as [|op ops IH]; intros k Hstart Hidle n.
    + now destruct n.
    + destruct n as [|n]; [exact Hstart|]. simpl in *.
      apply andb_true_iff in Hidle as [Hop Hrest].
      apply IH; [|exact Hrest]. now apply step_keeps_one.
  - intros op k0 Hop. pose proof (step_count op k0) as H. rewrite Hop in H. lia.
  - intros now reply k0 amount user Ha Hu.
    destruct (handleConfirm_runs now reply k0 amount user Ha Hu) as (-> & _).
    rewrite addTransaction_count, createSession_count, updateUserBalance_count.
    simpl. lia.
Qed.

(** C1 on a run with two sessions, the second confirmed after the first was
    stopped. *)
Lemma C1_one_session_when_confirms_are_idle_witness :
  (in_progress_count (db at_cost_screen) <= 1)%nat
  /\ confirms_when_idle confirm_stop_confirm at_cost_screen = true
  /\ (in_progress_count (db (run confirm_stop_confirm at_cost_screen)) <= 1)%nat.
Proof.
  assert (H1 : (in_progress_count (db at_cost_screen) <= 1)%nat) by (vm_compute; lia).
  assert (H2 : confirms_when_idle confirm_stop_confirm at_cost_screen = true)
    by (vm_compute; reflexivity).
  split; [exact H1|]. split; [exact H2|].
  exact (proj1 (C1_one_session_when_confirms_are_idle confirm_stop_confirm
                  at_cost_screen H1 H2) 6%nat).
Defined.

(** C1 as stated fails: [handleConfirm] does not look for an active session,
    so a second confirmation while the first session is 'in_progress' stores a
    second 'in_progress' session. *)
Lemma C1_second_confirm_adds_a_session :
  in_progress_count (db (run (firstn 2 confirm_twice) at_cost_screen)) = 1%nat
  /\ in_progress_count (db (run confirm_twice at_cost_screen)) = 2%nat
  /\ map ChargingSession.status (getSessions (db (run confirm_twice at_cost_screen)))
     = [in_progress; in_progress].
Proof. repeat split; vm_compute; reflexivity. Qed.

(** ** Paying for a session *)

Lemma getUsers_list_ext s s' :
  ls_users s' = ls_users s -> default_users s' = default_users s ->
  getUsers_list s' = getUsers_list s.
Proof.
  intros Hu Hd. unfold getUsers_list, getUsers. rewrite Hu, Hd.
  destruct (ls_users s); simpl.
  - repeat match goal with |- context [if ?c then _ else _] => destruct c end;
      simpl; rewrite ?Hd; reflexivity.
  - now rewrite Hd.
Qed.

Lemma stored_balance_ext i s s' :
  ls_users s' = ls_users s -> default_users s' = default_users s ->
  stored_balance i s' = stored_balance i s.
Proof. intros. unfold stored_balance. now rewrite (getUsers_list_ext s s'). Qed.

Lemma stored_balance_again i s :
  defaults_intact s -> stored_balance i (snd (getUsers s)) = stored_balance i s.
Proof. intros. unfold stored_balance. now rewrite getUsers_list_again. Qed.

(** C2 (as the code has it): when the logged-in user is a stored user and
    the balance the context holds for them is the stored one, confirming a
    selected amount sets the stored balance to exactly that balance minus the
    amount, by a single assignment, in the same handler run that appends the
    'in_progress' session of that amount; without a selected amount or a
    user the handler changes nothing; and presenting the card again
    afterwards (manual scan or backend event) leaves the stored balance as it
    is. *)
Theorem C2_debit_with_session (k : Kiosk) (now : Z) (reply : StartReply)
    (amount : Q) (user stored : User.t)
    (Hdefaults : defaults_intact (db k))
    (Hamount : CostSelection.truthy_amount (selectedAmount (cost k)) = Some amount)
    (Huser : currentUser (ctx k) = Some user)
    (Hstored : find (has_id (User.id user)) (getUsers_list (db k)) = Some stored)
    (Hfresh : User.balance stored == User.balance user) :
  let k' := CostSelection.handleConfirm now reply k in
  let session := CostSelection.new_session now k user amount in
  (exists b, stored_balance (User.id user) (db k') = Some b
             /\ b == User.balance stored - amount)
  /\ getUsers_list (db k')
     = assign_first (has_id (User.id user)) (User.balance user - amount)
         (getUsers_list (db k))
  /\ getSessions (db k') = (getSessions (db k) ++ [session])%list
  /\ ChargingSession.paidAmount session = amount
  /\ ChargingSession.status session = in_progress
  /\ (forall now0 reply0 k0,
        CostSelection.truthy_amount (selectedAmount (cost k0)) = None
        \/ currentUser (ctx k0) = None ->
        CostSelection.handleConfirm now0 reply0 k0 = k0)
  /\ (forall reply1 now1,
        stored_balance (User.id user) (db (Auth.handleScan reply1 now1 k'))
        = stored_balance (User.id user) (db k'))
  /\ (forall event now1, db (Auth.handleRfidEvent event now1 k') = db k').
Proof.
  intros k' session.
  destruct (handleConfirm_runs now reply k amount user Hamount Huser)
    as (Hdb & _). fold k' in Hdb. fold session in Hdb.
  set (s1 := updateUserBalance (User.id user) (User.balance user - amount) (db k)) in *.
  assert (Hs1 : defaults_intact s1) by now apply updateUserBalance_intact.
  assert (Hlist : getUsers_list (db k') = getUsers_list s1).
  { rewrite Hdb. now apply getUsers_list_ext. }
  pose proof (updateUserBalance_stored_balance (db k) (User.id user)
                (User.balance user - amount) stored Hdefaults Hstored) as Hbal.
  fold s1 in Hbal.
  assert (Hintact : defaults_intact (db k')) by (rewrite Hdb; exact Hs1).
  split.
  { exists (User.balance user - amount). split.
    - unfold stored_balance in *. now rewrite Hlist.
    - now rewrite Hfresh. }
  split.
  { rewrite Hlist. unfold s1. now apply (updateUserBalance_read _ _ _ stored). }
  split.
  { rewrite Hdb. unfold addTransaction, saveTransactions, createSession, saveSessions.
    cbn [getSessions set_ls_transactions set_ls_sessions ls_sessions or_else].
    f_equal. change (or_else (ls_sessions s1) []) with (getSessions s1).
    unfold getSessions, s1.
    now destruct (updateUserBalance_keeps (User.id user)
                    (User.balance user - amount) (db k)) as (_ & -> & _). }
  split; [reflexivity|]. split; [reflexivity|].
  split; [intros; now apply handleConfirm_idle|].
  split.
  - intros reply1 now1.
    destruct (handleScan_db reply1 now1 k') as [-> | ->]; [reflexivity|].
    now apply stored_balance_again.
  - intros. apply handleRfidEvent_db.
Qed.

(** C2 on the first run: user "1" holds 100 and confirms 40. *)
Lemma C2_debit_with_session_witness :
  defaults_intact (db amount_selected)
  /\ CostSelection.truthy_amount (selectedAmount (cost amount_selected)) = Some 40
  /\ stored_balance "1" (db amount_selected) = Some 100
  /\ exists b,
       stored_balance "1"
         (db (CostSelection.handleConfirm 1000 StartBackendDown amount_selected)) = Some b
       /\ b == 100 - 40.
Proof.
  assert (Hd : defaults_intact (db amount_selected)) by reflexivity.
  assert (Ha : CostSelection.truthy_amount (selectedAmount (cost amount_selected))
               = Some 40) by reflexivity.
  split; [exact Hd|]. split; [exact Ha|]. split; [reflexivity|].
  exact (proj1 (C2_debit_with_session amount_selected 1000 StartBackendDown 40
                  (User.mk "1" "Lalit Nikumbh" "RFID001" 100 (Some "+91 9876543212")
                     "2025-01-01T00:00:00.000Z")
                  (User.mk "1" "Lalit Nikumbh" "RFID001" 100 (Some "+91 9876543212")
                     "2025-01-01T00:00:00.000Z")
                  Hd Ha eq_refl eq_refl (Qeq_refl _))).
Defined.

(** C2 as stated fails: the new balance is computed from the balance held in
    the context.  Here the stored balance was raised from 100 to 150 while
    the user was logged in; confirming 40 leaves 60 in storage, not 110. *)
Lemma C2_stale_balance_is_written_back :
  CostSelection.truthy_amount (selectedAmount (cost stale_kiosk)) = Some 40
  /\ option_map User.balance (currentUser (ctx stale_kiosk)) = Some 100
  /\ stored_balance "1" (db stale_kiosk) = Some 150
  /\ stored_balance "1"
       (db (CostSelection.handleConfirm 3 StartBackendDown stale_kiosk)) = Some 60
  /\ ~ 60 == 150 - 40.
Proof. repeat split; try (vm_compute; reflexivity). intros H; discriminate H. Qed.

(** ** Starting the relay *)

Lemma handleConfirm_sessions now reply k amount user :
  CostSelection.truthy_amount (selectedAmount (cost k)) = Some amount ->
  currentUser (ctx k) = Some user ->
  getSessions (db (CostSelection.handleConfirm now reply k))
  = (getSessions (db k) ++ [CostSelection.new_session now k user amount])%list.
Proof.
  intros Ha Hu. destruct (handleConfirm_runs now reply k amount user Ha Hu) as (-> & _).
  unfold addTransaction, saveTransactions, createSession, saveSessions.
  cbn [getSessions set_ls_transactions set_ls_sessions ls_sessions or_else].
  f_equal. unfold getSessions.
  now destruct (updateUserBalance_keeps (User.id user)
                  (User.balance user - amount) (db k)) as (_ & -> & _).
Qed.

Lemma startCharging_calls target now reply h :
  Hardware.calls (snd (Hardware.startCharging target now reply h))
  = (Hardware.calls h
     ++ [CallStart target (fst (Hardware.startCharging target now reply h))])%list.
Proof.
  unfold Hardware.startCharging.
  destruct reply as [|[[active [u|]]|] []]; reflexivity.
Qed.

(** A start that fails leaves the relay flag as the backend status reported
    it, or untouched when there was no status. *)
Lemma startCharging_failed target now reply h :
  fst (Hardware.startCharging target now reply h) = false ->
  Hardware.chargingActive (snd (Hardware.startCharging target now reply h))
  = match reply with
    | StartBackendUp (Some st) _ => isCharging st
    | _ => Hardware.chargingActive h
    end.
Proof.
  unfold Hardware.startCharging.
  destruct reply as [|[[active [u|]]|] []]; simpl; intros H;
    try discriminate H; reflexivity.
Qed.

(** [handleConfirm] does not look at what [hardware.startCharging] resolves
    to: after a start that returned [false] the stored data, the session of
    the context and the route are those of a successful start, and the relay
    flag has not been switched on by the call (it is what the backend status
    reported, or unchanged).  The [catch] of the handler, which alerts
    "Failed to start charging", is reached by an exception only, and
    [startCharging], which catches its own, never throws one. *)
Lemma failed_start_is_not_rolled_back (k : Kiosk) (now : Z) (reply : StartReply)
    (amount : Q) (user : User.t)
    (Hamount : CostSelection.truthy_amount (selectedAmount (cost k)) = Some amount)
    (Huser : currentUser (ctx k) = Some user)
    (Hfail : fst (Hardware.startCharging (CostSelection.targetBattery k) now reply (hw k))
             = false) :
  let k' := CostSelection.handleConfirm now reply k in
  let session := CostSelection.new_session now k user amount in
  db k' = db (CostSelection.handleConfirm now StartBackendDown k)
  /\ ls_users (db k')
     = ls_users (updateUserBalance (User.id user) (User.balance user - amount) (db k))
  /\ getSessions (db k') = (getSessions (db k) ++ [session])%list
  /\ ChargingSession.status session = in_progress
  /\ currentSession (ctx k') = Some session
  /\ route k' = Charging
  /\ Hardware.calls (hw k')
     = (Hardware.calls (hw k) ++ [CallStart (CostSelection.targetBattery k) false])%list
  /\ Hardware.chargingActive (hw k')
     = match reply with
       | StartBackendUp (Some st) _ => isCharging st
       | _ => Hardware.chargingActive (hw k)
       end.
Proof.
  intros k' session.
  destruct (handleConfirm_runs now reply k amount user Hamount Huser)
    as (Hdb & Hcs & _ & Hroute & Hhw).
  destruct (handleConfirm_runs now StartBackendDown k amount user Hamount Huser)
    as (Hdb' & _).
  fold k' in Hdb, Hcs, Hroute, Hhw. fold session in Hdb, Hcs.
  repeat split.
  - now rewrite Hdb, Hdb'.
  - now rewrite Hdb.
  - now apply handleConfirm_sessions.
  - exact Hcs.
  - exact Hroute.
  - rewrite Hhw, startCharging_calls, Hfail. reflexivity.
  - rewrite Hhw. now apply startCharging_failed.
Qed.

(** C3: the code at a failing input.  User "1" holds 100 and has selected
    40; the backend is up, its status call fails and it refuses to start.
    The relay-enable call returns failure, where the claim has the start
    aborted with no session and no debit; the code has stored a session as
    'in_progress', has taken the balance from 100 to 60, and shows the
    charging screen with the relay flag off. *)
Lemma C3_session_and_debit_survive_a_failed_start :
  fst (Hardware.startCharging (CostSelection.targetBattery amount_selected) 1000
         relay_fault (hw amount_selected)) = false
  /\ in_progress_count (db amount_selected) = 0%nat
  /\ stored_balance "1" (db amount_selected) = Some 100
  /\ in_progress_count
       (db (CostSelection.handleConfirm 1000 relay_fault amount_selected)) = 1%nat
  /\ stored_balance "1"
       (db (CostSelection.handleConfirm 1000 relay_fault amount_selected)) = Some 60
  /\ route (CostSelection.handleConfirm 1000 relay_fault amount_selected) = Charging
  /\ Hardware.chargingActive
       (hw (CostSelection.handleConfirm 1000 relay_fault amount_selected)) = false.
Proof. repeat split; vm_compute; reflexivity. Qed.

(** ** The metering tick *)

Lemma spread_all x u : spread x (SessionUpdates.all u) = u.
Proof. now destruct u. Qed.

Lemma spread_id x u :
  SessionUpdates.id u = None \/ SessionUpdates.id u = Some (ChargingSession.id x) ->
  ChargingSession.id (spread x u) = ChargingSession.id x.
Proof. unfold spread. simpl. now intros [-> | ->]. Qed.

(** Updating by id rewrites the record a lookup by the same id finds. *)
Lemma update_first_find i u l x :
  find (has_session_id i) l = Some x ->
  SessionUpdates.id u = None \/ SessionUpdates.id u = Some i ->
  exists l', update_first i u l = Some l'
             /\ find (has_session_id i) l' = Some (spread x u).
Proof.
  intros Hf Hid. induction l as [|y l IH]; simpl in *; [discriminate|].
  unfold has_session_id in *. destruct (ChargingSession.id y =? i) eqn:Hy.
  - injection Hf as ->. eexists. split; [reflexivity|]. simpl.
    apply String.eqb_eq in Hy. subst i.
    destruct Hid as [-> | ->]; simpl; now rewrite String.eqb_refl.
  - destruct (IH Hf) as (l' & -> & Hl'). eexists. split; [reflexivity|].
    simpl. now rewrite Hy.
Qed.

Lemma updateSession_find i u s x :
  find (has_session_id i) (getSessions s) = Some x ->
  SessionUpdates.id u = None \/ SessionUpdates.id u = Some i ->
  find (has_session_id i) (getSessions (updateSession i u s)) = Some (spread x u).
Proof.
  intros Hf Hid. unfold updateSession.
  destruct (update_first_find i u _ x Hf Hid) as (l' & -> & Hl'). exact Hl'.
Qed.

Lemma tick_in_progress now rv rc r1 r2 k session :
  currentSession (ctx k) = Some session ->
  is_in_progress session = true ->
  AppCtx.tick now rv rc r1 r2 k
  = AppCtx.refreshBatteryStatus rv rc (AppCtx.meter session now r1 r2 k).
Proof. intros Hc Hp. unfold AppCtx.tick. now rewrite Hc, Hp. Qed.




(** ** Energy and battery between two ticks *)

Lemma stopCharging_relay_only reply h : relay_only h (snd (Hardware.stopCharging reply h)).
Proof.
  unfold relay_only, Hardware.stopCharging.
  destruct reply as [|[]]; simpl; repeat split; auto; discriminate.
Qed.

Lemma relay_only_refl h : relay_only h h.
Proof. unfold relay_only. auto. Qed.

Lemma relay_only_trans h1 h2 h3 : relay_only h1 h2 -> relay_only h2 h3 -> relay_only h1 h3.
Proof.
  unfold relay_only. intros (? & ? & ? & ? & ?) (? & ? & ? & ? & ?).
  repeat split; try congruence. auto.
Qed.

Lemma simulateCharging_idle now reply h :
  Hardware.chargingActive h = false -> Hardware.simulateCharging now reply h = h.
Proof. unfold Hardware.simulateCharging. now intros ->. Qed.

(** What one call of [simulateCharging] computes while the relay is on. *)
Lemma simulateCharging_active now reply h :
  Hardware.chargingActive h = true ->
  let energyWh :=
    2000 * (inject_Z (now - Hardware.startTime h) / inject_Z (1000 * 60 * 60)) in
  let h1 := Hardware.simulateCharging now reply h in
  Hardware.energyDelivered h1 = energyWh
  /\ Hardware.currentBattery h1
     = Qmin (Hardware.currentBattery h + (energyWh / 5000) * 100 * (1 # 2))
            (Hardware.targetBattery h)
  /\ Hardware.targetBattery h1 = Hardware.targetBattery h
  /\ Hardware.startTime h1 = Hardware.startTime h.
Proof.
  intros Ha. unfold Hardware.simulateCharging. rewrite Ha. cbn [negb]. cbv zeta.
  match goal with |- context [if ?c then _ else _] => destruct c end;
    [destruct reply as [|[]]|]; simpl; auto.
Qed.

Lemma simulateCharging_stays_off now reply h :
  Hardware.chargingActive (Hardware.simulateCharging now reply h) = true ->
  Hardware.chargingActive h = true.
Proof.
  destruct (Hardware.chargingActive h) eqn:Ha; [reflexivity|].
  intros H. rewrite (simulateCharging_idle now reply h Ha) in H. congruence.
Qed.

Lemma energy_grows (start t1 t2 : Z) :
  (t1 <= t2)%Z ->
  2000 * (inject_Z (t1 - start) / inject_Z (1000 * 60 * 60))
  <= 2000 * (inject_Z (t2 - start) / inject_Z (1000 * 60 * 60)).
Proof.
  intros H. assert (inject_Z (t1 - start) <= inject_Z (t2 - start)) as Hq.
  { rewrite <- Zle_Qle. lia. }
  change (inject_Z (1000 * 60 * 60)) with 3600000.
  unfold Qdiv. change (/ 3600000) with (1 # 3600000). lra.
Qed.

Lemma energy_nonnegative (start t : Z) :
  (start <= t)%Z ->
  0 <= 2000 * (inject_Z (t - start) / inject_Z (1000 * 60 * 60)).
Proof.
  intros H. assert (0 <= inject_Z (t - start)) as Hq.
  { change 0 with (inject_Z 0). rewrite <- Zle_Qle. lia. }
  change (inject_Z (1000 * 60 * 60)) with 3600000.
  unfold Qdiv. change (/ 3600000) with (1 # 3600000). lra.
Qed.

(** Two consecutive calls of [simulateCharging], with nothing but relay
    calls in between: neither reading goes down. *)
Lemma two_ticks h t1 t2 r1 r2 h1 :
  (Hardware.startTime h <= t1 <= t2)%Z ->
  relay_only (Hardware.simulateCharging t1 r1 h) h1 ->
  Hardware.energyDelivered h1
    <= Hardware.energyDelivered (Hardware.simulateCharging t2 r2 h1)
  /\ Hardware.currentBattery h1
     <= Hardware.currentBattery (Hardware.simulateCharging t2 r2 h1).
Proof.
  intros [Hs Ht] (Hb & Htg & Hst & He & Hon).
  destruct (Hardware.chargingActive h1) eqn:Ha1.
  2:{ rewrite (simulateCharging_idle t2 r2 h1 Ha1). split; apply Qle_refl. }
  pose proof (simulateCharging_stays_off t1 r1 h (Hon eq_refl)) as Ha.
  destruct (simulateCharging_active t1 r1 h Ha) as (E1 & B1 & T1 & S1).
  destruct (simulateCharging_active t2 r2 h1 Ha1) as (E2 & B2 & _).
  rewrite E2, B2, He, E1, Hb, B1, Htg, T1, Hst, S1.
  split.
  - now apply energy_grows.
  - pose proof (energy_nonnegative (Hardware.startTime h) t2 ltac:(lia)) as Hpos.
    apply Q.min_glb.
    + pose proof (Q.le_min_l
        (Hardware.currentBattery h
         + 2000 * (inject_Z (t1 - Hardware.startTime h) / inject_Z (1000 * 60 * 60))
           / 5000 * 100 * (1 # 2)) (Hardware.targetBattery h)).
      set (e2 := 2000 * (inject_Z (t2 - Hardware.startTime h)
                         / inject_Z (1000 * 60 * 60))) in *.
      set (b1 := Qmin _ _) in *.
      unfold Qdiv. change (/ 5000) with (1 # 5000). lra.
    + apply Q.le_min_r.
Qed.

(** What a tick does to the hardware: nothing when the context holds no
    in-progress session, and otherwise one [simulateCharging] followed by
    relay calls only. *)
Lemma tick_hw now rv rc r1 r2 k :
  (metering k = false
   /\ hw (AppCtx.tick now rv rc r1 r2 k) = hw k
   /\ db (AppCtx.tick now rv rc r1 r2 k) = db k
   /\ currentSession (ctx (AppCtx.tick now rv rc r1 r2 k)) = currentSession (ctx k))
  \/ (metering k = true
      /\ relay_only (Hardware.simulateCharging now r1 (hw k))
                    (hw (AppCtx.tick now rv rc r1 r2 k))).
Proof.
  unfold metering, AppCtx.tick, AppCtx.refreshBatteryStatus.
  destruct (currentSession (ctx k)) as [session|] eqn:Hc; [|left; kiosk_simpl; auto].
  destruct (is_in_progress session); [|left; kiosk_simpl; auto].
  right. split; [reflexivity|]. kiosk_simpl. unfold AppCtx.meter.
  match goal with |- context [if ?c then _ else _] => destruct c end.
  - unfold AppCtx.stopCharging. kiosk_simpl. rewrite Hc. kiosk_simpl.
    apply stopCharging_relay_only.
  - kiosk_simpl. apply relay_only_refl.
Qed.

Lemma tick_samples now rv rc r1 r2 k :
  AppCtx.sampled_percentage (AppCtx.tick now rv rc r1 r2 k)
  = Some (Hardware.currentBattery (hw (AppCtx.tick now rv rc r1 r2 k))).
Proof. reflexivity. Qed.

(** A metering tick leaves in the stored record of the current session the
    energy the hardware reports, and keeps the id of the current session. *)
Lemma tick_stored_energy now rv rc r1 r2 k session x :
  currentSession (ctx k) = Some session ->
  is_in_progress session = true ->
  find (has_session_id (ChargingSession.id session)) (getSessions (db k)) = Some x ->
  let k' := AppCtx.tick now rv rc r1 r2 k in
  (exists x', find (has_session_id (ChargingSession.id session)) (getSessions (db k'))
              = Some x'
              /\ ChargingSession.energyDelivered x' = Hardware.energyDelivered (hw k'))
  /\ (exists session', currentSession (ctx k') = Some session'
                       /\ ChargingSession.id session' = ChargingSession.id session).
Proof.
  intros Hc Hp Hx k'. subst k'. rewrite (tick_in_progress now rv rc r1 r2 k session Hc Hp).
  unfold AppCtx.refreshBatteryStatus, AppCtx.meter. kiosk_simpl.
  set (h1 := Hardware.simulateCharging now r1 (hw k)).
  set (m := AppCtx.metering_updates (Hardware.getEnergyDelivered h1) (with_hw h1 k)).
  assert (Hm : find (has_session_id (ChargingSession.id session))
                 (getSessions (updateSession (ChargingSession.id session) m (db k)))
               = Some (spread x m)).
  { apply updateSession_find; [exact Hx | now left]. }
  match goal with |- context [if ?c then _ else _] => destruct c end.
  - unfold AppCtx.stopCharging. kiosk_simpl. rewrite Hc. kiosk_simpl. split.
    + eexists. split.
      * rewrite (updateSession_find _ _ _ _ Hm) by (now right).
        rewrite spread_all. reflexivity.
      * destruct r2 as [|[]]; reflexivity.
    + eexists. split; reflexivity.
  - kiosk_simpl. split.
    + exists (spread x m). split; [exact Hm | reflexivity].
    + exists session. auto.
Qed.

(** C5 (as the code has it): for every pair of consecutive metering ticks
    at advancing times between which the hardware clock is not restarted
    (whatever happened in between operated at most the relay, and left the
    session of the context and the stored sessions alone), the energy
    delivered and the battery level the hardware reports do not decrease,
    and neither do the battery sample the context takes after each tick and
    the energy written to the stored record of the session being metered. *)
Theorem C5_energy_and_battery_never_decrease (k k' : Kiosk) (t1 t2 : Z)
    (rv1 rc1 rv2 rc2 : Q) (a1 b1 a2 b2 : StopReply)
    (Hadvance : (Hardware.startTime (hw k) <= t1 <= t2)%Z)
    (Hclock : relay_only (hw (AppCtx.tick t1 rv1 rc1 a1 b1 k)) (hw k'))
    (Hsession : currentSession (ctx k')
                = currentSession (ctx (AppCtx.tick t1 rv1 rc1 a1 b1 k)))
    (Hstored : getSessions (db k') = getSessions (db (AppCtx.tick t1 rv1 rc1 a1 b1 k))) :
  let k1 := AppCtx.tick t1 rv1 rc1 a1 b1 k in
  let k2 := AppCtx.tick t2 rv2 rc2 a2 b2 k' in
  Hardware.getEnergyDelivered (hw k1) <= Hardware.getEnergyDelivered (hw k2)
  /\ Hardware.currentBattery (hw k1) <= Hardware.currentBattery (hw k2)
  /\ (exists p1 p2, AppCtx.sampled_percentage k1 = Some p1
                    /\ AppCtx.sampled_percentage k2 = Some p2 /\ p1 <= p2)
  /\ (forall session x,
        currentSession (ctx k) = Some session ->
        is_in_progress session = true ->
        find (has_session_id (ChargingSession.id session)) (getSessions (db k)) = Some x ->
        exists x1 x2,
          find (has_session_id (ChargingSession.id session)) (getSessions (db k1)) = Some x1
          /\ find (has_session_id (ChargingSession.id session)) (getSessions (db k2))
             = Some x2
          /\ ChargingSession.energyDelivered x1 <= ChargingSession.energyDelivered x2).
Proof.
  intros k1 k2. fold k1 in Hclock, Hsession, Hstored.
  destruct Hclock as (Cb & Ctg & Cst & Ce & Con).
  assert (Hsame : forall h2, hw k2 = h2 -> h2 = hw k' ->
            Hardware.energyDelivered (hw k1) <= Hardware.energyDelivered (hw k2)
            /\ Hardware.currentBattery (hw k1) <= Hardware.currentBattery (hw k2)).
  { intros h2 -> ->. rewrite Cb, Ce. split; apply Qle_refl. }
  assert (Hhw : Hardware.energyDelivered (hw k1) <= Hardware.energyDelivered (hw k2)
                /\ Hardware.currentBattery (hw k1) <= Hardware.currentBattery (hw k2)).
  { destruct (tick_hw t1 rv1 rc1 a1 b1 k) as [(Hm & Hh & _ & Hc) | (Hm & Hr)];
      fold k1 in Hh, Hc || fold k1 in Hr.
    - destruct (tick_hw t2 rv2 rc2 a2 b2 k') as [(_ & Hh2 & _) | (Hm2 & _)];
        fold k2 in Hh2 || idtac.
      + now apply (Hsame (hw k')).
      + unfold metering in Hm, Hm2. rewrite Hsession, Hc in Hm2. congruence.
    - destruct (tick_hw t2 rv2 rc2 a2 b2 k') as [(_ & Hh2 & _) | (_ & Hr2)];
        fold k2 in Hh2 || fold k2 in Hr2.
      + now apply (Hsame (hw k')).
      + destruct Hr2 as (Hb2 & _ & _ & He2 & _). rewrite Hb2, He2, <- Cb, <- Ce.
        apply (two_ticks (hw k) t1 t2 a1 a2 (hw k')); [exact Hadvance|].
        apply (relay_only_trans _ (hw k1)); [exact Hr|].
        unfold relay_only. auto. }
  destruct Hhw as (He & Hb).
  split; [exact He|]. split; [exact Hb|]. split.
  { exists (Hardware.currentBattery (hw k1)), (Hardware.currentBattery (hw k2)).
    split; [apply tick_samples|]. split; [apply tick_samples | exact Hb]. }
  intros session x Hc Hp Hx.
  destruct (tick_stored_energy t1 rv1 rc1 a1 b1 k session x Hc Hp Hx)
    as ((x1 & Hx1 & E1) & (s1 & Hs1 & Hid1)).
  fold k1 in Hx1, E1, Hs1.
  assert (Hs1' : currentSession (ctx k') = Some s1) by now rewrite Hsession.
  assert (Hx1' : find (has_session_id (ChargingSession.id session)) (getSessions (db k'))
                 = Some x1) by now rewrite Hstored.
  destruct (is_in_progress s1) eqn:Hp1.
  - rewrite <- Hid1 in Hx1'.
    destruct (tick_stored_energy t2 rv2 rc2 a2 b2 k' s1 x1 Hs1' Hp1 Hx1')
      as ((x2 & Hx2 & E2) & _).
    fold k2 in Hx2, E2. rewrite Hid1 in Hx2.
    exists x1, x2. split; [exact Hx1|]. split; [exact Hx2|]. now rewrite E1, E2.
  - destruct (tick_hw t2 rv2 rc2 a2 b2 k') as [(_ & _ & Hd2 & _) | (Hm2 & _)].
    + fold k2 in Hd2. exists x1, x1. rewrite Hd2.
      split; [exact Hx1|]. split; [exact Hx1' | apply Qle_refl].
    + unfold metering in Hm2. rewrite Hs1' in Hm2. congruence.
Qed.

(** C5 on the run that has paid everything: a tick after one second, a look
    at the admin panel, and a tick after two seconds. *)
Lemma C5_energy_and_battery_never_decrease_witness :
  (Hardware.startTime (hw paid_everything) <= 2000 <= 3000)%Z
  /\ Hardware.getEnergyDelivered
       (hw (AppCtx.tick 2000 0 0 StopBackendDown StopBackendDown paid_everything))
     <= Hardware.getEnergyDelivered
          (hw (AppCtx.tick 3000 0 0 StopBackendDown StopBackendDown
                 (step (OpNavigate Admin)
                    (AppCtx.tick 2000 0 0 StopBackendDown StopBackendDown
                       paid_everything)))).
Proof.
  assert (H : (Hardware.startTime (hw paid_everything) <= 2000 <= 3000)%Z)
    by (vm_compute; split; discriminate).
  assert (Hc : relay_only
                 (hw (AppCtx.tick 2000 0 0 StopBackendDown StopBackendDown paid_everything))
                 (hw (step (OpNavigate Admin)
                        (AppCtx.tick 2000 0 0 StopBackendDown StopBackendDown
                           paid_everything))))
    by (vm_compute; repeat split; intros E; exact E).
  assert (Hs : currentSession
                 (ctx (step (OpNavigate Admin)
                         (AppCtx.tick 2000 0 0 StopBackendDown StopBackendDown
                            paid_everything)))
               = currentSession
                   (ctx (AppCtx.tick 2000 0 0 StopBackendDown StopBackendDown
                           paid_everything)))
    by (vm_compute; reflexivity).
  assert (Hd : getSessions
                 (db (step (OpNavigate Admin)
                        (AppCtx.tick 2000 0 0 StopBackendDown StopBackendDown
                           paid_everything)))
               = getSessions
                   (db (AppCtx.tick 2000 0 0 StopBackendDown StopBackendDown
                          paid_everything)))
    by (vm_compute; reflexivity).
  split; [exact H|].
  exact (proj1 (C5_energy_and_battery_never_decrease paid_everything _ 2000 3000
                  0 0 0 0 StopBackendDown StopBackendDown StopBackendDown StopBackendDown
                  H Hc Hs Hd)).
Defined.

(** C5 as stated fails: the session is in progress at both ticks, one second
    apart, and yet the energy of the hardware and the energy stored with the
    session fall from 1000 Wh to 5/18 Wh, because a message of the backend
    stream restarted the clock the energy is computed from. *)
Lemma C5_energy_falls_when_the_clock_restarts :
  exists x1 x2,
    find (has_session_id "1000") (getSessions (db metered_once)) = Some x1
    /\ find (has_session_id "1000") (getSessions (db clock_restarted)) = Some x2
    /\ ChargingSession.status x1 = in_progress
    /\ ChargingSession.status x2 = in_progress
    /\ ChargingSession.energyDelivered x1 == 1000
    /\ ChargingSession.energyDelivered x2 == 5 # 18
    /\ ChargingSession.energyDelivered x2 < ChargingSession.energyDelivered x1
    /\ Hardware.getEnergyDelivered (hw clock_restarted)
       < Hardware.getEnergyDelivered (hw metered_once).
Proof.
  eexists. eexists.
  split; [vm_compute; reflexivity|]. split; [vm_compute; reflexivity|].
  repeat split; vm_compute; reflexivity.
Qed.

(** ** Who can switch the relay on *)

Lemma same_gate_refl k : same_gate k k.
Proof. unfold same_gate. auto. Qed.

Lemma same_gate_cannot_confirm k k' :
  same_gate k k' -> cannot_confirm k = true ->
  start_calls k' = start_calls k /\ cannot_confirm k' = true.
Proof.
  intros (Hc & Hr & Hs) H. split; [exact Hc|].
  unfold cannot_confirm, no_selection in *. now rewrite Hr, Hs.
Qed.

Lemma mount_auth_frame k :
  hw (Router.mount_auth k) = hw k /\ route (Router.mount_auth k) = Home
  /\ ctx (Router.mount_auth k) = ctx k.
Proof. unfold Router.mount_auth. now destruct (getUsers (db k)). Qed.

Lemma mount_admin_frame k :
  hw (Router.mount_admin k) = hw k /\ route (Router.mount_admin k) = Admin
  /\ ctx (Router.mount_admin k) = ctx k.
Proof. unfold Router.mount_admin. now destruct (getUsers (db k)). Qed.

(** Navigation makes no relay call, keeps the context, and arrives on the
    cost screen with nothing selected. *)
Lemma navigate_safe r k :
  hw (Router.navigate r k) = hw k
  /\ ctx (Router.navigate r k) = ctx k
  /\ cannot_confirm (Router.navigate r k) = true.
Proof.
  assert (Hauth : hw (Router.mount_auth k) = hw k
                  /\ ctx (Router.mount_auth k) = ctx k
                  /\ cannot_confirm (Router.mount_auth k) = true).
  { destruct (mount_auth_frame k) as (? & Hr & ?). unfold cannot_confirm.
    rewrite Hr. auto. }
  destruct r; simpl.
  - exact Hauth.
  - destruct (currentUser (ctx k)); [|exact Hauth]. repeat split.
  - destruct (currentSession (ctx k)) as [x|]; [|exact Hauth].
    destruct (is_in_progress x); repeat split.
  - repeat split.
  - destruct (mount_admin_frame k) as (? & Hr & ?). unfold cannot_confirm.
    rewrite Hr. auto.
Qed.

Lemma rerender_safe k :
  cannot_confirm k = true ->
  hw (Router.rerender k) = hw k
  /\ ctx (Router.rerender k) = ctx k
  /\ cannot_confirm (Router.rerender k) = true.
Proof.
  intros H. unfold Router.rerender. destruct (route k) eqn:Hr; auto.
  - destruct (currentUser (ctx k)); auto.
    destruct (mount_auth_frame k) as (? & Hr' & ?). unfold cannot_confirm.
    rewrite Hr'. auto.
  - apply navigate_safe.
Qed.

Lemma filter_start_stop l result :
  filter is_start (l ++ [CallStop result]) = filter is_start l.
Proof. rewrite filter_app. simpl. apply app_nil_r. Qed.

Lemma stopCharging_start_calls reply h :
  filter is_start (Hardware.calls (snd (Hardware.stopCharging reply h)))
  = filter is_start (Hardware.calls h).
Proof.
  unfold Hardware.stopCharging. destruct reply as [|[]]; simpl; apply filter_start_stop.
Qed.

Lemma simulateCharging_start_calls now reply h :
  filter is_start (Hardware.calls (Hardware.simulateCharging now reply h))
  = filter is_start (Hardware.calls h).
Proof.
  unfold Hardware.simulateCharging. destruct (negb _); [reflexivity|]. cbv zeta.
  match goal with |- context [if ?c then _ else _] => destruct c end; [|reflexivity].
  now rewrite stopCharging_start_calls.
Qed.

Lemma stopCharging_same_gate status now reply k :
  same_gate k (AppCtx.stopCharging status now reply k).
Proof.
  unfold AppCtx.stopCharging. destruct (currentSession (ctx k)); [|apply same_gate_refl].
  unfold same_gate, start_calls. kiosk_simpl.
  now rewrite stopCharging_start_calls.
Qed.

Lemma tick_same_gate now rv rc r1 r2 k : same_gate k (AppCtx.tick now rv rc r1 r2 k).
Proof.
  unfold AppCtx.tick, AppCtx.refreshBatteryStatus.
  destruct (currentSession (ctx k)) as [x|];
    [|unfold same_gate, start_calls; kiosk_simpl; now auto].
  destruct (is_in_progress x);
    [|unfold same_gate, start_calls; kiosk_simpl; now auto].
  unfold AppCtx.meter.
  match goal with |- context [if ?c then _ else _] => destruct c end.
  - match goal with |- context [AppCtx.stopCharging ?a ?b ?c ?d] =>
      destruct (stopCharging_same_gate a b c d) as (Hc & Hr & Hs) end.
    unfold same_gate, start_calls in *. kiosk_simpl.
    rewrite Hc, Hr, Hs, simulateCharging_start_calls. auto.
  - unfold same_gate, start_calls. kiosk_simpl.
    now rewrite simulateCharging_start_calls.
Qed.

Lemma scanRfid_calls reply now h :
  Hardware.calls (snd (Hardware.scanRfid reply now h)) = Hardware.calls h.
Proof. unfold Hardware.scanRfid. destruct reply as [| |[[]|] r]; reflexivity. Qed.

Lemma handleScan_same_gate reply now k : same_gate k (Auth.handleScan reply now k).
Proof.
  unfold Auth.handleScan, AppCtx.scanRfid. kiosk_simpl.
  pose proof (scanRfid_calls reply now (hw k)) as Hcalls.
  destruct (Hardware.scanRfid reply now (hw k)) as [[r|] h]; simpl in Hcalls.
  - unfold getUserByRfid. kiosk_simpl. destruct (getUsers (db k)) as [a s1].
    destruct (find _ _); unfold same_gate, start_calls; kiosk_simpl;
      now rewrite Hcalls.
  - unfold same_gate, start_calls; kiosk_simpl. now rewrite Hcalls.
Qed.

Lemma handleRfidEvent_same_gate event now k :
  same_gate k (Auth.handleRfidEvent event now (with_hw (onmessage event now (hw k)) k)).
Proof.
  assert (Hcalls : Hardware.calls (onmessage event now (hw k)) = Hardware.calls (hw k)).
  { unfold onmessage. destruct (ev_type event); reflexivity. }
  unfold Auth.handleRfidEvent. kiosk_simpl.
  destruct (currentUser (ctx k)).
  { unfold same_gate, start_calls; kiosk_simpl. now rewrite Hcalls. }
  destruct (ev_type event) eqn:Ht;
    try (unfold same_gate, start_calls; kiosk_simpl; now rewrite Hcalls).
  destruct (ev_success event) as [[]|], (ev_user event);
    unfold same_gate, start_calls; kiosk_simpl; now rewrite Hcalls.
Qed.

Lemma handleBalanceAdjustment_same_gate userId amount add now k :
  same_gate k (AdminScr.handleBalanceAdjustment userId amount add now k).
Proof.
  unfold AdminScr.handleBalanceAdjustment.
  destruct (find _ _); [|apply same_gate_refl].
  destruct (Qgt_bool _ _); [apply same_gate_refl|].
  unfold AdminScr.loadData. kiosk_simpl.
  match goal with |- context [getUsers ?s] => destruct (getUsers s) end.
  unfold same_gate, start_calls. kiosk_simpl. auto.
Qed.

Lemma preset_positive amount i :
  nth_error CostSelection.presetAmounts i = Some amount -> 0 < amount.
Proof.
  do 5 (destruct i as [|i]; [simpl; intros H; injection H as <-; reflexivity|]).
  destruct i; discriminate.
Qed.

Lemma unfunded_balance k : unfunded k = true -> CostSelection.user_balance k <= 0.
Proof.
  unfold unfunded, CostSelection.user_balance.
  destruct (currentUser (ctx k)) as [u|]; simpl; [|intros _; apply Qle_refl].
  intros H. apply Qle_bool_iff in H.
  destruct (Qeq_bool (User.balance u) 0); [apply Qle_refl | exact H].
Qed.

(** An unfunded user cannot select a positive amount. *)
Lemma unfunded_rejects k amount :
  unfunded k = true -> 0 < amount ->
  Qgt_bool amount (CostSelection.user_balance k) = true.
Proof.
  intros Hu Hpos. unfold Qgt_bool. apply negb_true_iff.
  destruct (Qle_bool amount (CostSelection.user_balance k)) eqn:Hle; [|reflexivity].
  apply Qle_bool_iff in Hle. pose proof (unfunded_balance k Hu). lra.
Qed.

Lemma on_route r k f : on r k f = k \/ (route k = r /\ on r k f = f k).
Proof. unfold on. destruct r, (route k); auto. Qed.

Lemma start_calls_hw k k' : hw k' = hw k -> start_calls k' = start_calls k.
Proof. unfold start_calls. now intros ->. Qed.

(** With no funded user in the context and [handleConfirm] unable to run,
    no handler makes a relay-enable call, and [handleConfirm] stays unable
    to run. *)
Lemma handle_safe op k :
  unfunded k = true -> cannot_confirm k = true ->
  start_calls (handle op k) = start_calls k /\ cannot_confirm (handle op k) = true.
Proof.
  intros Hu Hc.
  assert (Hsame : forall f r, same_gate k (f k) ->
            start_calls (on r k f) = start_calls k /\ cannot_confirm (on r k f) = true).
  { intros f r Hf. destruct (on_route r k f) as [-> | [_ ->]]; [auto|].
    now apply same_gate_cannot_confirm. }
  destruct op; cbn [handle].
  - destruct (navigate_safe r k) as (Hh & _ & Hg). split; [now apply start_calls_hw | exact Hg].
  - apply same_gate_cannot_confirm; [|exact Hc]. unfold same_gate. auto.
  - apply same_gate_cannot_confirm; [apply tick_same_gate | exact Hc].
  - apply Hsame, handleScan_same_gate.
  - apply Hsame, handleRfidEvent_same_gate.
  - apply Hsame. unfold Auth.handleSelectRfid.
    destruct (nth_error _ _); unfold same_gate; auto.
  - destruct (on_route Home k Auth.handleProceed) as [-> | [_ ->]]; [auto|].
    unfold Auth.handleProceed. destruct (currentUser (ctx k)).
    + destruct (cardScanned (auth k)).
      * destruct (navigate_safe SelectCost k) as (Hh & _ & Hg).
        split; [now apply start_calls_hw | exact Hg].
      * apply same_gate_cannot_confirm; [unfold same_gate; auto | exact Hc].
    + apply same_gate_cannot_confirm; [unfold same_gate; auto | exact Hc].
  - apply Hsame. unfold same_gate. auto.
  - apply Hsame. destruct (nth_error CostSelection.presetAmounts i) as [a|] eqn:Hi;
      [|apply same_gate_refl].
    unfold CostSelection.handleAmountSelect.
    rewrite (unfunded_rejects k a Hu (preset_positive a i Hi)). apply same_gate_refl.
  - destruct (on_route SelectCost k (CostSelection.handleCustomAmount value num))
      as [-> | [Hr ->]]; [auto|].
    assert (Hnone : forall v,
              start_calls (setCustomAmount v (setSelectedAmount None k)) = start_calls k
              /\ cannot_confirm (setCustomAmount v (setSelectedAmount None k)) = true).
    { intros v. split; [reflexivity|]. unfold cannot_confirm. kiosk_simpl.
      now destruct (route k). }
    unfold CostSelection.handleCustomAmount. destruct num as [n|]; [|apply Hnone].
    destruct (Qgt_bool n 0) eqn:Hn; [|apply Hnone].
    assert (0 < n) as Hpos.
    { unfold Qgt_bool in Hn. apply negb_true_iff in Hn. apply Qnot_le_lt.
      intros Hle. apply Qle_bool_iff in Hle. congruence. }
    rewrite (unfunded_rejects k n Hu Hpos). auto.
  - destruct (on_route SelectCost k
                (fun k => if processing (cost k) then k
                          else CostSelection.handleConfirm now reply k))
      as [-> | [Hr ->]]; [auto|].
    destruct (processing (cost k)); [auto|].
    rewrite handleConfirm_idle; [auto|]. left.
    unfold cannot_confirm, no_selection in Hc. rewrite Hr in Hc.
    now destruct (CostSelection.truthy_amount _).
  - destruct (on_route Charging k (ChargingScr.handleStop now reply)) as [-> | [_ ->]];
      [auto|].
    unfold ChargingScr.handleStop. destruct (currentSession (ctx k)); [|auto].
    match goal with |- context [Router.navigate ?r ?x] =>
      destruct (navigate_safe r x) as (Hh & _ & Hg) end.
    split; [|exact Hg]. unfold start_calls. rewrite Hh. kiosk_simpl.
    apply stopCharging_start_calls.
  - apply Hsame, handleBalanceAdjustment_same_gate.
  - apply Hsame. unfold same_gate. auto.
Qed.

Lemma step_safe op k :
  unfunded k = true -> cannot_confirm k = true ->
  start_calls (step op k) = start_calls k /\ cannot_confirm (step op k) = true.
Proof.
  intros Hu Hc. destruct (handle_safe op k Hu Hc) as (Hs & Hg).
  destruct (rerender_safe (handle op k) Hg) as (Hh & _ & Hg').
  unfold step. split; [|exact Hg']. rewrite <- Hs. now apply start_calls_hw.
Qed.

Lemma run_safe ops k :
  unfunded k = true -> cannot_confirm k = true -> only_rejections ops k = true ->
  start_calls (run ops k) = start_calls k.
Proof.
  revert k. induction ops as [|op ops IH]; intros k Hu Hc Hr; [reflexivity|].
  simpl in *. apply andb_true_iff in Hr as [Hu' Hr'].
  destruct (step_safe op k Hu Hc) as (Hs & Hg).
  rewrite <- Hs. now apply IH.
Qed.

(** A manual scan that resolves to no user changes neither the user in the
    context, nor the cost screen, nor the relay calls. *)
Lemma rejected_scan_is_inert reply now k :
  fst (AppCtx.scanRfid reply now k) = None ->
  same_gate k (Auth.handleScan reply now k)
  /\ currentUser (ctx (Auth.handleScan reply now k)) = currentUser (ctx k).
Proof.
  intros Hnone. split; [apply handleScan_same_gate|].
  unfold Auth.handleScan, AppCtx.scanRfid in *. kiosk_simpl.
  destruct (Hardware.scanRfid reply now (hw k)) as [[r|] h]; [|reflexivity].
  unfold getUserByRfid in *. kiosk_simpl.
  destruct (getUsers (db k)) as [a s1]. destruct (find _ _); [discriminate|reflexivity].
Qed.

(** The events with which the backend announces a rejected card. *)
Lemma rejected_event_is_inert event now k :
  ev_type event = insufficient_balance
  \/ (ev_type event = rfid_detected
      /\ (ev_success event <> Some true \/ ev_user event = None)) ->
  same_gate k (Auth.handleRfidEvent event now (with_hw (onmessage event now (hw k)) k))
  /\ currentUser (ctx (Auth.handleRfidEvent event now
                         (with_hw (onmessage event now (hw k)) k)))
     = currentUser (ctx k).
Proof.
  intros Hrej. split; [apply handleRfidEvent_same_gate|].
  unfold Auth.handleRfidEvent. kiosk_simpl.
  destruct (currentUser (ctx k)) eqn:Hc; [kiosk_simpl; exact Hc|].
  destruct Hrej as [-> | [-> [Hs | Hu]]]; kiosk_simpl; try exact Hc.
  - destruct (ev_success event) as [[]|], (ev_user event); kiosk_simpl;
      try exact Hc; congruence.
  - rewrite Hu. destruct (ev_success event) as [[]|]; kiosk_simpl; exact Hc.
Qed.

(** C6: a rejected identity presentation never leads to a relay-enable call.
    From a state with no funded user and no selected amount, along every run
    in which each card presented was unknown or had a balance <= 0,
    [hardware.startCharging] is never called; and the handlers of a rejected
    presentation (a manual scan that resolves to no user, a backend event
    announcing an unknown or unfunded card) call nothing and leave the
    logged-in user, the route and the cost screen as they were. *)
Theorem C6_rejected_cards_never_start_the_relay (ops : list Op) (k : Kiosk)
    (Hunfunded : unfunded k = true)
    (Hselection : no_selection k = true)
    (Hrejected : only_rejections ops k = true) :
  start_calls (run ops k) = start_calls k
  /\ (forall reply now k0,
        fst (AppCtx.scanRfid reply now k0) = None ->
        same_gate k0 (Auth.handleScan reply now k0)
        /\ currentUser (ctx (Auth.handleScan reply now k0)) = currentUser (ctx k0))
  /\ (forall event now k0,
        ev_type event = insufficient_balance
        \/ (ev_type event = rfid_detected
            /\ (ev_success event <> Some true \/ ev_user event = None)) ->
        same_gate k0
          (Auth.handleRfidEvent event now (with_hw (onmessage event now (hw k0)) k0))
        /\ currentUser
             (ctx (Auth.handleRfidEvent event now
                     (with_hw (onmessage event now (hw k0)) k0)))
           = currentUser (ctx k0)).
Proof.
  split; [|split].
  - apply run_safe; try assumption.
    unfold cannot_confirm. rewrite Hselection. now destruct (route k).
  - intros. now apply rejected_scan_is_inert.
  - intros. now apply rejected_event_is_inert.
Qed.

(** C6 on two runs: an unknown card and an unfunded-card event on a clean
    kiosk, and the card of an emptied account whose owner then tries to pay. *)
Lemma C6_rejected_cards_never_start_the_relay_witness :
  (unfunded (boot (fresh_store "t")) = true
   /\ no_selection (boot (fresh_store "t")) = true
   /\ only_rejections rejected_cards (boot (fresh_store "t")) = true
   /\ start_calls (run rejected_cards (boot (fresh_store "t"))) = [])
  /\ (only_rejections unfunded_card (boot broke_store) = true
      /\ option_map User.name (currentUser (ctx (run unfunded_card (boot broke_store))))
         = Some "Lalit Nikumbh"
      /\ start_calls (run unfunded_card (boot broke_store)) = []).
Proof.
  assert (H1 : only_rejections rejected_cards (boot (fresh_store "t")) = true)
    by (vm_compute; reflexivity).
  assert (H2 : only_rejections unfunded_card (boot broke_store) = true)
    by (vm_compute; reflexivity).
  split.
  - split; [reflexivity|]. split; [reflexivity|]. split; [exact H1|].
    exact (proj1 (C6_rejected_cards_never_start_the_relay rejected_cards
                    (boot (fresh_store "t")) eq_refl eq_refl H1)).
  - split; [exact H2|]. split; [vm_compute; reflexivity|].
    exact (proj1 (C6_rejected_cards_never_start_the_relay unfunded_card
                    (boot broke_store) eq_refl eq_refl H2)).
Defined.

(** ** The target battery level *)

Lemma calculateTargetBattery_formula k amount :
  ~ fullChargeCost (settings (ctx k)) == 0 ->
  CostSelection.calculateTargetBattery k amount
  = Qmin (CostSelection.currentBattery k
          + (amount / fullChargeCost (settings (ctx k))) * 100) 100.
Proof.
  intros Hne. unfold CostSelection.calculateTargetBattery.
  destruct (Qeq_bool (fullChargeCost (settings (ctx k))) 0) eqn:E; [|reflexivity].
  apply Qeq_bool_iff in E. contradiction.
Qed.

Lemma calculateTargetBattery_free k amount :
  fullChargeCost (settings (ctx k)) == 0 -> 0 < amount ->
  CostSelection.calculateTargetBattery k amount = 100.
Proof.
  intros Hz Hpos. unfold CostSelection.calculateTargetBattery.
  apply Qeq_bool_iff in Hz. rewrite Hz.
  assert (E : Qgt_bool amount 0 = true).
  { unfold Qgt_bool. apply negb_true_iff.
    destruct (Qle_bool amount 0) eqn:E0; [|reflexivity].
    apply Qle_bool_iff in E0. lra. }
  now rewrite E.
Qed.

Lemma calculateTargetBattery_le k amount :
  CostSelection.calculateTargetBattery k amount <= 100.
Proof.
  unfold CostSelection.calculateTargetBattery.
  destruct (Qeq_bool _ 0 && Qgt_bool amount 0); [apply Qle_refl | apply Q.le_min_r].
Qed.

(** C7: the target battery level of a new session is
    min(startBattery + (paidAmount / fullChargeCost) * 100, 100): in exact
    arithmetic whenever the full-charge cost is not 0, and 100 (the minimum
    of Infinity and 100) when a positive amount is paid at a full-charge
    cost of 0.  With a sampled battery of 35, a paid amount of 40 and a
    full-charge cost of 100 it is 75, in exact arithmetic, in the session
    [handleConfirm] stores, and in binary64 arithmetic; on binary64 floats
    the formula also gives 100 when the sum passes 100 (battery 80) and
    when the cost is 0. *)
Theorem C7_target_battery (k : Kiosk) (now : Z) (user : User.t) (amount : Q) :
  let session := CostSelection.new_session now k user amount in
  let cost := fullChargeCost (settings (ctx k)) in
  (~ cost == 0 ->
   ChargingSession.targetBattery session
   = Qmin (ChargingSession.startBattery session
           + (ChargingSession.paidAmount session / cost) * 100)
          100)
  /\ (cost == 0 -> 0 < amount -> ChargingSession.targetBattery session = 100)
  /\ ChargingSession.targetBattery session <= 100
  /\ (AppCtx.sampled_percentage k = Some 35 ->
      cost = 100 ->
      CostSelection.calculateTargetBattery k 40 == 75)
  /\ map ChargingSession.targetBattery
       (getSessions (db (CostSelection.handleConfirm 1000 StartBackendDown amount_selected)))
     = [75.00]
  /\ Binary64.calculateTargetBattery Binary64.n35 Binary64.n100 Binary64.n40
     = Binary64.n75
  /\ Binary64.calculateTargetBattery Binary64.n80 Binary64.n100 Binary64.n40
     = Binary64.n100
  /\ Binary64.calculateTargetBattery Binary64.n35 Binary64.n0 Binary64.n40
     = Binary64.n100.
Proof.
  cbv zeta.
  cbn [CostSelection.new_session ChargingSession.targetBattery
       ChargingSession.startBattery ChargingSession.paidAmount].
  split; [apply calculateTargetBattery_formula|].
  split; [apply calculateTargetBattery_free|].
  split; [apply calculateTargetBattery_le|].
  split.
  { intros Hs Hf. rewrite calculateTargetBattery_formula by (rewrite Hf; discriminate).
    unfold CostSelection.currentBattery. rewrite Hs, Hf. reflexivity. }
  split; [vm_compute; reflexivity|].
  repeat split; reflexivity.
Qed.

(** ** Debouncing *)

(** C9: two raw reads of the same token, the second within the debounce
    window of the first, never yield two IdentityEvents; they yield exactly
    one when the first read is a new presentation (a different token was seen
    last, or the window of the last event has elapsed, or nothing was seen
    yet), and then it is the first read that is announced. *)
Theorem C9_one_event_within_the_window (window : Z) (restart : bool)
    (ledger : list User.t) (st : IdentitySource.t) (token : string) (t1 t2 : Z)
    (Hwithin : (t1 <= t2 < t1 + window)%Z) :
  (List.length (IdentitySource.events window restart ledger
                  [(token, t1); (token, t2)] st) <= 1)%nat
  /\ (IdentitySource.is_new window st token t1 = true ->
      IdentitySource.events window restart ledger [(token, t1); (token, t2)] st
      = [ {| IdentitySource.tokenId := token; IdentitySource.arrival := t1;
             IdentitySource.outcome := IdentitySource.resolve ledger token |} ])
  /\ List.length (IdentitySource.events window restart ledger
                    [(token, t1); (token, t2)] IdentitySource.init) = 1%nat.
Proof.
  assert (Hsecond : IdentitySource.is_new window
                      {| IdentitySource.last_seen := Some token;
                         IdentitySource.seen_at := t1 |} token t2 = false).
  { unfold IdentitySource.is_new. simpl. rewrite String.eqb_refl. simpl.
    apply Z.leb_gt. lia. }
  unfold IdentitySource.events, IdentitySource.read.
  split; [|split].
  - destruct (IdentitySource.is_new window st token t1) eqn:H1.
    + rewrite Hsecond. simpl. lia.
    + destruct restart.
      * rewrite Hsecond. simpl. lia.
      * destruct (IdentitySource.is_new window st token t2); simpl; lia.
  - intros ->. now rewrite Hsecond.
  - simpl. now rewrite Hsecond.
Qed.

(** C9 with the default window of two seconds: reads at 0 and at 1.5 s. *)
Lemma C9_one_event_within_the_window_witness :
  (0 <= 1500 < 0 + 2000)%Z
  /\ List.length (IdentitySource.events 2000 false (DEFAULT_USERS "t")
                    [("RFID001", 0%Z); ("RFID001", 1500%Z)] IdentitySource.init) = 1%nat.
Proof.
  assert (H : (0 <= 1500 < 0 + 2000)%Z) by lia.
  split; [exact H|].
  exact (proj2 (proj2 (C9_one_event_within_the_window 2000 false (DEFAULT_USERS "t")
                         IdentitySource.init "RFID001" 0 1500 H))).
Defined.

(** ** The default accounts in the running application *)

Lemma normalised_intact t s : normalised t s -> defaults_intact s.
Proof. intros (Hd & _). unfold defaults_intact. now rewrite Hd. Qed.

Lemma normalised_ext t s s' :
  ls_users s' = ls_users s -> default_users s' = default_users s ->
  normalised t s -> normalised t s'.
Proof. unfold normalised. now intros -> ->. Qed.

(** The first read brings the table into that form. *)
Lemma getUsers_normalises t s :
  default_users s = DEFAULT_USERS t -> normalised t (snd (getUsers s)).
Proof.
  intros Hd. assert (Hi : defaults_intact s) by (unfold defaults_intact; now rewrite Hd).
  destruct (getUsers_normal s Hi) as (Hnp & Hincl).
  split.
  - destruct (getUsers_keeps s) as (-> & _). exact Hd.
  - exists (getUsers_list s). split; [apply getUsers_stored | auto].
Qed.

(** From then on a read returns parsed records only and writes nothing. *)
Lemma normalised_getUsers t s :
  normalised t s -> exists users, getUsers s = (Parsed users, s).
Proof.
  intros Hn. pose proof (normalised_intact t s Hn) as Hi.
  destruct Hn as (_ & users & Hs & Hnp & Hincl).
  exists users. now apply getUsers_fixed.
Qed.

Lemma normalised_read t s : normalised t s -> snd (getUsers s) = s.
Proof. intros Hn. now destruct (normalised_getUsers t s Hn) as (users & ->). Qed.

(** A balance written to a table in that form is written to a parsed record,
    never to a record of [DEFAULT_USERS]. *)
Lemma normalised_updateUserBalance t i b s :
  normalised t s -> normalised t (updateUserBalance i b s).
Proof.
  intros Hn. pose proof (normalised_intact t s Hn) as Hi.
  destruct Hn as (Hd & users & Hs & Hnp & Hincl).
  unfold updateUserBalance. rewrite (getUsers_fixed s users Hi Hs Hnp Hincl).
  cbn [users_of].
  destruct (find (has_id i) users); [|split; [exact Hd | now exists users]].
  cbn [assign_found users_of].
  split; [exact Hd|]. exists (assign_first (has_id i) b users).
  split; [reflexivity|]. split.
  - now rewrite forallb_assign_first.
  - now rewrite assign_first_names.
Qed.

Lemma normalised_sessions t l s : normalised t s -> normalised t (saveSessions l s).
Proof. now apply normalised_ext. Qed.

Lemma normalised_updateSession t i u s :
  normalised t s -> normalised t (updateSession i u s).
Proof.
  unfold updateSession. destruct (update_first i u (getSessions s)); auto.
Qed.

Lemma normalised_addTransaction t x s : normalised t s -> normalised t (addTransaction x s).
Proof. now apply normalised_ext. Qed.

Lemma normalised_either t s s' : normalised t s -> s' = s \/ s' = snd (getUsers s) ->
  normalised t s'.
Proof. intros Hn [-> | ->]; [exact Hn | now rewrite (normalised_read t s Hn)]. Qed.

Lemma handle_normalised t op k :
  normalised t (db k) -> normalised t (db (handle op k)).
Proof.
  intros Hn.
  assert (Hon : forall f r, normalised t (db (f k)) -> normalised t (db (on r k f))).
  { intros f r Hf. destruct (on_cases r k f) as [-> | ->]; auto. }
  destruct op; cbn [handle]; try apply Hon; cbv beta.
  - apply (normalised_either t (db k)); auto using navigate_db.
  - exact Hn.
  - unfold AppCtx.tick, AppCtx.refreshBatteryStatus. kiosk_simpl.
    destruct (currentSession (ctx k)) as [x|] eqn:Hc; [|exact Hn].
    destruct (is_in_progress x); [|exact Hn]. unfold AppCtx.meter.
    match goal with |- context [if ?c then _ else _] => destruct c end.
    + unfold AppCtx.stopCharging. kiosk_simpl. rewrite Hc. kiosk_simpl.
      now repeat apply normalised_updateSession.
    + kiosk_simpl. now apply normalised_updateSession.
  - apply (normalised_either t (db k)); auto using handleScan_db.
  - now rewrite handleRfidEvent_db.
  - unfold Auth.handleSelectRfid. now destruct (nth_error _ _).
  - unfold Auth.handleProceed. destruct (currentUser (ctx k)); [|exact Hn].
    destruct (cardScanned (auth k)); [|exact Hn].
    apply (normalised_either t (db k)); auto using navigate_db.
  - exact Hn.
  - destruct (nth_error _ _); [now rewrite handleAmountSelect_db | exact Hn].
  - now rewrite handleCustomAmount_db.
  - destruct (processing (cost k)); [exact Hn|].
    destruct (CostSelection.truthy_amount (selectedAmount (cost k))) as [a|] eqn:Ha.
    2:{ now rewrite handleConfirm_idle by auto. }
    destruct (currentUser (ctx k)) as [u|] eqn:Hu.
    2:{ now rewrite handleConfirm_idle by auto. }
    destruct (handleConfirm_runs now reply k a u Ha Hu) as (-> & _).
    apply normalised_addTransaction. unfold createSession.
    now apply normalised_sessions, normalised_updateUserBalance.
  - unfold ChargingScr.handleStop. destruct (currentSession (ctx k)); [|exact Hn].
    match goal with |- context [Router.navigate ?r ?x] =>
      apply (normalised_either t (db x)); [|now apply navigate_db] end.
    kiosk_simpl. now apply normalised_addTransaction, normalised_updateSession.
  - unfold AdminScr.handleBalanceAdjustment.
    destruct (find _ _); [|exact Hn]. destruct (Qgt_bool _ _); [exact Hn|].
    unfold AdminScr.loadData. kiosk_simpl.
    match goal with |- context [getUsers ?s] =>
      assert (normalised t s) as Hs
        by (now apply normalised_addTransaction, normalised_updateUserBalance);
      pose proof (normalised_read t s Hs) as Hr; destruct (getUsers s) as [a s1] end.
    kiosk_simpl. simpl in Hr. now rewrite Hr.
  - exact Hn.
Qed.

Lemma step_normalised t op k : normalised t (db k) -> normalised t (db (step op k)).
Proof.
  intros Hn. unfold step.
  apply (normalised_either t (db (handle op k)));
    [now apply handle_normalised | apply rerender_db].
Qed.

Lemma load_db k : db (AppCtx.load k) = db k \/ db (AppCtx.load k) = snd (getUsers (db k)).
Proof.
  unfold AppCtx.load. destruct (getActiveSession (db k)); [|now left].
  kiosk_simpl. destruct (getUsers (db k)) as [a s1].
  destruct (find _ _); kiosk_simpl; now right.
Qed.

Lemma boot_normalised t s : default_users s = DEFAULT_USERS t -> normalised t (db (boot s)).
Proof.
  intros Hd. unfold boot.
  match goal with |- context [AppCtx.load ?k] =>
    apply (normalised_either t (db k)); [|apply load_db] end.
  rewrite mount_auth_db. now apply getUsers_normalises.
Qed.

(** Whatever was in [localStorage] when the page loaded, and whatever the
    users and the backend do afterwards, the kiosk never assigns to a record
    of [DEFAULT_USERS], and its user table stays in the form a read leaves. *)
Lemma kiosk_keeps_DEFAULT_USERS t s ops :
  default_users s = DEFAULT_USERS t -> normalised t (db (run ops (boot s))).
Proof.
  intros Hd. pose proof (boot_normalised t s Hd) as Hn.
  revert Hn. generalize (boot s). induction ops as [|op ops IH]; intros k Hn; [exact Hn|].
  simpl. apply IH. now apply step_normalised.
Qed.
(** * Further properties *)

(** ** The user table: reset and insertion *)

Lemma intact_not_placeholder s :
  defaults_intact s -> forallb not_placeholder (default_users s) = true.
Proof.
  unfold defaults_intact, requiredUserNames. intros H.
  destruct (default_users s) as [|u1 [|u2 [|u3 [|u4 l]]]]; try discriminate.
  cbn [map] in H. injection H as H1 H2 H3.
  unfold not_placeholder. cbn [forallb]. rewrite H1, H2, H3. reflexivity.
Qed.

Lemma covered_not_missing s names :
  defaults_intact s ->
  incl requiredUserNames names ->
  filter (is_missing names) (default_users s) = [].
Proof.
  intros Hd Hincl. apply filter_none. intros d Hin.
  unfold is_missing. apply negb_false_iff. apply includes_In.
  apply Hincl. rewrite <- Hd. now apply in_map.
Qed.

Lemma find_app_first {A : Type} (p : A -> bool) (l l' : list A) :
  find p (l ++ l')%list
  = match find p l with Some x => Some x | None => find p l' end.
Proof.
  induction l as [|a l IH]; simpl; [reflexivity|].
  destruct (p a); [reflexivity | exact IH].
Qed.

(** X1: [db.resetUsers()] followed by a read gives back exactly the accounts
    of [DEFAULT_USERS] as they are at that moment, whatever the store held,
    and that read writes nothing. *)
Theorem resetUsers_then_read s :
  defaults_intact s ->
  getUsers (resetUsers s) = (Parsed (default_users s), resetUsers s)
  /\ getUsers_list (resetUsers s) = default_users s.
Proof.
  intros Hd.
  assert (Hfix : getUsers (resetUsers s) = (Parsed (default_users s), resetUsers s)).
  { apply getUsers_fixed.
    - exact Hd.
    - reflexivity.
    - now apply intact_not_placeholder.
    - rewrite Hd. apply incl_refl. }
  split; [exact Hfix|].
  unfold getUsers_list. rewrite Hfix. reflexivity.
Qed.

Lemma resetUsers_then_read_witness :
  getUsers_list (resetUsers legacy_store) = default_users legacy_store.
Proof.
  apply (resetUsers_then_read legacy_store). reflexivity.
Defined.

(** X2: on a store a read has normalised, [db.addUser(user)] appends the
    user, and the next read returns the old list followed by it; unless the
    user is called John Doe or Jane Smith, in which case the next read drops
    it again.  Ids are not checked: a lookup by an id that was already taken
    still finds the older record. *)
Theorem addUser_then_read loadedAt s user :
  normalised loadedAt s ->
  getUsers_list (addUser user s)
  = (getUsers_list s ++ (if not_placeholder user then [user] else []))%list
  /\ forall i u, find (has_id i) (getUsers_list s) = Some u ->
                 find (has_id i) (getUsers_list (addUser user s)) = Some u.
Proof.
  intros [Hdef (users & Hls & Hnp & Hincl)].
  assert (Hd : defaults_intact s) by (unfold defaults_intact; now rewrite Hdef).
  assert (Hget : getUsers s = (Parsed users, s)) by now apply getUsers_fixed.
  assert (Hlist : getUsers_list s = users) by now apply getUsers_list_fixed.
  assert (Hadd : addUser user s = saveUsers (users ++ [user]) s).
  { unfold addUser. rewrite Hget. reflexivity. }
  assert (Hread : getUsers_list (addUser user s)
                  = (users ++ (if not_placeholder user then [user] else []))%list).
  { rewrite Hadd.
    rewrite (getUsers_list_stored _ (users ++ [user])%list); [|exact Hd|reflexivity].
    rewrite filter_app, (filter_all _ _ Hnp).
    cbn [filter default_users saveUsers set_ls_users].
    rewrite covered_not_missing; [now rewrite app_nil_r|exact Hd|].
    rewrite map_app. intros n Hn. apply in_or_app. left. now apply Hincl. }
  rewrite Hread, Hlist. split; [reflexivity|].
  intros i u Hfind. rewrite find_app_first, Hfind. reflexivity.
Qed.

Lemma addUser_then_read_witness :
  normalised "2025" broke_store
  /\ getUsers_list (addUser (User.mk "7" "John Doe" "RFID007" 5 None "2025") broke_store)
     = (getUsers_list broke_store ++ [])%list.
Proof.
  assert (Hn : normalised "2025" broke_store).
  { split; [reflexivity|].
    eexists; split; [reflexivity|]. split; [reflexivity|].
    intros n Hn. simpl in *. intuition. }
  split; [exact Hn|].
  exact (proj1 (addUser_then_read "2025" broke_store
                  (User.mk "7" "John Doe" "RFID007" 5 None "2025") Hn)).
Defined.

(** ** The session list: updates and the active session *)

Lemma update_first_frame sessionId updates l :
  (find (has_session_id sessionId) l = None -> update_first sessionId updates l = None)
  /\ forall l', update_first sessionId updates l = Some l' ->
       List.length l' = List.length l
       /\ forall j, j <> sessionId -> SessionUpdates.id updates <> Some j ->
                    find (has_session_id j) l' = find (has_session_id j) l.
Proof.
  induction l as [|x l [IHnone IHsome]]; simpl.
  - split; [reflexivity | discriminate].
  - unfold has_session_id at 1. destruct (ChargingSession.id x =? sessionId) eqn:E.
    + split; [discriminate|]. intros l' H. injection H as <-. split; [reflexivity|].
      intros j Hj Hu. simpl. unfold has_session_id at 1 3.
      apply String.eqb_eq in E.
      assert (E1 : (ChargingSession.id x =? j) = false)
        by (apply String.eqb_neq; congruence).
      rewrite E1.
      assert (E2 : (ChargingSession.id (spread x updates) =? j) = false).
      { apply String.eqb_neq. cbn [spread ChargingSession.id].
        destruct (SessionUpdates.id updates) as [i|]; cbn [or_else]; congruence. }
      now rewrite E2.
    + split.
      * intros H. now rewrite (IHnone H).
      * intros l'. destruct (update_first sessionId updates l) as [l0|]; [|discriminate].
        cbn [option_map]. intros H. injection H as <-.
        destruct (IHsome l0 eq_refl) as [Hlen Hfind]. split; [simpl; now rewrite Hlen|].
        intros j Hj Hu. simpl. destruct (has_session_id j x); [reflexivity|].
        now apply Hfind.
Qed.


(** X3: [db.updateSession] with an id no stored session has writes nothing;
    otherwise it keeps the number of sessions and every session that is
    looked up by another id, provided the update does not rename the session
    to that id.  Users and transactions are untouched. *)
Theorem updateSession_frame sessionId updates s :
  (find (has_session_id sessionId) (getSessions s) = None ->
   updateSession sessionId updates s = s)
  /\ List.length (getSessions (updateSession sessionId updates s))
     = List.length (getSessions s)
  /\ (forall j, j <> sessionId -> SessionUpdates.id updates <> Some j ->
        find (has_session_id j) (getSessions (updateSession sessionId updates s))
        = find (has_session_id j) (getSessions s))
  /\ ls_users (updateSession sessionId updates s) = ls_users s
  /\ ls_transactions (updateSession sessionId updates s) = ls_transactions s
  /\ default_users (updateSession sessionId updates s) = default_users s.
Proof.
  destruct (update_first_frame sessionId updates (getSessions s)) as [Hnone Hsome].
  unfold updateSession.
  destruct (update_first sessionId updates (getSessions s)) as [l'|] eqn:E.
  - destruct (Hsome l' eq_refl) as [Hlen Hfind].
    split; [intros H; apply Hnone in H; discriminate|].
    repeat split; try reflexivity; assumption.
  - repeat split; reflexivity.
Qed.

(** X4: [db.getActiveSession()] is the oldest stored session in progress:
    creating a session does not change it while one is in progress, and
    otherwise the new session becomes the active one exactly when it is in
    progress itself. *)
Theorem createSession_active x s :
  getActiveSession (createSession x s)
  = match getActiveSession s with
    | Some a => Some a
    | None => if is_in_progress x then Some x else None
    end.
Proof.
  unfold getActiveSession, createSession, saveSessions.
  cbn [getSessions set_ls_sessions ls_sessions or_else].
  rewrite find_app_first. destruct (find is_in_progress (or_else (ls_sessions s) [])).
  - reflexivity.
  - simpl. destruct (is_in_progress x); reflexivity.
Qed.

(** ** The transaction log *)

(** X5: [db.addTransaction(t)] appends [t] to the log; the log
    [db.getUserTransactions] shows for the user of [t] grows by exactly [t]
    at its end, and the log of every other user is the same. *)
Theorem addTransaction_log t s userId :
  getTransactions (addTransaction t s) = (getTransactions s ++ [t])%list
  /\ getUserTransactions userId (addTransaction t s)
     = (getUserTransactions userId s
        ++ (if Transaction.userId t =? userId then [t] else []))%list.
Proof.
  unfold getUserTransactions, addTransaction, saveTransactions.
  cbn [getTransactions set_ls_transactions ls_transactions or_else].
  split; [reflexivity|]. rewrite filter_app. reflexivity.
Qed.

Lemma getUserTransactions_ext userId s s' :
  ls_transactions s' = ls_transactions s ->
  getUserTransactions userId s' = getUserTransactions userId s.
Proof. unfold getUserTransactions, getTransactions. now intros ->. Qed.

(** X6: a confirmed payment is logged once: [handleConfirm] appends to the
    payer's transactions one ['charge'] entry of minus the amount that
    carries the id of the new session, and it adds nothing to the log of any
    other user. *)
Theorem handleConfirm_logs_one_charge now reply k amount user :
  CostSelection.truthy_amount (selectedAmount (cost k)) = Some amount ->
  currentUser (ctx k) = Some user ->
  let k' := CostSelection.handleConfirm now reply k in
  let t := CostSelection.start_transaction now k user amount in
  getUserTransactions (User.id user) (db k')
  = (getUserTransactions (User.id user) (db k) ++ [t])%list
  /\ Transaction.type t = charge
  /\ Transaction.amount t = - amount
  /\ Transaction.sessionId t
     = Some (ChargingSession.id (CostSelection.new_session now k user amount))
  /\ forall other, other <> User.id user ->
       getUserTransactions other (db k') = getUserTransactions other (db k).
Proof.
  intros Ha Hu k' t.
  destruct (handleConfirm_runs now reply k amount user Ha Hu) as [Hdb _].
  fold k' in Hdb. fold t in Hdb.
  assert (Hlog : forall i,
    getUserTransactions i (db k')
    = (getUserTransactions i (db k)
       ++ (if Transaction.userId t =? i then [t] else []))%list).
  { intros i. rewrite Hdb.
    unfold getUserTransactions at 1, addTransaction, saveTransactions.
    cbn [getTransactions set_ls_transactions ls_transactions or_else].
    rewrite filter_app. cbn [filter]. f_equal.
    change (getUserTransactions i
              (createSession (CostSelection.new_session now k user amount)
                 (updateUserBalance (User.id user) (User.balance user - amount) (db k)))
            = getUserTransactions i (db k)).
    apply getUserTransactions_ext.
    destruct (updateUserBalance_keeps (User.id user) (User.balance user - amount) (db k))
      as (_ & _ & Ht).
    exact Ht. }
  repeat split; try reflexivity.
  - rewrite Hlog. cbn [t CostSelection.start_transaction Transaction.userId].
    now rewrite String.eqb_refl.
  - intros other Hother. rewrite Hlog.
    cbn [t CostSelection.start_transaction Transaction.userId].
    apply String.eqb_neq in Hother. rewrite String.eqb_sym in Hother.
    rewrite Hother. apply app_nil_r.
Qed.

Lemma handleConfirm_logs_one_charge_witness :
  getUserTransactions "1"
    (db (CostSelection.handleConfirm 1000 StartBackendDown amount_selected))
  = (getUserTransactions "1" (db amount_selected)
     ++ [CostSelection.start_transaction 1000 amount_selected
           (User.mk "1" "Lalit Nikumbh" "RFID001" 100 (Some "+91 9876543212")
              "2025-01-01T00:00:00.000Z") 40])%list.
Proof.
  exact (proj1 (handleConfirm_logs_one_charge 1000 StartBackendDown amount_selected 40
                  (User.mk "1" "Lalit Nikumbh" "RFID001" 100 (Some "+91 9876543212")
                     "2025-01-01T00:00:00.000Z")
                  eq_refl eq_refl)).
Defined.

(** ** The hardware service on its own *)

(** X7: [setBatteryLevel] clamps: the stored level is always between 0 and
    100, it is the requested level when that lies in the range, and nothing
    else of the service changes. *)
Theorem setBatteryLevel_clamps level h :
  let h' := Hardware.setBatteryLevel level h in
  0 <= Hardware.currentBattery h' /\ Hardware.currentBattery h' <= 100
  /\ (0 <= level /\ level <= 100 -> Hardware.currentBattery h' == level)
  /\ (level <= 0 -> Hardware.currentBattery h' == 0)
  /\ (100 <= level -> Hardware.currentBattery h' == 100)
  /\ Hardware.currentBattery (Hardware.setBatteryLevel (Hardware.currentBattery h') h')
     == Hardware.currentBattery h'
  /\ Hardware.chargingActive h' = Hardware.chargingActive h
  /\ Hardware.targetBattery h' = Hardware.targetBattery h
  /\ Hardware.energyDelivered h' = Hardware.energyDelivered h
  /\ Hardware.calls h' = Hardware.calls h.
Proof.
  cbn [Hardware.setBatteryLevel Hardware.currentBattery Hardware.chargingActive
       Hardware.targetBattery Hardware.energyDelivered Hardware.calls].
  assert (Hlo : 0 <= Qmax 0 (Qmin 100 level)) by apply Q.le_max_l.
  assert (Hhi : Qmax 0 (Qmin 100 level) <= 100).
  { apply Q.max_lub; [discriminate | apply Q.le_min_l]. }
  repeat split; try assumption.
  - intros [H0 H100]. rewrite Q.min_r by assumption. now apply Q.max_r.
  - intros H0. apply Q.max_l. eapply Qle_trans; [apply Q.le_min_r | exact H0].
  - intros H100. rewrite Q.min_l by assumption. now apply Q.max_r.
  - rewrite Q.min_r by assumption. now apply Q.max_r.
Qed.

(** X8: [startCharging] overwrites the target and the start time and zeroes
    the energy counter whether or not the start succeeds, and leaves the
    battery level alone; when it reports success the relay flag is on; in
    mock mode (backend down) it always reports success. *)
Theorem startCharging_resets_the_meter target now reply h :
  let r := Hardware.startCharging target now reply h in
  Hardware.targetBattery (snd r) = target
  /\ Hardware.startTime (snd r) = now
  /\ Hardware.energyDelivered (snd r) = 0
  /\ Hardware.currentBattery (snd r) = Hardware.currentBattery h
  /\ (fst r = true -> Hardware.chargingActive (snd r) = true)
  /\ (reply = StartBackendDown -> fst r = true)
  /\ Hardware.calls (snd r) = (Hardware.calls h ++ [CallStart target (fst r)])%list.
Proof.
  unfold Hardware.startCharging.
  destruct reply as [|[[ic [cu|]]|] [|]]; cbn; repeat split; congruence.
Qed.

(** X9: [stopCharging] never touches the meter readings.  When it reports
    success the relay flag is off and every later [simulateCharging] leaves
    the service as it is; when the backend refuses, the flag is as before.
    In mock mode it always reports success. *)
Theorem stopCharging_freezes_the_meter reply h :
  let r := Hardware.stopCharging reply h in
  Hardware.currentBattery (snd r) = Hardware.currentBattery h
  /\ Hardware.energyDelivered (snd r) = Hardware.energyDelivered h
  /\ Hardware.targetBattery (snd r) = Hardware.targetBattery h
  /\ (fst r = true ->
      Hardware.chargingActive (snd r) = false
      /\ forall now reply', Hardware.simulateCharging now reply' (snd r) = snd r)
  /\ (fst r = false -> Hardware.chargingActive (snd r) = Hardware.chargingActive h)
  /\ (reply = StopBackendDown -> fst r = true)
  /\ Hardware.calls (snd r) = (Hardware.calls h ++ [CallStop (fst r)])%list.
Proof.
  unfold Hardware.stopCharging.
  destruct reply as [|[|]]; cbn; repeat split; try congruence;
    intros; now apply simulateCharging_idle.
Qed.

(** X10: one [simulateCharging] with the relay on never takes the battery
    past the target.  Below the target it makes no relay call and the flag
    stays on; on reaching the target it makes exactly one stop call, and the
    flag is off afterwards exactly when that call succeeded. *)
Theorem simulateCharging_stops_at_target now reply h :
  Hardware.chargingActive h = true ->
  let h' := Hardware.simulateCharging now reply h in
  Hardware.currentBattery h' <= Hardware.targetBattery h
  /\ (Hardware.currentBattery h' < Hardware.targetBattery h ->
      Hardware.calls h' = Hardware.calls h /\ Hardware.chargingActive h' = true)
  /\ (Hardware.targetBattery h <= Hardware.currentBattery h' ->
      Hardware.calls h'
      = (Hardware.calls h ++ [CallStop (negb (Hardware.chargingActive h'))])%list
      /\ (reply <> StopBackendUp false -> Hardware.chargingActive h' = false)).
Proof.
  intros Hon. unfold Hardware.simulateCharging. rewrite Hon. cbn [negb].
  cbv zeta. cbn [Hardware.currentBattery Hardware.targetBattery].
  set (battery := Qmin _ (Hardware.targetBattery h)).
  assert (Hle : battery <= Hardware.targetBattery h) by apply Q.le_min_r.
  unfold Qge_bool. destruct (Qle_bool (Hardware.targetBattery h) battery) eqn:E.
  - apply Qle_bool_iff in E.
    destruct reply as [|[|]]; cbn; rewrite ?Hon; cbn;
      (split; [exact Hle|]); (split; [intros Hlt; exfalso; lra|]);
      intros _; (split; [reflexivity|]); congruence.
  - assert (Hlt : ~ Hardware.targetBattery h <= battery).
    { intros H. apply Qle_bool_iff in H. congruence. }
    cbn. split; [exact Hle|]. split; [intros _; now split|].
    intros H. contradiction.
Qed.

Lemma simulateCharging_stops_at_target_witness :
  Hardware.currentBattery
    (Hardware.simulateCharging 3600000 StopBackendDown
       (snd (Hardware.startCharging 40 0 StartBackendDown Hardware.init)))
  <= 40.
Proof.
  exact (proj1 (simulateCharging_stops_at_target 3600000 StopBackendDown
                  (snd (Hardware.startCharging 40 0 StartBackendDown Hardware.init))
                  eq_refl)).
Defined.

Lemma Math_round_between (a b : Z) (x : Q) :
  inject_Z a <= x -> x < inject_Z b ->
  inject_Z a <= Math_round x /\ Math_round x <= inject_Z b.
Proof.
  intros Ha Hb. unfold Math_round. split.
  - rewrite <- Zle_Qle. rewrite <- (Qfloor_Z a). apply Qfloor_resp_le. lra.
  - rewrite <- Zle_Qle.
    pose proof (Qfloor_le (x + (1 # 2))) as Hf.
    assert (H : inject_Z (Qfloor (x + (1 # 2))) < inject_Z (b + 1)).
    { rewrite inject_Z_plus. change (inject_Z 1) with 1. lra. }
    rewrite <- Zlt_Qlt in H. lia.
Qed.

Lemma Math_round_zero (x : Q) : x == 0 -> Math_round x == 0.
Proof.
  intros H. unfold Math_round.
  assert (E : Qfloor (x + (1 # 2)) = Qfloor (1 # 2)).
  { apply Qfloor_comp. rewrite H. reflexivity. }
  rewrite E. reflexivity.
Qed.

(** X11: for random values in [0, 1), [getBatteryStatus] reports the stored
    battery level, a voltage between 48 and 52, and, with the relay off, a
    current and a power of 0; with the relay on the current is between 40
    and 50 and the power between 1920 and 2600. *)
Theorem getBatteryStatus_bounds rv rc h :
  0 <= rv -> rv < 1 -> 0 <= rc -> rc < 1 ->
  let b := Hardware.getBatteryStatus rv rc h in
  BatteryStatus.percentage b = Hardware.currentBattery h
  /\ 48 <= BatteryStatus.voltage b /\ BatteryStatus.voltage b <= 52
  /\ (Hardware.chargingActive h = false ->
      BatteryStatus.current b == 0 /\ BatteryStatus.power b == 0)
  /\ (Hardware.chargingActive h = true ->
      40 <= BatteryStatus.current b /\ BatteryStatus.current b <= 50
      /\ 1920 <= BatteryStatus.power b /\ BatteryStatus.power b <= 2600).
Proof.
  intros Hv0 Hv1 Hc0 Hc1.
  unfold Hardware.getBatteryStatus.
  cbn [BatteryStatus.percentage BatteryStatus.voltage BatteryStatus.current
       BatteryStatus.power].
  split; [reflexivity|].
  destruct (Math_round_between 480 520 ((48 + rv * 4) * 10)) as [V1 V2]; [unfold inject_Z; lra..|].
  change (inject_Z 480) with 480 in V1. change (inject_Z 520) with 520 in V2.
  split; [|split].
  - apply Qle_shift_div_l; [reflexivity | lra].
  - apply Qle_shift_div_r; [reflexivity | lra].
  - split.
    + intros ->. split.
      * rewrite (Math_round_zero (0 * 10)) by reflexivity. reflexivity.
      * apply Math_round_zero. ring.
    + intros ->.
      destruct (Math_round_between 400 500 ((40 + rc * 10) * 10)) as [C1 C2];
        [unfold inject_Z; lra..|].
      change (inject_Z 400) with 400 in C1. change (inject_Z 500) with 500 in C2.
      destruct (Math_round_between 1920 2600 ((48 + rv * 4) * (40 + rc * 10)))
        as [P1 P2]; [unfold inject_Z; nra..|].
      change (inject_Z 1920) with 1920 in P1. change (inject_Z 2600) with 2600 in P2.
      repeat split; try assumption.
      * apply Qle_shift_div_l; [reflexivity | lra].
      * apply Qle_shift_div_r; [reflexivity | lra].
Qed.

Lemma getBatteryStatus_bounds_witness :
  48 <= BatteryStatus.voltage (Hardware.getBatteryStatus (1 # 2) (1 # 4) Hardware.init)
  /\ BatteryStatus.voltage (Hardware.getBatteryStatus (1 # 2) (1 # 4) Hardware.init) <= 52.
Proof.
  pose proof (getBatteryStatus_bounds (1 # 2) (1 # 4) Hardware.init) as H.
  cbv zeta in H.
  destruct H as (_ & H1 & H2 & _); try (vm_compute; congruence).
  split; assumption.
Defined.

(** X12: a scan the backend answers with action ['started'], like a
    ['charging_started'] event of the stream, switches the relay flag on and
    restarts the metering clock at that moment without touching the
    readings: the next [simulateCharging] reports the energy of 2000 W since
    the scan, whatever had been delivered before. *)
Theorem scanRfid_started_restarts_the_meter rfid t0 t reply h :
  let h0 := snd (Hardware.scanRfid (ScanData (Some started) rfid) t0 h) in
  Hardware.chargingActive h0 = true
  /\ Hardware.startTime h0 = t0
  /\ Hardware.energyDelivered h0 = Hardware.energyDelivered h
  /\ Hardware.currentBattery h0 = Hardware.currentBattery h
  /\ Hardware.targetBattery h0 = Hardware.targetBattery h
  /\ Hardware.calls h0 = Hardware.calls h
  /\ (forall event, ev_type event = charging_started -> onmessage event t0 h = h0)
  /\ Hardware.energyDelivered (Hardware.simulateCharging t reply h0)
     = 2000 * (inject_Z (t - t0) / inject_Z (1000 * 60 * 60))
  /\ Hardware.energyDelivered (Hardware.simulateCharging t0 reply h0) == 0.
Proof.
  cbn [Hardware.scanRfid snd].
  set (h0 := Hardware.set_startTime t0 (Hardware.set_chargingActive true h)).
  assert (Hon : Hardware.chargingActive h0 = true) by reflexivity.
  repeat split.
  - intros event He. unfold onmessage. now rewrite He.
  - exact (proj1 (simulateCharging_active t reply h0 Hon)).
  - rewrite (proj1 (simulateCharging_active t0 reply h0 Hon)).
    cbn [h0 Hardware.set_startTime Hardware.startTime].
    rewrite Z.sub_diag. reflexivity.
Qed.

(** ** The authentication screen *)

(** X13: from the authentication screen, [handleProceed] reaches the cost
    screen exactly when a user is logged in and the card was scanned.  A
    user picked from the manual list is logged in but cannot proceed, and
    neither can anybody after a logout. *)
Theorem handleProceed_needs_a_scan k :
  route k = Home ->
  (route (Auth.handleProceed k) = SelectCost
   <-> (exists user, currentUser (ctx k) = Some user) /\ cardScanned (auth k) = true)
  /\ (forall i user, nth_error (auth_users (auth k)) i = Some user ->
        currentUser (ctx (Auth.handleSelectRfid i k)) = Some user
        /\ route (Auth.handleProceed (Auth.handleSelectRfid i k)) = Home)
  /\ route (Auth.handleProceed (Auth.handleLogout k)) = Home.
Proof.
  intros Hr. split; [|split].
  - unfold Auth.handleProceed.
    destruct (currentUser (ctx k)) as [u|] eqn:Hu.
    + destruct (cardScanned (auth k)) eqn:Hc.
      * cbn [Router.navigate]. rewrite Hu. cbn. split; [|reflexivity].
        intros _. split; [now exists u | reflexivity].
      * kiosk_simpl. rewrite Hr. split; [discriminate | intros [_ H]; discriminate].
    + kiosk_simpl. rewrite Hr. split; [discriminate | intros [[u H] _]; discriminate].
  - intros i user Hi. unfold Auth.handleSelectRfid. rewrite Hi.
    unfold Auth.handleProceed. kiosk_simpl. split; [reflexivity | exact Hr].
  - unfold Auth.handleLogout, Auth.handleProceed. kiosk_simpl. exact Hr.
Qed.

Lemma handleProceed_needs_a_scan_witness :
  route (Auth.handleProceed
           (Auth.handleLogout (boot (fresh_store "2025-01-01T00:00:00.000Z")))) = Home.
Proof.
  exact (proj2 (proj2 (handleProceed_needs_a_scan
                         (boot (fresh_store "2025-01-01T00:00:00.000Z")) eq_refl))).
Defined.

Lemma onmessage_readings event now h :
  Hardware.currentBattery (onmessage event now h) = Hardware.currentBattery h
  /\ Hardware.targetBattery (onmessage event now h) = Hardware.targetBattery h
  /\ Hardware.energyDelivered (onmessage event now h) = Hardware.energyDelivered h
  /\ Hardware.calls (onmessage event now h) = Hardware.calls h.
Proof. unfold onmessage. destruct (ev_type event); cbn; auto. Qed.

Lemma rfidEventHandler_mounted event now k :
  rfidEventHandler true (currentUser (ctx k)) event now k
  = Auth.handleRfidEvent event now k.
Proof.
  unfold rfidEventHandler, Auth.handleRfidEvent.
  destruct (currentUser (ctx k)); [reflexivity|].
  destruct (ev_type event); reflexivity.
Qed.

Lemma rerender_ctx k : ctx (Router.rerender k) = ctx k.
Proof.
  unfold Router.rerender. destruct (route k); try reflexivity.
  - destruct (currentUser (ctx k)); [reflexivity|].
    apply (proj2 (proj2 (mount_auth_frame k))).
  - apply (proj1 (proj2 (navigate_safe Charging k))).
Qed.

(** X14: while a user is logged in on the authentication screen, messages of
    the backend stream that reach the mounted handler, or a handler of an
    unmounted screen whose ref holds a user, change nothing the user sees:
    the context, the screen state, the store and the route stay as they are,
    whatever the events say; only the relay flag and clock of the hardware
    service follow them, and no relay call is made.  A handler of a screen
    unmounted without a user is different: on a card the backend accepted it
    logs that user in, on whatever route and whoever is logged in. *)
Theorem events_ignored_while_logged_in ops k user :
  route k = Home ->
  currentUser (ctx k) = Some user ->
  forallb reaches_a_holder ops = true ->
  let k' := run_all ops k in
  (ctx k' = ctx k /\ auth k' = auth k /\ db k' = db k /\ route k' = Home
   /\ cost k' = cost k /\ admin k' = admin k
   /\ Hardware.calls (hw k') = Hardware.calls (hw k)
   /\ Hardware.currentBattery (hw k') = Hardware.currentBattery (hw k)
   /\ Hardware.energyDelivered (hw k') = Hardware.energyDelivered (hw k))
  /\ forall k0 event now u,
       ev_type event = rfid_detected ->
       ev_success event = Some true ->
       ev_user event = Some u ->
       currentUser (ctx (step_all (StaleRfidEvent None event now) k0))
       = Some (Auth.user_of_event now u).
Proof.
  intros Hr Hu Hops. split.
  - revert k Hr Hu. induction ops as [|op ops IH]; intros k Hr Hu.
    + cbn. repeat split; auto.
    + cbn [forallb] in Hops. apply andb_true_iff in Hops. destruct Hops as [Hop Hops].
      cbn [run_all].
      assert (Hstep : exists event now,
                step_all op k = with_hw (onmessage event now (hw k)) k).
      { destruct op as [[]|[u'|] event now]; try discriminate.
        - exists event, now. unfold step_all, handle_all, handle, on. rewrite Hr.
          unfold Auth.handleRfidEvent. kiosk_simpl. rewrite Hu.
          unfold Router.rerender. kiosk_simpl. now rewrite Hr.
        - exists event, now. unfold step_all, handle_all, rfidEventHandler.
          unfold Router.rerender. kiosk_simpl. now rewrite Hr. }
      destruct Hstep as (event & now & ->).
      specialize (IH Hops (with_hw (onmessage event now (hw k)) k) Hr Hu).
      cbv zeta in IH. kiosk_simpl.
      destruct IH as (H1 & H2 & H3 & H4 & H5 & H6 & H7 & H8 & H9).
      destruct (onmessage_readings event now (hw k)) as (B & _ & E & C).
      repeat split; try assumption; congruence.
  - intros k0 event now u Ht Hs Hv. unfold step_all. rewrite rerender_ctx.
    unfold handle_all, rfidEventHandler. rewrite Ht, Hs, Hv. reflexivity.
Qed.

Lemma events_ignored_while_logged_in_witness :
  route at_cost_screen = SelectCost
  /\ ctx (run_all
            [ Mounted (OpRfidEvent {| ev_type := rfid_detected; ev_user := None;
                                      ev_success := Some false; ev_error := None |} 5);
              StaleRfidEvent (Some (User.mk "2" "Fateen Shaikh" "RFID002" 150 None "2025"))
                {| ev_type := charging_started; ev_user := None; ev_success := None;
                   ev_error := None |} 6 ]
            (Router.navigate Home at_cost_screen))
     = ctx (Router.navigate Home at_cost_screen).
Proof.
  split; [reflexivity|].
  exact (proj1 (proj1 (events_ignored_while_logged_in
                  [ Mounted (OpRfidEvent {| ev_type := rfid_detected; ev_user := None;
                                            ev_success := Some false;
                                            ev_error := None |} 5);
                    StaleRfidEvent
                      (Some (User.mk "2" "Fateen Shaikh" "RFID002" 150 None "2025"))
                      {| ev_type := charging_started; ev_user := None;
                         ev_success := None; ev_error := None |} 6 ]
                  (Router.navigate Home at_cost_screen)
                  (User.mk "1" "Lalit Nikumbh" "RFID001" 100 (Some "+91 9876543212")
                     "2025-01-01T00:00:00.000Z")
                  eq_refl eq_refl eq_refl))).
Defined.

(** ** Stopping a session by hand *)



(** ** Paying within the balance *)











Lemma stale_handler_frame ref event now k :
  let k' := rfidEventHandler false ref event now (with_hw (onmessage event now (hw k)) k) in
  route k' = route k /\ cost k' = cost k /\ db k' = db k
  /\ (stale_login (StaleRfidEvent ref event now) = false ->
      currentUser (ctx k') = currentUser (ctx k)).
Proof.
  unfold rfidEventHandler, stale_login. destruct ref as [u|]; [now repeat split|].
  destruct (ev_type event); try now repeat split.
  destruct (ev_success event) as [[]|], (ev_user event); repeat split; discriminate.
Qed.






(** ** The admin panel *)

(** X17: the admin panel never stores a negative balance: after
    [handleBalanceAdjustment], the balance the store shows for the user is
    the one it showed before or a number that is not negative; and the call
    changes nothing at all when the panel's copy of the balance plus the
    adjustment is below zero. *)
Theorem admin_never_stores_a_negative_balance userId amount add now k :
  defaults_intact (db k) ->
  let k' := AdminScr.handleBalanceAdjustment userId amount add now k in
  (forall b, stored_balance userId (db k') = Some b ->
             stored_balance userId (db k) = Some b \/ 0 <= b)
  /\ (forall user, find (has_id userId) (admin_users (admin k)) = Some user ->
        User.balance user + (if add then amount else - amount) < 0 -> k' = k).
Proof.
  intros Hd. unfold AdminScr.handleBalanceAdjustment.
  destruct (find (has_id userId) (admin_users (admin k))) as [user|] eqn:Hf.
  2:{ split; [now left | discriminate]. }
  set (adjustment := if add then amount else - amount).
  set (newBalance := User.balance user + adjustment).
  cbv zeta. unfold Qgt_bool.
  destruct (Qle_bool 0 newBalance) eqn:E; cbn [negb].
  2:{ split; [now left | reflexivity]. }
  apply Qle_bool_iff in E. split.
  2:{ intros u Hu Hneg. injection Hu as <-. fold adjustment in Hneg.
      fold newBalance in Hneg. lra. }
  intros b. unfold AdminScr.loadData. kiosk_simpl.
  set (s1 := updateUserBalance userId newBalance (db k)).
  set (s2 := addTransaction _ s1).
  assert (Hd1 : defaults_intact s1) by now apply updateUserBalance_intact.
  assert (Hd2 : defaults_intact s2) by exact Hd1.
  destruct (getUsers s2) as [a s3] eqn:Hg. kiosk_simpl.
  assert (Hs3 : s3 = snd (getUsers s2)) by now rewrite Hg.
  rewrite Hs3, (stored_balance_again userId s2 Hd2).
  rewrite (stored_balance_ext userId s1 s2) by reflexivity.
  destruct (find (has_id userId) (getUsers_list (db k))) as [u|] eqn:Hu.
  - unfold s1. rewrite (updateUserBalance_stored_balance (db k) userId newBalance u Hd Hu).
    intros Hb. injection Hb as <-. now right.
  - unfold s1. rewrite (updateUserBalance_absent userId newBalance (db k) Hu).
    rewrite (stored_balance_again userId (db k) Hd). now left.
Qed.

Lemma admin_never_stores_a_negative_balance_witness :
  AdminScr.handleBalanceAdjustment "1" 500 false 9 (Router.navigate Admin at_cost_screen)
  = Router.navigate Admin at_cost_screen.
Proof.
  exact (proj2 (admin_never_stores_a_negative_balance "1" 500 false 9
                  (Router.navigate Admin at_cost_screen) eq_refl)
           (User.mk "1" "Lalit Nikumbh" "RFID001" 100 (Some "+91 9876543212")
              "2025-01-01T00:00:00.000Z")
           eq_refl eq_refl).
Defined.

(** ** Reloading the page during a session *)

Lemma boot_sessions s : getSessions (db (boot s)) = getSessions s.
Proof.
  unfold boot. unfold getSessions.
  set (k0 := Router.mount_auth _).
  assert (H0 : ls_sessions (db k0) = ls_sessions s).
  { unfold k0. rewrite mount_auth_db. cbn [db].
    apply (proj1 (proj2 (getUsers_keeps s))). }
  destruct (load_db k0) as [-> | ->]; [now rewrite H0|].
  now rewrite (proj1 (proj2 (getUsers_keeps (db k0)))), H0.
Qed.

Lemma boot_resumes s x :
  getActiveSession s = Some x ->
  currentSession (ctx (boot s)) = Some x /\ hw (boot s) = Hardware.init.
Proof.
  intros Ha. unfold boot. set (k0 := Router.mount_auth _).
  assert (Hs : getActiveSession (db k0) = Some x).
  { unfold getActiveSession, getSessions. unfold k0. rewrite mount_auth_db. cbn [db].
    rewrite (proj1 (proj2 (getUsers_keeps s))). exact Ha. }
  assert (Hh : hw k0 = Hardware.init)
    by (unfold k0; now rewrite (proj1 (mount_auth_frame _))).
  unfold AppCtx.load. rewrite Hs.
  destruct (getUsers (db (setCurrentSession (Some x) k0))) as [a s1].
  destruct (find _ (users_of s1 a)); kiosk_simpl; auto.
Qed.

(** X18: a page reload during a session resumes the oldest in-progress
    session from the store, but on a hardware service that starts over with
    the relay flag off and an energy of 0: whether or not the first battery
    sample has arrived, the first metering tick after the reload leaves the
    flag off and overwrites the stored energy of that session with 0. *)
Theorem reload_restarts_the_meter s x sample now rv rc r1 r2 :
  getActiveSession s = Some x ->
  let k := match sample with
           | Some (rv0, rc0) => AppCtx.refreshBatteryStatus rv0 rc0 (boot s)
           | None => boot s
           end in
  let k' := AppCtx.tick now rv rc r1 r2 k in
  currentSession (ctx k) = Some x
  /\ Hardware.chargingActive (hw k) = false
  /\ Hardware.chargingActive (hw k') = false
  /\ exists x', find (has_session_id (ChargingSession.id x)) (getSessions (db k'))
                = Some x'
                /\ ChargingSession.energyDelivered x' = 0.
Proof.
  intros Ha k k'. destruct (boot_resumes s x Ha) as [Hc0 Hh0].
  assert (Hk : currentSession (ctx k) = Some x /\ hw k = Hardware.init
               /\ getSessions (db k) = getSessions s).
  { unfold k. destruct sample as [[rv0 rc0]|];
      unfold AppCtx.refreshBatteryStatus; kiosk_simpl;
      (split; [exact Hc0|]); (split; [exact Hh0|]); apply boot_sessions. }
  destruct Hk as (Hc & Hh & Hl).
  assert (Hp : is_in_progress x = true).
  { unfold getActiveSession in Ha. now apply find_some in Ha. }
  assert (Hin : In x (getSessions (db k))).
  { rewrite Hl. unfold getActiveSession in Ha. now apply find_some in Ha. }
  assert (Hx : exists x0, find (has_session_id (ChargingSession.id x))
                            (getSessions (db k)) = Some x0).
  { destruct (find (has_session_id (ChargingSession.id x)) (getSessions (db k)))
      as [x0|] eqn:E; [now exists x0|].
    exfalso. apply (find_none _ _ E) in Hin. unfold has_session_id in Hin.
    now rewrite String.eqb_refl in Hin. }
  destruct Hx as [x0 Hx0].
  destruct (tick_stored_energy now rv rc r1 r2 k x x0 Hc Hp Hx0) as [[x' [Hf He]] _].
  fold k' in Hf, He.
  assert (Hm : metering k = true) by (unfold metering; now rewrite Hc).
  destruct (tick_hw now rv rc r1 r2 k) as [[Hno _] | [_ Hrel]]; [congruence|].
  fold k' in Hrel. rewrite Hh in Hrel.
  rewrite simulateCharging_idle in Hrel by reflexivity.
  destruct Hrel as (_ & _ & _ & Hen & Hact).
  split; [exact Hc|]. split; [now rewrite Hh|]. split.
  - destruct (Hardware.chargingActive (hw k')); [|reflexivity].
    specialize (Hact eq_refl). discriminate.
  - exists x'. split; [exact Hf|]. rewrite He, Hen. reflexivity.
Qed.

Lemma reload_restarts_the_meter_witness :
  getActiveSession (db paid_everything)
  = Some (CostSelection.new_session 1000 (run [OpPreset 4] at_cost_screen)
            (User.mk "1" "Lalit Nikumbh" "RFID001" 100 (Some "+91 9876543212")
               "2025-01-01T00:00:00.000Z") 100)
  /\ Hardware.chargingActive
       (hw (AppCtx.tick 5000 0 0 StopBackendDown StopBackendDown
              (AppCtx.refreshBatteryStatus 0 0 (boot (db paid_everything))))) = false.
Proof.
  assert (Ha : getActiveSession (db paid_everything)
               = Some (CostSelection.new_session 1000 (run [OpPreset 4] at_cost_screen)
                         (User.mk "1" "Lalit Nikumbh" "RFID001" 100
                            (Some "+91 9876543212") "2025-01-01T00:00:00.000Z") 100))
    by (vm_compute; reflexivity).
  split; [exact Ha|].
  exact (proj1 (proj2 (proj2 (reload_restarts_the_meter (db paid_everything) _
                                (Some (0, 0)) 5000 0 0
                                StopBackendDown StopBackendDown Ha)))).
Defined.

(** ** The elapsed-time display *)

Lemma padStart2_digits (n : Z) :
  (0 <= n < 100)%Z ->
  ChargingView.padStart2 (toString n)
  = String (Ascii.ascii_of_nat (48 + Z.to_nat (n / 10)))
      (String (Ascii.ascii_of_nat (48 + Z.to_nat (n mod 10))) "").
Proof.
  intros Hn.
  assert (H : forall m, (m < 100)%nat ->
            ChargingView.padStart2 (toString (Z.of_nat m))
            = String (Ascii.ascii_of_nat (48 + Z.to_nat (Z.of_nat m / 10)))
                (String (Ascii.ascii_of_nat (48 + Z.to_nat (Z.of_nat m mod 10))) "")).
  { intros m Hm. do 100 (destruct m as [|m]; [vm_compute; reflexivity|]). lia. }
  rewrite <- (Z2Nat.id n) by lia. apply H. lia.
Qed.

Lemma digit_value_digit (d : Z) :
  (0 <= d < 10)%Z ->
  ChargingView.digit_value (Ascii.ascii_of_nat (48 + Z.to_nat d)) = Some d.
Proof.
  intros Hd.
  assert (H : forall m, (m < 10)%nat ->
            ChargingView.digit_value (Ascii.ascii_of_nat (48 + Z.to_nat (Z.of_nat m)))
            = Some (Z.of_nat m)).
  { intros m Hm. do 10 (destruct m as [|m]; [vm_compute; reflexivity|]). lia. }
  rewrite <- (Z2Nat.id d) at 2 by lia. rewrite <- (Z2Nat.id d) at 1 by lia.
  apply H. lia.
Qed.

Lemma formatTime_shape (seconds : Z) :
  (0 <= seconds < 360000)%Z ->
  String.length (ChargingView.formatTime seconds) = 8%nat
  /\ ChargingView.read_clock (ChargingView.formatTime seconds) = Some seconds.
Proof.
  intros Hs. unfold ChargingView.formatTime. cbv zeta.
  rewrite !Z.rem_mod_nonneg by lia.
  rewrite (padStart2_digits (seconds / 3600))
    by (split; [apply Z.div_pos; lia | apply Z.div_lt_upper_bound; lia]).
  rewrite (padStart2_digits (seconds mod 3600 / 60)).
  2:{ pose proof (Z.mod_pos_bound seconds 3600 eq_refl).
      split; [apply Z.div_pos; lia | apply Z.div_lt_upper_bound; lia]. }
  rewrite (padStart2_digits (seconds mod 60))
    by (pose proof (Z.mod_pos_bound seconds 60 eq_refl); lia).
  split; [reflexivity|].
  cbn [String.append ChargingView.read_clock].
  rewrite !digit_value_digit.
  - f_equal. Z.div_mod_to_equations. lia.
  - Z.div_mod_to_equations. lia.
  - Z.div_mod_to_equations. lia.
  - Z.div_mod_to_equations. lia.
  - Z.div_mod_to_equations. lia.
  - Z.div_mod_to_equations. lia.
  - Z.div_mod_to_equations. lia.
Qed.

(** X19: for every whole number of seconds below 100 hours the elapsed-time
    display of the charging screen has exactly the eight characters
    [hh:mm:ss], reads back as that number of seconds, and so differs for
    different durations. *)
Theorem formatTime_round_trip seconds :
  (0 <= seconds < 360000)%Z ->
  String.length (ChargingView.formatTime seconds) = 8%nat
  /\ ChargingView.read_clock (ChargingView.formatTime seconds) = Some seconds
  /\ forall other, (0 <= other < 360000)%Z ->
       ChargingView.formatTime other = ChargingView.formatTime seconds ->
       other = seconds.
Proof.
  intros Hs. destruct (formatTime_shape seconds Hs) as [Hlen Hread].
  split; [exact Hlen|]. split; [exact Hread|].
  intros other Ho Heq. destruct (formatTime_shape other Ho) as [_ Hread'].
  rewrite Heq, Hread in Hread'. congruence.
Qed.

Lemma formatTime_round_trip_witness :
  ChargingView.formatTime 3725 = "01:02:05"
  /\ ChargingView.read_clock (ChargingView.formatTime 3725) = Some 3725%Z.
Proof.
  assert (H : (0 <= 3725 < 360000)%Z) by (split; [discriminate | reflexivity]).
  split; [reflexivity|].
  exact (proj1 (proj2 (formatTime_round_trip 3725 H))).
Defined.

(** ** The summary screen *)

(** X20: the duration the summary shows has no seconds: two durations with
    the same number of whole minutes are shown alike, and for a session
    that has an end time the duration does not depend on when the summary
    is looked at. *)
Theorem summary_duration_in_minutes a b :
  (0 <= a)%Z -> (0 <= b)%Z -> (a / 60 = b / 60)%Z ->
  SummaryScr.formatTime a = SummaryScr.formatTime b
  /\ forall session now now', ChargingSession.endTime session <> None ->
       SummaryScr.duration now session = SummaryScr.duration now' session.
Proof.
  intros Ha Hb Hab. split.
  - unfold SummaryScr.formatTime. cbv zeta.
    rewrite !Z.rem_mod_nonneg by lia.
    assert (E1 : (a / 3600 = b / 3600)%Z).
    { change 3600%Z with (60 * 60)%Z. rewrite <- !Z.div_div by lia. now rewrite Hab. }
    assert (E2 : (a mod 3600 / 60 = b mod 3600 / 60)%Z).
    { Z.div_mod_to_equations. lia. }
    now rewrite E1, E2.
  - intros session now now' He. unfold SummaryScr.duration.
    destruct (ChargingSession.endTime session); [reflexivity | congruence].
Qed.

Lemma summary_duration_in_minutes_witness :
  SummaryScr.formatTime 3725 = SummaryScr.formatTime 3779.
Proof.
  apply (summary_duration_in_minutes 3725 3779); [discriminate | discriminate | reflexivity].
Defined.

(** ** The cached backend check *)

Lemma spaced_snoc gap l t now :
  BackendCheck.spaced gap (l ++ [t]) -> (t + gap <= now)%Z ->
  BackendCheck.spaced gap ((l ++ [t]) ++ [now]).
Proof.
  induction l as [|a l IH]; intros Hs Ht.
  - cbn. auto.
  - destruct l as [|b l].
    + cbn in *. tauto.
    + cbn [app BackendCheck.spaced] in *. destruct Hs as [Hab Hs]. split; [exact Hab|].
      now apply IH.
Qed.

Lemma checks_spaced calls st :
  BackendCheck.spaced 3000 (BackendCheck.requests st) ->
  (BackendCheck.requests st = []
   \/ exists l, BackendCheck.requests st = (l ++ [BackendCheck.lastBackendCheck st])%list) ->
  BackendCheck.spaced 3000 (BackendCheck.requests (BackendCheck.checks calls st)).
Proof.
  revert st. induction calls as [|[now ok] calls IH]; intros st Hs Hlast; [exact Hs|].
  cbn [BackendCheck.checks]. apply IH.
  - unfold BackendCheck.checkBackend, BackendCheck.BACKEND_CHECK_CACHE_MS.
    destruct (now - BackendCheck.lastBackendCheck st <? 3000)%Z eqn:E; [exact Hs|].
    apply Z.ltb_ge in E. cbn [BackendCheck.requests].
    destruct Hlast as [-> | [l Hl]]; [exact I|].
    rewrite Hl in *. apply spaced_snoc; [exact Hs | lia].
  - unfold BackendCheck.checkBackend.
    destruct (now - BackendCheck.lastBackendCheck st <? _)%Z; [exact Hlast|].
    right. now exists (BackendCheck.requests st).
Qed.

(** X21: the backend check of the authentication screen is cached: calls
    made less than 3000 ms after the last check that went through fetch
    nothing and change nothing, so whatever the sequence of calls, two
    consecutive health requests are at least 3000 ms apart. *)
Theorem checkBackend_is_cached calls :
  BackendCheck.spaced 3000
    (BackendCheck.requests (BackendCheck.checks calls BackendCheck.init))
  /\ forall st,
       Forall (fun c => (fst c - BackendCheck.lastBackendCheck st < 3000)%Z) calls ->
       BackendCheck.checks calls st = st.
Proof.
  split.
  - apply checks_spaced; [exact I | now left].
  - intros st H. induction H as [|[now ok] calls Hc _ IH]; [reflexivity|].
    cbn [BackendCheck.checks]. unfold BackendCheck.checkBackend at 1.
    unfold BackendCheck.BACKEND_CHECK_CACHE_MS. cbn [fst] in Hc.
    apply Z.ltb_lt in Hc. rewrite Hc. exact IH.
Qed.

(** ** The subscribers of the RFID event stream *)

Lemma remove_first_split callback l :
  In callback l ->
  exists l1 l2, l = (l1 ++ callback :: l2)%list
                /\ EventStream.remove_first callback l = (l1 ++ l2)%list.
Proof.
  induction l as [|x l IH]; intros Hin; [contradiction|].
  cbn [EventStream.remove_first]. destruct (x =? callback)%nat eqn:E.
  - apply Nat.eqb_eq in E. subst x. now exists [], l.
  - destruct Hin as [-> | Hin]; [now rewrite Nat.eqb_refl in E|].
    destruct (IH Hin) as (l1 & l2 & -> & Hr).
    exists (x :: l1), l2. cbn. now rewrite Hr.
Qed.

Lemma remove_first_perm callback l registered :
  Permutation (callback :: l) registered ->
  Permutation l (EventStream.remove_first callback registered).
Proof.
  intros Hp.
  assert (Hin : In callback registered)
    by (apply (Permutation_in _ Hp); now left).
  destruct (remove_first_split callback registered Hin) as (l1 & l2 & -> & ->).
  now apply Permutation_cons_app_inv in Hp.
Qed.

(** X22: once the stream is connected, when every registered callback has
    been cleaned up, in whatever order, no callback is left and the stream
    has been closed, by the last cleanup and not before. *)
Theorem last_cleanup_closes_the_stream l st :
  EventStream.eventSource st = true ->
  l <> [] ->
  Permutation l (EventStream.rfidEventCallbacks st) ->
  let st' := EventStream.cleanups l st in
  EventStream.rfidEventCallbacks st' = []
  /\ EventStream.eventSource st' = false
  /\ EventStream.open_streams st' = pred (EventStream.open_streams st)
  /\ forall callback l', l = (callback :: l')%list -> l' <> [] ->
       EventStream.eventSource (EventStream.cleanup callback st) = true.
Proof.
  revert st. induction l as [|callback l IH]; intros st Hes Hne Hp; [congruence|].
  cbn [EventStream.cleanups]. apply remove_first_perm in Hp.
  destruct l as [|callback' l].
  - apply Permutation_nil in Hp. unfold EventStream.cleanup. rewrite Hp, Hes. cbn.
    repeat split. intros c l' E. injection E as _ <-. congruence.
  - assert (Hlen : (List.length (EventStream.remove_first callback
                                   (EventStream.rfidEventCallbacks st)) =? 0)%nat = false).
    { apply Nat.eqb_neq. rewrite <- (Permutation_length Hp). discriminate. }
    assert (Hc : EventStream.cleanup callback st
                 = EventStream.mk
                     (EventStream.remove_first callback (EventStream.rfidEventCallbacks st))
                     (EventStream.eventSource st) (EventStream.open_streams st)).
    { unfold EventStream.cleanup. now rewrite Hlen. }
    destruct (IH (EventStream.cleanup callback st)) as (H1 & H2 & H3 & _).
    + now rewrite Hc.
    + discriminate.
    + now rewrite Hc.
    + split; [exact H1|]. split; [exact H2|]. split; [now rewrite H3, Hc|].
      intros c l' E _. injection E as <- _. now rewrite Hc.
Qed.

Lemma last_cleanup_closes_the_stream_witness :
  EventStream.eventSource
    (EventStream.cleanups [2; 1]%nat
       (EventStream.connect true
          (snd (EventStream.startRfidEventStream 2
                  (snd (EventStream.startRfidEventStream 1 EventStream.init))))))
  = false.
Proof.
  assert (Hne : [2; 1]%nat <> []) by discriminate.
  exact (proj1 (proj2 (last_cleanup_closes_the_stream [2; 1]%nat
                         (EventStream.connect true
                            (snd (EventStream.startRfidEventStream 2
                                    (snd (EventStream.startRfidEventStream 1
                                            EventStream.init)))))
                         eq_refl Hne (perm_swap 1%nat 2%nat [])))).
Defined.

(** X23: a cleanup that runs before the connection attempt resolves does
    not cancel the attempt: when the backend then answers, the stream is
    opened with no callback registered, and a message on it notifies
    nobody. *)
Theorem cleanup_before_connect_leaves_a_stream callback st :
  EventStream.eventSource st = false ->
  EventStream.rfidEventCallbacks st = [] ->
  let '(attempt, st1) := EventStream.startRfidEventStream callback st in
  let st2 := EventStream.connect true (EventStream.cleanup callback st1) in
  attempt = true
  /\ EventStream.rfidEventCallbacks st2 = []
  /\ EventStream.eventSource st2 = true
  /\ EventStream.open_streams st2 = S (EventStream.open_streams st)
  /\ EventStream.notified st2 = [].
Proof.
  intros Hes Hcb. unfold EventStream.startRfidEventStream, EventStream.cleanup.
  cbn [EventStream.rfidEventCallbacks EventStream.eventSource EventStream.open_streams].
  rewrite Hes, Hcb. cbn. rewrite Nat.eqb_refl. cbn. auto.
Qed.

Lemma cleanup_before_connect_leaves_a_stream_witness :
  EventStream.eventSource
    (EventStream.connect true
       (EventStream.cleanup 1
          (snd (EventStream.startRfidEventStream 1 EventStream.init)))) = true.
Proof.
  exact (proj1 (proj2 (proj2 (cleanup_before_connect_leaves_a_stream 1
                                 EventStream.init eq_refl eq_refl)))).
Defined.

Lemma cleanups_prefix l callback src n :
  EventStream.cleanups l (EventStream.mk (l ++ [callback]) src n)
  = EventStream.mk [callback] src n.
Proof.
  induction l as [|x l IH]; [reflexivity|].
  cbn [EventStream.cleanups]. unfold EventStream.cleanup.
  cbn [EventStream.rfidEventCallbacks EventStream.eventSource EventStream.open_streams
       app EventStream.remove_first].
  rewrite Nat.eqb_refl.
  assert (Hlen : (List.length (l ++ [callback]) =? 0)%nat = false).
  { apply Nat.eqb_neq. rewrite length_app. cbn. lia. }
  rewrite Hlen. exact IH.
Qed.

(** X24: reconnecting after a stream error registers the callback of the
    stream a second time.  When the stream is open with callbacks
    registered, an error followed by the retry and a successful connection
    leaves the callbacks followed by that callback once more, so a message
    then reaches it once more than before; and when every callback
    registered before the error has been cleaned up, that callback is still
    registered and the stream is still open. *)
Theorem reconnect_registers_the_callback_again callback st :
  EventStream.eventSource st = true ->
  EventStream.rfidEventCallbacks st <> [] ->
  let st1 := EventStream.connect true
               (snd (EventStream.retry callback (EventStream.onerror st))) in
  let st2 := EventStream.cleanups (EventStream.rfidEventCallbacks st) st1 in
  EventStream.notified st1 = (EventStream.rfidEventCallbacks st ++ [callback])%list
  /\ EventStream.rfidEventCallbacks st2 = [callback]
  /\ EventStream.eventSource st2 = true
  /\ EventStream.open_streams st2 = S (pred (EventStream.open_streams st)).
Proof.
  intros Hes Hne. unfold EventStream.onerror, EventStream.retry. rewrite Hes.
  cbn [EventStream.rfidEventCallbacks].
  destruct (EventStream.rfidEventCallbacks st) as [|x l] eqn:E; [congruence|].
  cbn [List.length Nat.ltb Nat.leb]. cbn [EventStream.startRfidEventStream snd
    EventStream.rfidEventCallbacks EventStream.eventSource EventStream.open_streams].
  unfold EventStream.connect.
  cbn [EventStream.rfidEventCallbacks EventStream.eventSource EventStream.open_streams].
  cbv zeta. rewrite cleanups_prefix. cbn. auto.
Qed.

Lemma reconnect_registers_the_callback_again_witness :
  EventStream.notified
    (EventStream.connect true
       (snd (EventStream.retry 1
               (EventStream.onerror
                  (EventStream.connect true
                     (snd (EventStream.startRfidEventStream 1 EventStream.init)))))))
  = [1; 1]%nat.
Proof.
  assert (Hne : EventStream.rfidEventCallbacks
                  (EventStream.connect true
                     (snd (EventStream.startRfidEventStream 1 EventStream.init))) <> [])
    by discriminate.
  exact (proj1 (reconnect_registers_the_callback_again 1
                  (EventStream.connect true
                     (snd (EventStream.startRfidEventStream 1 EventStream.init)))
                  eq_refl Hne)).
Defined.

(** ** What a balance write leaves alone *)

Lemma find_assign_first_other i j b l :
  j <> i ->
  find (has_id j) (assign_first (has_id i) b l) = find (has_id j) l.
Proof.
  intros Hji. induction l as [|u l IH]; [reflexivity|].
  cbn [assign_first]. destruct (has_id i u) eqn:Ei.
  - cbn [find]. unfold has_id in *. cbn [User.set_balance User.id].
    apply String.eqb_eq in Ei.
    assert (E : (User.id u =? j) = false) by (apply String.eqb_neq; congruence).
    now rewrite E.
  - cbn [find]. destruct (has_id j u); [reflexivity | exact IH].
Qed.

Lemma assign_first_identity p b l :
  map User.id (assign_first p b l) = map User.id l
  /\ map User.rfidCardId (assign_first p b l) = map User.rfidCardId l.
Proof.
  induction l as [|u l [IH1 IH2]]; [now split|].
  cbn [assign_first]. destruct (p u); cbn [map]; [now split|].
  now rewrite IH1, IH2.
Qed.

(** X25: [db.updateUserBalance(i, b)] changes one balance only: the balance
    the store shows for any other id is the same before and after, the
    accounts keep their order, ids, names and cards, and sessions and
    transactions are untouched. *)
Theorem updateUserBalance_frame i b j s :
  defaults_intact s ->
  j <> i ->
  let s' := updateUserBalance i b s in
  stored_balance j s' = stored_balance j s
  /\ map User.id (getUsers_list s') = map User.id (getUsers_list s)
  /\ map User.name (getUsers_list s') = map User.name (getUsers_list s)
  /\ map User.rfidCardId (getUsers_list s') = map User.rfidCardId (getUsers_list s)
  /\ ls_sessions s' = ls_sessions s
  /\ ls_transactions s' = ls_transactions s.
Proof.
  intros Hd Hji s'.
  destruct (updateUserBalance_keeps i b s) as (_ & Hs & Ht).
  destruct (find (has_id i) (getUsers_list s)) as [u|] eqn:Hf.
  - pose proof (updateUserBalance_read i b s u Hd Hf) as Hr. fold s' in Hr.
    destruct (assign_first_identity (has_id i) b (getUsers_list s)) as [Hid Hrf].
    unfold stored_balance. rewrite Hr, (find_assign_first_other i j b _ Hji).
    rewrite Hid, Hrf, assign_first_names. repeat split; auto.
  - pose proof (updateUserBalance_absent i b s Hf) as Hr. fold s' in Hr.
    unfold stored_balance. rewrite Hr, (getUsers_list_again s Hd).
    destruct (getUsers_keeps s) as (_ & Hs' & Ht'). repeat split; auto.
Qed.

Lemma updateUserBalance_frame_witness :
  stored_balance "2" (updateUserBalance "1" 5 legacy_store)
  = stored_balance "2" legacy_store.
Proof.
  assert (Hne : "2" <> "1") by discriminate.
  exact (proj1 (updateUserBalance_frame "1" 5 "2" legacy_store eq_refl Hne)).
Defined.

(** ** The target the relay is started for *)

(** X26: the target [handleConfirm] hands to the hardware service is the
    target of the session it has just stored: after a confirmation the
    service and the session of the context agree on the target, which is at
    most 100, and both energy counters are at 0. *)
Theorem confirmed_target_is_shared now reply k amount user :
  CostSelection.truthy_amount (selectedAmount (cost k)) = Some amount ->
  currentUser (ctx k) = Some user ->
  let k' := CostSelection.handleConfirm now reply k in
  exists session,
    currentSession (ctx k') = Some session
    /\ In session (getSessions (db k'))
    /\ Hardware.targetBattery (hw k') = ChargingSession.targetBattery session
    /\ ChargingSession.targetBattery session <= 100
    /\ Hardware.energyDelivered (hw k') = 0
    /\ ChargingSession.energyDelivered session = 0.
Proof.
  intros Ha Hu k'.
  destruct (handleConfirm_runs now reply k amount user Ha Hu) as (_ & Hs & _ & _ & Hh).
  pose proof (handleConfirm_sessions now reply k amount user Ha Hu) as Hl.
  fold k' in Hs, Hh, Hl.
  exists (CostSelection.new_session now k user amount).
  split; [exact Hs|]. split; [rewrite Hl; apply in_or_app; right; now left|].
  rewrite Hh. unfold CostSelection.targetBattery. rewrite Ha.
  cbn [CostSelection.new_session ChargingSession.targetBattery
       ChargingSession.energyDelivered].
  assert (Hm : forall target,
    Hardware.targetBattery (snd (Hardware.startCharging target now reply (hw k))) = target
    /\ Hardware.energyDelivered (snd (Hardware.startCharging target now reply (hw k))) = 0).
  { intros target. unfold Hardware.startCharging.
    destruct reply as [|[[ic [cu|]]|] [|]]; cbn; auto. }
  destruct (Hm (CostSelection.calculateTargetBattery k amount)) as (H1 & H2).
  repeat split; try assumption.
  apply calculateTargetBattery_le.
Qed.

Lemma confirmed_target_is_shared_witness :
  exists session,
    currentSession (ctx (CostSelection.handleConfirm 1000 StartBackendDown amount_selected))
    = Some session
    /\ ChargingSession.targetBattery session <= 100.
Proof.
  destruct (confirmed_target_is_shared 1000 StartBackendDown amount_selected 40
              (User.mk "1" "Lalit Nikumbh" "RFID001" 100 (Some "+91 9876543212")
                 "2025-01-01T00:00:00.000Z") eq_refl eq_refl)
    as (session & Hs & _ & _ & Hle & _).
  exists session. split; assumption.
Defined.

(** ** From a scan to the cost screen *)

(** X27: after a scan on the authentication screen, [handleProceed] reaches
    the cost screen exactly when the hardware service returned a card id and
    the store has a user for it; that user is then the one logged in.
    After any other scan the screen stays where it is, with the error
    message set. *)
Theorem scan_then_proceed reply now k :
  route k = Home ->
  let k1 := Auth.handleScan reply now k in
  let k2 := Auth.handleProceed k1 in
  (route k2 = SelectCost
   <-> exists r u, fst (Hardware.scanRfid reply now (hw k)) = Some r
                   /\ fst (getUserByRfid r (db k)) = Some u)
  /\ (forall r u, fst (Hardware.scanRfid reply now (hw k)) = Some r ->
                  fst (getUserByRfid r (db k)) = Some u ->
                  currentUser (ctx k2) = Some u)
  /\ (route k2 <> SelectCost -> route k2 = Home /\ error (auth k2) <> None).
Proof.
  intros Hr. unfold Auth.handleScan, AppCtx.scanRfid. kiosk_simpl.
  destruct (Hardware.scanRfid reply now (hw k)) as [[r|] h] eqn:Hscan; cbn [fst].
  - kiosk_simpl.
    destruct (getUserByRfid r (db k)) as [[u|] s] eqn:Hget; kiosk_simpl.
    + unfold Auth.handleProceed. kiosk_simpl. cbn [Router.navigate]. kiosk_simpl.
      unfold Router.mount_cost. kiosk_simpl. split; [|split].
      * split; [intros _ | reflexivity].
        exists r, u. split; [reflexivity | now rewrite Hget].
      * intros r' u' Hr' Hu'. injection Hr' as <-. rewrite Hget in Hu'. exact Hu'.
      * congruence.
    + assert (Hno : ~ exists r' u', Some r = Some r'
                                    /\ fst (getUserByRfid r' (db k)) = Some u').
      { intros (r' & u' & Hr' & Hu'). injection Hr' as <-. rewrite Hget in Hu'.
        discriminate. }
      unfold Auth.handleProceed. kiosk_simpl.
      destruct (currentUser (ctx k)); kiosk_simpl; rewrite Hr;
        (split; [split; [discriminate | intros H; now destruct Hno]|]);
        (split; [intros r' u' Hr' Hu'; destruct Hno; now exists r', u'|]);
        intros _; split; congruence.
  - assert (Hno : ~ exists r' u', @None string = Some r'
                                  /\ fst (getUserByRfid r' (db k)) = Some u').
    { intros (r' & u' & Hr' & _). discriminate. }
    unfold Auth.handleProceed. kiosk_simpl.
    destruct (currentUser (ctx k)); kiosk_simpl; rewrite Hr;
      (split; [split; [discriminate | intros H; now destruct Hno]|]);
      (split; [intros r' u' Hr' Hu'; discriminate|]);
      intros _; split; congruence.
Qed.

Lemma scan_then_proceed_witness :
  route (Auth.handleProceed
           (Auth.handleScan ScanBackendDown 1
              (boot (fresh_store "2025-01-01T00:00:00.000Z")))) = SelectCost.
Proof.
  apply (proj1 (scan_then_proceed ScanBackendDown 1
                  (boot (fresh_store "2025-01-01T00:00:00.000Z")) eq_refl)).
  eexists. eexists. split; reflexivity.
Defined.

(** ** The amount on the cost screen is positive *)

Lemma selection_frame k k' :
  selectedAmount (cost k') = selectedAmount (cost k) ->
  selection_positive k = true -> selection_positive k' = true.
Proof. unfold selection_positive. now intros ->. Qed.

Lemma mount_auth_cost k : cost (Router.mount_auth k) = cost k.
Proof. unfold Router.mount_auth. now destruct (getUsers (db k)). Qed.

Lemma navigate_selection r k :
  selection_positive k = true -> selection_positive (Router.navigate r k) = true.
Proof.
  intros H.
  assert (Hauth : selection_positive (Router.mount_auth k) = true).
  { revert H. apply selection_frame. now rewrite mount_auth_cost. }
  destruct r; cbn [Router.navigate]; try exact Hauth.
  - destruct (currentUser (ctx k)); [reflexivity | exact Hauth].
  - destruct (currentSession (ctx k)) as [x|]; [|exact Hauth].
    destruct (is_in_progress x); exact H.
  - exact H.
  - revert H. apply selection_frame. unfold Router.mount_admin.
    now destruct (getUsers (db k)).
Qed.

Lemma rerender_selection k :
  selection_positive k = true -> selection_positive (Router.rerender k) = true.
Proof.
  intros H. unfold Router.rerender. destruct (route k); try exact H.
  - destruct (currentUser (ctx k)); [exact H|].
    revert H. apply selection_frame. now rewrite mount_auth_cost.
  - now apply navigate_selection.
Qed.

Lemma selection_set a k' :
  selectedAmount (cost k') = Some a -> Qgt_bool a 0 = true ->
  selection_positive k' = true.
Proof.
  intros Hs Ha. unfold selection_positive, CostSelection.truthy_amount. rewrite Hs.
  destruct (Qeq_bool a 0); [reflexivity | exact Ha].
Qed.

Lemma handle_selection_positive op k :
  selection_positive k = true -> selection_positive (handle op k) = true.
Proof.
  intros H. destruct op; cbn [handle].
  - now apply navigate_selection.
  - exact H.
  - revert H. apply selection_frame.
    now rewrite (proj2 (proj2 (tick_same_gate now rv rc reply_sim reply_stop k))).
  - destruct (on_cases Home k (Auth.handleScan reply now)) as [-> | ->]; [|exact H].
    revert H. apply selection_frame.
    now rewrite (proj2 (proj2 (handleScan_same_gate reply now k))).
  - destruct (on_cases Home k
                (fun k => Auth.handleRfidEvent event now
                            (with_hw (onmessage event now (hw k)) k))) as [-> | ->];
      [|exact H].
    revert H. apply selection_frame.
    now rewrite (proj2 (proj2 (handleRfidEvent_same_gate event now k))).
  - destruct (on_cases Home k (Auth.handleSelectRfid i)) as [-> | ->]; [|exact H].
    unfold Auth.handleSelectRfid. destruct (nth_error _ i); exact H.
  - destruct (on_cases Home k Auth.handleProceed) as [-> | ->]; [|exact H].
    unfold Auth.handleProceed. destruct (currentUser (ctx k)); [|exact H].
    destruct (cardScanned (auth k)); [now apply navigate_selection | exact H].
  - destruct (on_cases Home k Auth.handleLogout) as [-> | ->]; exact H.
  - match goal with |- context [on SelectCost k ?f] =>
      destruct (on_cases SelectCost k f) as [-> | ->]; [|exact H] end.
    destruct (nth_error CostSelection.presetAmounts i) as [amount|] eqn:E; [|exact H].
    unfold CostSelection.handleAmountSelect.
    destruct (Qgt_bool amount (CostSelection.user_balance k)); [exact H|].
    apply (selection_set amount); [reflexivity|].
    pose proof (preset_positive amount i E) as Hpos. unfold Qgt_bool.
    apply negb_true_iff. destruct (Qle_bool amount 0) eqn:E0; [|reflexivity].
    apply Qle_bool_iff in E0. lra.
  - destruct (on_cases SelectCost k (CostSelection.handleCustomAmount value num))
      as [-> | ->]; [|exact H].
    unfold CostSelection.handleCustomAmount.
    destruct num as [n|]; [|reflexivity].
    destruct (Qgt_bool n 0) eqn:E0; [|reflexivity].
    destruct (Qgt_bool n (CostSelection.user_balance k)); [exact H|].
    now apply (selection_set n).
  - match goal with |- context [on SelectCost k ?f] =>
      destruct (on_cases SelectCost k f) as [-> | ->]; [|exact H] end.
    destruct (processing (cost k)); [exact H|].
    revert H. apply selection_frame. unfold CostSelection.handleConfirm.
    destruct (CostSelection.truthy_amount (selectedAmount (cost k))); [|reflexivity].
    destruct (currentUser (ctx k)) as [user|]; [|reflexivity].
    cbv zeta. unfold Router.navigate. kiosk_simpl.
    replace (is_in_progress (CostSelection.new_session now k user q)) with true
      by reflexivity.
    reflexivity.
  - destruct (on_cases Charging k (ChargingScr.handleStop now reply)) as [-> | ->];
      [|exact H].
    unfold ChargingScr.handleStop. destruct (currentSession (ctx k)); exact H.
  - destruct (on_cases Admin k (AdminScr.handleBalanceAdjustment userId amount add now))
      as [-> | ->]; [|exact H].
    revert H. apply selection_frame.
    now rewrite (proj2 (proj2 (handleBalanceAdjustment_same_gate userId amount add now k))).
  - destruct (on_cases Admin k (AppCtx.updateSettings v)) as [-> | ->]; exact H.
Qed.

(** Every target [handleConfirm] computes is for a positive amount: no run
    of the kiosk, stale handlers included, puts another amount on the cost
    screen. *)
Lemma selection_positive_kept ops k :
  selection_positive k = true -> selection_positive (run_all ops k) = true.
Proof.
  revert k. induction ops as [|op ops IH]; intros k H; [exact H|].
  cbn [run_all]. apply IH. unfold step_all. apply rerender_selection.
  destruct op as [op|ref event now]; cbn [handle_all].
  - now apply handle_selection_positive.
  - revert H. apply selection_frame.
    now rewrite (proj1 (proj2 (stale_handler_frame ref event now k))).
Qed.
